(** * DayPilot API: a shallow embedding of the planning backend

    The development follows the Python sources:
    - [services/progress_service.py]  (progress summary, burnout score),
    - [services/schedule_service.py]  (schedule generation, adaptive reschedule),
    - [routers/habits.py]             (habit check-in),
    - [routers/chat.py]               (coach chat and its stored history),
    - [agentz/planner_agent.py]       (response extraction of the coach),
    - [db/database.py]                (the relational schema).

    Conventions of the embedding.
    - A Python [str] is the list of its code points.
    - Python exceptions are an error monad, [Result].
    - Python floats are exact rationals ([Q]); [round(x, 3)] rounds the exact
      value half-to-even.  The burnout sum is also written on binary64, to
      compare the two at the documented inputs.
    - An SQLite INTEGER is an unbounded integer.
    - A table read only through its primary key is a [gmap]; a table that is
      also searched by other columns is the list of its rows in rowid order,
      and a [fetchone] takes the first matching row of that order.
    - A date is its day number; ISO date texts compare as day numbers do.
    - A TEXT column holding [json.dumps(v)] is the JSON value [v].
    - The library functions [json.loads] and [int], the pydantic
      constructors, [uuid.uuid4] and the remote model are the fields of the
      class [Externals]; every handler is stated for an arbitrary instance. *)

From Stdlib Require Import ZArith QArith Qround Qminmax NArith List String Ascii Lia.
From Stdlib Require Import Floats Lqa.
From stdpp Require Import base option list gmap.

Set Default Proof Using "Type".
Set Warnings "-register-all".

(** ** Python runtime *)

Module Py.

(** A [str]: the sequence of its Unicode code points. *)
Definition str : Type := list N.

Definition of_string (s : string) : str :=
  List.map N_of_ascii (list_ascii_of_string s).

(** The exception classes the modelled code can meet; all of them derive
    from [Exception]. *)
Inductive exn : Type :=
| ValueError
| TypeError
| AttributeError
| KeyError
| ZeroDivisionError
| JSONDecodeError
| ValidationError
| IntegrityError
| InterfaceError
| RemoteError.

Inductive Result (A : Type) : Type :=
| Ok (a : A)
| Raise (e : exn).
Arguments Ok {A} a.
Arguments Raise {A} e.

#[global] Instance Result_ret : MRet Result := fun _ a => Ok a.
#[global] Instance Result_bind : MBind Result := fun _ _ f m =>
  match m with
  | Ok a => f a
  | Raise e => Raise e
  end.

(** [try: body / except Exception: handler]. *)
Definition try_except {A} (body : Result A) (handler : Result A) : Result A :=
  match body with
  | Ok a => Ok a
  | Raise _ => handler
  end.

(** [[f(x) for x in xs]], stopping at the first exception. *)
Fixpoint traverse {A B} (f : A -> Result B) (xs : list A) : Result (list B) :=
  match xs with
  | [] => Ok []
  | x :: xs' => y ← f x; ys ← traverse f xs'; Ok (y :: ys)
  end.

(** [str.isspace] on one code point (CPython's [_PyUnicode_IsWhitespace]). *)
Definition isspace (c : N) : bool :=
  ((9 <=? c) && (c <=? 13) || (28 <=? c) && (c <=? 32)
   || (c =? 133) || (c =? 160) || (c =? 5760)
   || (8192 <=? c) && (c <=? 8202)
   || (c =? 8232) || (c =? 8233) || (c =? 8239) || (c =? 8287)
   || (c =? 12288))%N.

(** [c in chars]. *)
Definition mem (chars : str) (c : N) : bool := existsb (N.eqb c) chars.

Fixpoint lstrip_by (p : N -> bool) (s : str) : str :=
  match s with
  | [] => []
  | c :: s' => if p c then lstrip_by p s' else s
  end.

Definition rstrip_by (p : N -> bool) (s : str) : str :=
  rev (lstrip_by p (rev s)).

(** [s.strip()], [s.lstrip(chars)], [s.rstrip(chars)], [s.strip(chars)]:
    the argument is a set of characters, not a prefix or suffix. *)
Definition strip (s : str) : str := rstrip_by isspace (lstrip_by isspace s).
Definition lstrip (chars s : str) : str := lstrip_by (mem chars) s.
Definition rstrip (chars s : str) : str := rstrip_by (mem chars) s.
Definition strip_chars (chars s : str) : str := rstrip chars (lstrip chars s).

(** [s.split(sep)] for a one-character separator. *)
Fixpoint split_on (sep : N) (s : str) : list str :=
  match s with
  | [] => [[]]
  | c :: s' =>
      if (c =? sep)%N then [] :: split_on sep s'
      else match split_on sep s' with
           | [] => [[c]]
           | w :: ws => (c :: w) :: ws
           end
  end.

(** [a < b] on strings: lexicographic on code points, a proper prefix
    being smaller. *)
Fixpoint str_ltb (a b : str) : bool :=
  match a, b with
  | _, [] => false
  | [], _ :: _ => true
  | x :: a', y :: b' =>
      if (x <? y)%N then true
      else if (x =? y)%N then str_ltb a' b'
      else false
  end.

(** [a >= b]. *)
Definition str_geb (a b : str) : bool := negb (str_ltb a b).

(** [a / b] on numbers. *)
Definition truediv (a b : Q) : Result Q :=
  if Qeq_bool b 0 then Raise ZeroDivisionError else Ok (a / b)%Q.

(** [round(x, 3)]: the nearest multiple of 1/1000, ties to even. *)
Definition round_half_even (y : Q) : Z :=
  let f := Qfloor y in
  match (y - inject_Z f ?= 1 # 2)%Q with
  | Lt => f
  | Gt => (f + 1)%Z
  | Eq => if Z.even f then f else (f + 1)%Z
  end.

Definition round3 (x : Q) : Q := (inject_Z (round_half_even (x * 1000)) / 1000)%Q.

End Py.

Import Py.

Notation "'py' s" := (Py.of_string s%string) (at level 9, s at level 0, only parsing).

(** ** JSON values, as [json.loads] builds them *)

Inductive JSON : Type :=
| JNull
| JBool (b : bool)
| JNum (q : Q)
| JStr (s : str)
| JArr (items : list JSON)
| JObj (fields : list (str * JSON)).

Definition str_eqb (a b : str) : bool := bool_decide (a = b).

(** Lookup in a Python [dict] kept in insertion order. *)
Fixpoint dict_get {V} (d : list (str * V)) (k : str) : option V :=
  match d with
  | [] => None
  | (k', v) :: d' => if str_eqb k' k then Some v else dict_get d' k
  end.

(** [d.get(k, default)]: an attribute of [dict] only. *)
Definition py_get (d : JSON) (k : str) (dflt : JSON) : Result JSON :=
  match d with
  | JObj fields => Ok (default dflt (dict_get fields k))
  | _ => Raise AttributeError
  end.

(** Truth value of a JSON-born Python value ([not v] is its negation). *)
Definition py_truthy (v : JSON) : bool :=
  match v with
  | JNull => false
  | JBool b => b
  | JNum q => negb (Qeq_bool q 0)
  | JStr s => negb (bool_decide (s = []))
  | JArr l => negb (bool_decide (length l = 0%nat))
  | JObj d => negb (bool_decide (length d = 0%nat))
  end.

(** [for x in v]: a list yields its items, a dict its keys, a str its
    characters; nothing else is iterable. *)
Definition py_iter (v : JSON) : Result (list JSON) :=
  match v with
  | JArr l => Ok l
  | JObj d => Ok (List.map (fun kv => JStr (fst kv)) d)
  | JStr s => Ok (List.map (fun c => JStr [c]) s)
  | _ => Raise TypeError
  end.

(** [d[k] = v] on a dict kept in insertion order. *)
Fixpoint dict_set {V} (d : list (str * V)) (k : str) (v : V) : list (str * V) :=
  match d with
  | [] => [(k, v)]
  | (k', v') :: d' =>
      if str_eqb k' k then (k', v) :: d' else (k', v') :: dict_set d' k v
  end.

(** A value sqlite3 can bind to a [?]: not a list, not a dict. *)
Definition sqlite_bind (v : JSON) : Result JSON :=
  match v with
  | JArr _ | JObj _ => Raise InterfaceError
  | _ => Ok v
  end.

(** ** models/schemas.py *)

Inductive EnergyLevel : Type := LOW | MEDIUM | HIGH.

Inductive Priority : Type := P_LOW | P_MEDIUM | P_HIGH | P_URGENT.

Inductive TaskStatus : Type :=
| PENDING | IN_PROGRESS | COMPLETED | SKIPPED | RESCHEDULED.

#[global] Instance EnergyLevel_eq_dec : EqDecision EnergyLevel.
Proof. solve_decision. Defined.
#[global] Instance Priority_eq_dec : EqDecision Priority.
Proof. solve_decision. Defined.
#[global] Instance TaskStatus_eq_dec : EqDecision TaskStatus.
Proof. solve_decision. Defined.

Definition EnergyLevel_value (e : EnergyLevel) : str :=
  match e with
  | LOW => py"low" | MEDIUM => py"medium" | HIGH => py"high"
  end.

Definition Priority_value (p : Priority) : str :=
  match p with
  | P_LOW => py"low" | P_MEDIUM => py"medium"
  | P_HIGH => py"high" | P_URGENT => py"urgent"
  end.

Definition TaskStatus_value (s : TaskStatus) : str :=
  match s with
  | PENDING => py"pending" | IN_PROGRESS => py"in_progress"
  | COMPLETED => py"completed" | SKIPPED => py"skipped"
  | RESCHEDULED => py"rescheduled"
  end.

Definition date : Type := Z.

Record TimeBlock : Type := mkTimeBlock {
  block_id : str;
  title : str;
  description : option str;
  start_time : str;
  end_time : str;
  category : str;
  goal_id : option str;
  priority : Priority;
  energy_required : EnergyLevel;
  status : TaskStatus;
  is_flexible : bool
}.

Definition opt_str_json (o : option str) : JSON :=
  match o with
  | Some s => JStr s
  | None => JNull
  end.

(** [b.model_dump()], as [json.dumps] then writes it. *)
Definition model_dump (b : TimeBlock) : JSON :=
  JObj [ (py"block_id", JStr (block_id b));
         (py"title", JStr (title b));
         (py"description", opt_str_json (description b));
         (py"start_time", JStr (start_time b));
         (py"end_time", JStr (end_time b));
         (py"category", JStr (category b));
         (py"goal_id", opt_str_json (goal_id b));
         (py"priority", JStr (Priority_value (priority b)));
         (py"energy_required", JStr (EnergyLevel_value (energy_required b)));
         (py"status", JStr (TaskStatus_value (status b)));
         (py"is_flexible", JBool (is_flexible b)) ].

Record DailySchedule : Type := mkDailySchedule {
  ds_schedule_id : str;
  ds_user_id : str;
  ds_date : date;
  time_blocks : list TimeBlock;
  total_work_hours : Q;
  ai_notes : JSON;
  ds_created_at : str
}.

Record ScheduleGenerateRequest : Type := mkScheduleGenerateRequest {
  sg_user_id : str;
  sg_date : date;
  sg_goals : list str;
  sg_force_regenerate : bool;
  sg_context : option str
}.

Record HabitCheckIn : Type := mkHabitCheckIn {
  hc_habit_id : str;
  hc_completed : bool;
  hc_date : date;
  hc_note : option str
}.

Record ChatMessage : Type := mkChatMessage {
  cm_role : str;
  cm_content : str;
  cm_timestamp : option str
}.

Record ChatRequest : Type := mkChatRequest {
  cr_user_id : str;
  cr_message : str;
  conversation_history : option (list ChatMessage);
  context_date : option date
}.

Record ChatResponse : Type := mkChatResponse {
  reply : str;
  suggested_actions : option (list str)
}.

Record ProgressSummary : Type := mkProgressSummary {
  ps_user_id : str;
  ps_period : str;
  completion_rate : Q;
  goals_on_track : list str;
  goals_at_risk : list str;
  habit_streaks : list (str * Z);
  time_allocation : list (JSON * Q);
  productivity_trend : list Q;
  burnout_risk_score : Q;
  ai_insights : str
}.

(** ** db/database.py: the tables *)

Record GoalRow : Type := mkGoalRow {
  g_goal_id : str;
  g_user_id : str;
  g_title : str;
  g_category : str;
  g_priority : str;
  g_target_date : option date;
  g_daily_time_budget_min : Z;
  g_progress_percent : Q;
  g_status : str
}.

Record ScheduleRow : Type := mkScheduleRow {
  s_schedule_id : str;
  s_user_id : str;
  s_date : date;
  s_time_blocks : JSON;
  s_total_work_hrs : JSON;
  s_ai_notes : JSON;
  s_created_at : str
}.

Record HabitRow : Type := mkHabitRow {
  h_habit_id : str;
  h_user_id : str;
  h_title : str;
  streak_count : Z;
  last_completed : option date
}.

Record HabitLogRow : Type := mkHabitLogRow {
  l_log_id : str;
  l_habit_id : str;
  l_user_id : str;
  l_date : date;
  l_completed : Z;
  l_note : option str;
  l_logged_at : str
}.

Record CheckinRow : Type := mkCheckinRow {
  c_user_id : str;
  c_date : date;
  energy_level : str;
  mood_score : Z;
  focus_score : Z
}.

Record ChatSessionRow : Type := mkChatSessionRow {
  cs_user_id : str;
  history : list JSON;
  cs_created_at : str;
  cs_updated_at : str
}.

(** What a prompt embeds; the remote model sees it together with the store. *)
Inductive Prompt : Type :=
| SchedulePrompt (d : date) (profile : JSON) (goals : list GoalRow)
    (context : option str)
| ReschedulePrompt (now_str : str) (missed remaining : list TimeBlock)
| InsightsPrompt (period : str) (completion_rate : Q)
    (on_track at_risk : list str) (burnout : Q)
    (hours : list (JSON * Q)) (streaks : list (str * Z))
| CoachPrompt (message : str) (d : date) (history : list JSON).

Record World : Type := mkWorld {
  users : gmap str JSON;
  goals : list GoalRow;
  schedules : list ScheduleRow;
  habits : list HabitRow;
  habit_logs : list HabitLogRow;
  daily_checkins : list CheckinRow;
  chat_sessions : gmap str ChatSessionRow;
  remote_calls : list Prompt;
  uuids_drawn : nat
}.

(** ** The library and the remote model *)

Class Externals : Type := {
  (** [json.loads] *)
  json_loads : str -> Result JSON;
  (** [int] on a [str] *)
  int_of_str : str -> Result Z;
  (** the constructor [TimeBlock] applied to the keywords of a dict *)
  TimeBlock_new : JSON -> Result TimeBlock;
  (** pydantic on a [float] field and on an [Optional[str]] field *)
  validate_float : JSON -> Result Q;
  validate_opt_str : JSON -> Result JSON;
  (** [ChatResponse(reply=..., suggested_actions=...)] *)
  ChatResponse_new : JSON -> JSON -> Result ChatResponse;
  (** [Runner.run(agent, prompt).final_output] of the planner and of the
      coach agent *)
  planner_output : World -> Prompt -> Result str;
  coach_output : World -> Prompt -> Result str;
  (** the n-th [str(uuid.uuid4())] of the process *)
  uuid4 : nat -> str
}.

(** ** Request handlers: state and exceptions *)

Definition M (A : Type) : Type := World -> Result A * World.

#[global] Instance M_ret : MRet M := fun _ a w => (Ok a, w).
#[global] Instance M_bind : MBind M := fun _ _ f m w =>
  match m w with
  | (Ok a, w') => f a w'
  | (Raise e, w') => (Raise e, w')
  end.

Definition raise {A} (e : exn) : M A := fun w => (Raise e, w).
Definition lift {A} (r : Result A) : M A := fun w => (r, w).
Definition gets {A} (f : World -> A) : M A := fun w => (Ok (f w), w).
Definition modify (f : World -> World) : M unit := fun w => (Ok tt, f w).

Fixpoint mapM {A B} (f : A -> M B) (xs : list A) : M (list B) :=
  match xs with
  | [] => mret []
  | x :: xs' => y ← f x; ys ← mapM f xs'; mret (y :: ys)
  end.

Definition set_schedules (rows : list ScheduleRow) (w : World) : World :=
  mkWorld (users w) (goals w) rows (habits w) (habit_logs w)
    (daily_checkins w) (chat_sessions w) (remote_calls w) (uuids_drawn w).

Definition set_habits (hs : list HabitRow) (ls : list HabitLogRow) (w : World)
  : World :=
  mkWorld (users w) (goals w) (schedules w) hs ls
    (daily_checkins w) (chat_sessions w) (remote_calls w) (uuids_drawn w).

Definition set_chat_sessions (cs : gmap str ChatSessionRow) (w : World) : World :=
  mkWorld (users w) (goals w) (schedules w) (habits w) (habit_logs w)
    (daily_checkins w) cs (remote_calls w) (uuids_drawn w).

Definition log_remote_call (p : Prompt) (w : World) : World :=
  mkWorld (users w) (goals w) (schedules w) (habits w) (habit_logs w)
    (daily_checkins w) (chat_sessions w) (remote_calls w ++ [p]) (uuids_drawn w).

Definition count_uuid (w : World) : World :=
  mkWorld (users w) (goals w) (schedules w) (habits w) (habit_logs w)
    (daily_checkins w) (chat_sessions w) (remote_calls w) (S (uuids_drawn w)).

Section Handlers.

Context `{Externals}.

(** [str(uuid.uuid4())] *)
Definition new_uuid : M str := fun w => (Ok (uuid4 (uuids_drawn w)), count_uuid w).

(** ** agentz/planner_agent.py *)

(** [run_planner]: the final text of the planner agent. *)
Definition run_planner (prompt : Prompt) : M str := fun w =>
  (planner_output w prompt, log_remote_call prompt w).

(** [raw.strip().strip("```json").strip("```").strip()] *)
Definition coach_clean (raw : str) : str :=
  strip (strip_chars (py"```") (strip_chars (py"```json") (strip raw))).

Definition coach_default (raw : str) : JSON :=
  JObj [ (py"reply", JStr raw); (py"suggested_actions", JArr []) ].

Definition parse_coach_output (raw : str) : Result JSON :=
  try_except (json_loads (coach_clean raw)) (Ok (coach_default raw)).

(** [run_coach]: the coach agent's output, parsed. *)
Definition run_coach (prompt : Prompt) : M JSON := fun w =>
  match coach_output w prompt with
  | Ok raw => (parse_coach_output raw, log_remote_call prompt w)
  | Raise e => (Raise e, log_remote_call prompt w)
  end.

(** ** Response extraction in the services and routers *)

(** [ai_response.strip().lstrip("```json").lstrip("```").rstrip("```").strip()] *)
Definition clean (ai_response : str) : str :=
  strip (rstrip (py"```") (lstrip (py"```") (lstrip (py"```json") (strip ai_response)))).

(** [try: parsed = json.loads(clean) / except Exception: parsed = dflt] *)
Definition parse_or (dflt : JSON) (ai_response : str) : Result JSON :=
  try_except (json_loads (clean ai_response)) (Ok dflt).

(** services/schedule_service.py, [generate_schedule] *)
Definition schedule_default : JSON :=
  JObj [ (py"time_blocks", JArr []);
         (py"total_work_hours", JNum 0%Q);
         (py"ai_notes", JStr (py"Parsing failed.")) ].

Definition parse_schedule_response : str -> Result JSON :=
  parse_or schedule_default.

(** services/schedule_service.py, [adaptive_reschedule_today] *)
Definition reschedule_default (remaining : list TimeBlock) : JSON :=
  JObj [ (py"time_blocks", JArr (List.map model_dump remaining));
         (py"ai_notes", JStr (py"No change.")) ].

Definition parse_reschedule_response (remaining : list TimeBlock)
  : str -> Result JSON :=
  parse_or (reschedule_default remaining).

(** services/goal_service.py, [create_goal] *)
Definition parse_roadmap_response : str -> Result JSON := parse_or (JArr []).

(** routers/habits.py, [api_suggest_habits] *)
Definition parse_suggestions_response : str -> Result JSON := parse_or (JArr []).

(** routers/goals.py, the scenario simulation *)
Definition simulation_default (scenario_description result : str) : JSON :=
  JObj [ (py"scenario", JStr scenario_description);
         (py"recommendation", JStr result) ].

Definition parse_simulation_response (scenario_description result : str)
  : Result JSON :=
  parse_or (simulation_default scenario_description result) result.

(** ** services/schedule_service.py *)

Definition set_item (d : JSON) (k : str) (v : JSON) : JSON :=
  match d with
  | JObj fields => JObj (dict_set fields k v)
  | _ => d
  end.

(** [if not block.get("block_id"): block["block_id"] = str(uuid.uuid4())] *)
Definition assign_block_id (block : JSON) : M JSON :=
  bid ← lift (py_get block (py"block_id") JNull);
  if py_truthy bid then mret block
  else u ← new_uuid; mret (set_item block (py"block_id") (JStr u)).

(** The list under ["time_blocks"] after the loop has written into its
    blocks. *)
Definition with_items (tb : JSON) (items : list JSON) : JSON :=
  match tb with
  | JArr _ => JArr items
  | _ => tb
  end.

Definition active_goals (user_id : str) (w : World) : list GoalRow :=
  List.filter
    (fun g => bool_decide (g_user_id g = user_id)
              && bool_decide (g_status g = py"active"))
    (goals w).

(** The only uniqueness constraint of [schedules] is its primary key
    [schedule_id]: INSERT OR REPLACE deletes the row with that key, if any,
    and adds the new row. *)
Definition insert_or_replace (r : ScheduleRow) (rows : list ScheduleRow)
  : list ScheduleRow :=
  List.filter
    (fun r' => negb (bool_decide (s_schedule_id r' = s_schedule_id r))) rows
  ++ [r].

Definition generate_schedule (request : ScheduleGenerateRequest)
    (now_str created_at : str) : M DailySchedule :=
  (* 1. Fetch user profile *)
  row ← gets (fun w => users w !! sg_user_id request);
  match row with
  | None => raise ValueError
  | Some profile_data =>
    (* 2. Fetch active goals *)
    goal_rows ← gets (fun w =>
      List.filter
        (fun g => match sg_goals request with
                  | [] => true
                  | _ => bool_decide (g_goal_id g ∈ sg_goals request)
                  end)
        (active_goals (sg_user_id request) w));
    (* 3, 4. Build prompt, call AI agent *)
    ai_response ← run_planner
      (SchedulePrompt (sg_date request) profile_data goal_rows (sg_context request));
    (* 5. Parse response *)
    parsed ← lift (parse_schedule_response ai_response);
    schedule_id ← new_uuid;
    tb ← lift (py_get parsed (py"time_blocks") (JArr []));
    items ← lift (py_iter tb);
    items' ← mapM assign_block_id items;
    let stored := with_items tb items' in
    (* 6. Persist *)
    total ← lift (py_get parsed (py"total_work_hours") (JNum 0%Q));
    notes ← lift (py_get parsed (py"ai_notes") JNull);
    total_v ← lift (sqlite_bind total);
    notes_v ← lift (sqlite_bind notes);
    _ ← modify (fun w =>
      set_schedules
        (insert_or_replace
           (mkScheduleRow schedule_id (sg_user_id request) (sg_date request)
              stored total_v notes_v now_str)
           (schedules w)) w);
    dicts ← lift (py_iter stored);
    blocks ← lift (traverse TimeBlock_new dicts);
    hours ← lift (validate_float total);
    notes' ← lift (validate_opt_str notes);
    mret (mkDailySchedule schedule_id (sg_user_id request) (sg_date request)
            blocks hours notes' created_at)
  end.

Definition schedule_of (user_id : str) (d : date) (r : ScheduleRow) : bool :=
  bool_decide (s_user_id r = user_id) && bool_decide (s_date r = d).

Definition get_schedule (user_id : str) (target_date : date)
  : M (option DailySchedule) :=
  row ← gets (fun w => List.find (schedule_of user_id target_date) (schedules w));
  match row with
  | None => mret None
  | Some row =>
    dicts ← lift (py_iter (s_time_blocks row));
    blocks ← lift (traverse TimeBlock_new dicts);
    hours ← lift (validate_float (s_total_work_hrs row));
    notes ← lift (validate_opt_str (s_ai_notes row));
    mret (Some (mkDailySchedule (s_schedule_id row) (s_user_id row) (s_date row)
                  blocks hours notes (s_created_at row)))
  end.

Definition status_is (s : TaskStatus) (b : TimeBlock) : bool :=
  bool_decide (status b = s).

(** [b.status in ("pending", "skipped") and b.end_time < now_str] *)
Definition is_missed (now_str : str) (b : TimeBlock) : bool :=
  (status_is PENDING b || status_is SKIPPED b) && str_ltb (end_time b) now_str.

(** [b.end_time >= now_str and b.status == "pending"] *)
Definition is_remaining (now_str : str) (b : TimeBlock) : bool :=
  str_geb (end_time b) now_str && status_is PENDING b.

Definition update_blocks (user_id : str) (d : date) (blocks notes : JSON)
    (rows : list ScheduleRow) : list ScheduleRow :=
  List.map
    (fun r => if schedule_of user_id d r
              then mkScheduleRow (s_schedule_id r) (s_user_id r) (s_date r)
                     blocks (s_total_work_hrs r) notes (s_created_at r)
              else r)
    rows.

Definition adaptive_reschedule_today (user_id : str) (today : date)
    (now_str : str) : M DailySchedule :=
  schedule ← get_schedule user_id today;
  match schedule with
  | None => raise ValueError
  | Some schedule =>
    let missed := List.filter (is_missed now_str) (time_blocks schedule) in
    let remaining := List.filter (is_remaining now_str) (time_blocks schedule) in
    match missed with
    | [] => mret schedule
    | _ :: _ =>
      ai_response ← run_planner (ReschedulePrompt now_str missed remaining);
      parsed ← lift (parse_reschedule_response remaining ai_response);
      let completed_blocks :=
        List.filter (status_is COMPLETED) (time_blocks schedule) in
      tb ← lift (py_get parsed (py"time_blocks") (JArr []));
      dicts ← lift (py_iter tb);
      returned ← lift (traverse TimeBlock_new dicts);
      let new_blocks := completed_blocks ++ returned in
      notes ← lift (py_get parsed (py"ai_notes") JNull);
      notes_v ← lift (sqlite_bind notes);
      _ ← modify (fun w =>
        set_schedules
          (update_blocks user_id today (JArr (List.map model_dump new_blocks))
             notes_v (schedules w)) w);
      mret (mkDailySchedule (ds_schedule_id schedule) (ds_user_id schedule)
              (ds_date schedule) new_blocks (total_work_hours schedule)
              notes (ds_created_at schedule))
    end
  end.

(** ** services/progress_service.py *)

(** Keys of [category_hours]: Python compares [True], [1] and [1.0] equal. *)
Definition key_number (k : JSON) : option Q :=
  match k with
  | JBool b => Some (if b then 1 else 0)%Q
  | JNum q => Some q
  | _ => None
  end.

Definition key_eqb (a b : JSON) : bool :=
  match a, b with
  | JNull, JNull => true
  | JStr x, JStr y => str_eqb x y
  | _, _ =>
      match key_number a, key_number b with
      | Some x, Some y => Qeq_bool x y
      | _, _ => false
      end
  end.

Fixpoint hours_get (d : list (JSON * Q)) (k : JSON) (dflt : Q) : Q :=
  match d with
  | [] => dflt
  | (k', v) :: d' => if key_eqb k' k then v else hours_get d' k dflt
  end.

Fixpoint hours_set (d : list (JSON * Q)) (k : JSON) (v : Q) : list (JSON * Q) :=
  match d with
  | [] => [(k, v)]
  | (k', v') :: d' =>
      if key_eqb k' k then (k', v) :: d' else (k', v') :: hours_set d' k v
  end.

(** A dict key must be hashable. *)
Definition hashable (k : JSON) : Result JSON :=
  match k with
  | JArr _ | JObj _ => Raise TypeError
  | _ => Ok k
  end.

(** [h, m = map(int, v.split(":"))], as minutes since midnight *)
Definition minutes_of (v : JSON) : Result Z :=
  match v with
  | JStr s =>
      parts ← traverse int_of_str (split_on 58%N s);
      match parts with
      | [h; m] => Ok (h * 60 + m)%Z
      | _ => Raise ValueError
      end
  | _ => Raise AttributeError
  end.

Record BlockTotals : Type := mkBlockTotals {
  total_blocks : Z;
  completed_blocks : Z;
  category_hours : list (JSON * Q)
}.

(** The body of [for b in blocks]. *)
Definition count_block (acc : BlockTotals) (b : JSON) : Result BlockTotals :=
  st ← py_get b (py"status") JNull;
  let completed :=
    if key_eqb st (JStr (py"completed"))
    then (completed_blocks acc + 1)%Z else completed_blocks acc in
  start_v ← py_get b (py"start_time") (JStr (py"00:00"));
  start_min ← minutes_of start_v;
  end_v ← py_get b (py"end_time") (JStr (py"00:00"));
  end_min ← minutes_of end_v;
  let duration_hrs := (inject_Z (end_min - start_min) / 60)%Q in
  cat_v ← py_get b (py"category") (JStr (py"other"));
  cat ← hashable cat_v;
  Ok (mkBlockTotals (total_blocks acc + 1)%Z completed
        (hours_set (category_hours acc) cat
           (hours_get (category_hours acc) cat 0 + Qmax 0 duration_hrs)%Q)).

Fixpoint count_blocks (acc : BlockTotals) (blocks : list JSON)
  : Result BlockTotals :=
  match blocks with
  | [] => Ok acc
  | b :: blocks' => acc' ← count_block acc b; count_blocks acc' blocks'
  end.

(** The body of [for srow in sched_rows]. *)
Fixpoint count_schedules (acc : BlockTotals) (sched_rows : list ScheduleRow)
  : Result BlockTotals :=
  match sched_rows with
  | [] => Ok acc
  | srow :: rows' =>
      blocks ← py_iter (s_time_blocks srow);
      acc' ← count_blocks acc blocks;
      count_schedules acc' rows'
  end.

(** [(completed_blocks / total_blocks) if total_blocks else 0.0] *)
Definition completion_rate_of (t : BlockTotals) : Result Q :=
  if (total_blocks t =? 0)%Z then Ok 0%Q
  else truediv (inject_Z (completed_blocks t)) (inject_Z (total_blocks t)).

(** [(target_date - today).days if target_date else 999] *)
Definition days_left_of (today : date) (g : GoalRow) : Z :=
  match g_target_date g with
  | Some target_date => (target_date - today)%Z
  | None => 999%Z
  end.

(** [(days / (days + days_left)) * 100 if days_left > 0 else 100] *)
Definition required_progress (days days_left : Z) : Q :=
  if (0 <? days_left)%Z
  then (inject_Z days / inject_Z (days + days_left) * 100)%Q
  else 100%Q.

(** [pct >= required * 0.85] *)
Definition on_track (today : date) (days : Z) (g : GoalRow) : bool :=
  Qle_bool (required_progress days (days_left_of today g) * (85 # 100))%Q
    (g_progress_percent g).

(** The loop over [goal_rows]: the titles on track and those at risk. *)
Fixpoint classify_goals (today : date) (days : Z) (goal_rows : list GoalRow)
  : list str * list str :=
  match goal_rows with
  | [] => ([], [])
  | g :: rest =>
      let (goals_on_track, goals_at_risk) := classify_goals today days rest in
      if on_track today days g
      then (g_title g :: goals_on_track, goals_at_risk)
      else (goals_on_track, g_title g :: goals_at_risk)
  end.

Definition sum_Z (xs : list Z) : Z := fold_right Z.add 0%Z xs.

Definition len {A} (xs : list A) : Q := inject_Z (Z.of_nat (length xs)).

Definition avg_mood (checkins_data : list CheckinRow) : Q :=
  (inject_Z (sum_Z (List.map mood_score checkins_data)) / len checkins_data)%Q.

Definition avg_focus (checkins_data : list CheckinRow) : Q :=
  (inject_Z (sum_Z (List.map focus_score checkins_data)) / len checkins_data)%Q.

Definition energy_penalty (checkins_data : list CheckinRow) : Q :=
  (len (List.filter (fun c => str_eqb (energy_level c) (py"low")) checkins_data)
   / len checkins_data)%Q.

Definition work_hrs_avg (hours : list (JSON * Q)) (days : Z) : Q :=
  ((hours_get hours (JStr (py"work")) 0 + hours_get hours (JStr (py"study")) 0)
   / inject_Z (Z.max days 1))%Q.

(** The weighted sum, clamped at 1.0 and rounded to three decimals. *)
Definition burnout_score (avg_mood avg_focus energy_penalty work_hrs_avg : Q) : Q :=
  round3
    (Qmin 1
       ((1 - avg_mood / 10) * (35 # 100) +
        (1 - avg_focus / 10) * (25 # 100) +
        energy_penalty * (20 # 100) +
        Qmin (work_hrs_avg / 10) 1 * (20 # 100)))%Q.

(** The same sum on IEEE binary64, the floats of the source; [min(a, b)] is
    [b] when [b < a] and [a] otherwise. *)
Definition float_min (a b : float) : float :=
  if PrimFloat.ltb b a then b else a.

Definition burnout_sum_binary64
    (avg_mood avg_focus energy_penalty work_hrs_avg : float) : float :=
  float_min 1
    ((1 - avg_mood / 10) * (35 / 100) +
     (1 - avg_focus / 10) * (25 / 100) +
     energy_penalty * (20 / 100) +
     float_min (work_hrs_avg / 10) 1 * (20 / 100))%float.

Definition burnout_risk (checkins_data : list CheckinRow)
    (hours : list (JSON * Q)) (days : Z) : Q :=
  match checkins_data with
  | [] => 0%Q
  | _ :: _ =>
      burnout_score (avg_mood checkins_data) (avg_focus checkins_data)
        (energy_penalty checkins_data) (work_hrs_avg hours days)
  end.

(** [7 if period == "weekly" else 30] *)
Definition period_days (period : str) : Z :=
  if str_eqb period (py"weekly") then 7%Z else 30%Z.

(** [SELECT time_blocks FROM schedules WHERE user_id = ? AND date >= ?] *)
Definition window_schedules (user_id : str) (from_dt : date) (w : World)
  : list ScheduleRow :=
  List.filter
    (fun r => bool_decide (s_user_id r = user_id) && (from_dt <=? s_date r)%Z)
    (schedules w).

Definition get_progress_summary (user_id period : str) (today : date)
  : M ProgressSummary :=
  let days := period_days period in
  let from_dt := (today - days)%Z in
  (* Schedule completion rate *)
  sched_rows ← gets (window_schedules user_id from_dt);
  totals ← lift (count_schedules (mkBlockTotals 0%Z 0%Z []) sched_rows);
  rate ← lift (completion_rate_of totals);
  (* Goals on/off track *)
  goal_rows ← gets (active_goals user_id);
  let (on_track_titles, at_risk_titles) := classify_goals today days goal_rows in
  (* Habit streaks *)
  habit_rows ← gets (fun w =>
    List.filter (fun h => bool_decide (h_user_id h = user_id)) (habits w));
  let streaks :=
    fold_left (fun d h => dict_set d (h_title h) (streak_count h)) habit_rows [] in
  (* Check-ins for burnout *)
  checkins_data ← gets (fun w =>
    List.filter
      (fun c => bool_decide (c_user_id c = user_id) && (from_dt <=? c_date c)%Z)
      (daily_checkins w));
  let burnout := burnout_risk checkins_data (category_hours totals) days in
  (* AI insights *)
  insights ← run_planner
    (InsightsPrompt period rate on_track_titles at_risk_titles burnout
       (category_hours totals) streaks);
  mret (mkProgressSummary user_id period (round3 rate) on_track_titles
          at_risk_titles streaks (category_hours totals) [] burnout insights).

(** ** routers/habits.py *)

(** [UPDATE habits SET ... WHERE habit_id = ?] of a check-in. *)
Definition checkin_habit (checkin : HabitCheckIn) (h : HabitRow) : HabitRow :=
  if bool_decide (h_habit_id h = hc_habit_id checkin) then
    if hc_completed checkin
    then mkHabitRow (h_habit_id h) (h_user_id h) (h_title h)
           (streak_count h + 1)%Z (Some (hc_date checkin))
    else mkHabitRow (h_habit_id h) (h_user_id h) (h_title h)
           0%Z (last_completed h)
  else h.

Definition api_habit_checkin (user_id : str) (checkin : HabitCheckIn)
    (now_str : str) : M str :=
  log_id ← new_uuid;
  taken ← gets (fun w =>
    existsb (fun l => str_eqb (l_log_id l) log_id) (habit_logs w));
  if taken : bool then raise IntegrityError
  else
    _ ← modify (fun w =>
      set_habits
        (List.map (checkin_habit checkin) (habits w))
        (habit_logs w ++
           [mkHabitLogRow log_id (hc_habit_id checkin) user_id (hc_date checkin)
              (if hc_completed checkin then 1 else 0)%Z (hc_note checkin) now_str])
        w);
    mret log_id.

(** ** routers/chat.py *)

(** [m.model_dump()] as [json.dumps] accepts it: a [datetime] is not JSON
    serializable. *)
Definition dump_message (m : ChatMessage) : Result JSON :=
  match cm_timestamp m with
  | Some _ => Raise TypeError
  | None =>
      Ok (JObj [ (py"role", JStr (cm_role m));
                 (py"content", JStr (cm_content m));
                 (py"timestamp", JNull) ])
  end.

Definition chat_entry (role : str) (content : JSON) (now_str : str) : JSON :=
  JObj [ (py"role", JStr role); (py"content", content);
         (py"timestamp", JStr now_str) ].

Definition session_id_of (user_id : str) : str := user_id ++ py"_main".

(** [INSERT ... ON CONFLICT(session_id) DO UPDATE SET history, updated_at] *)
Definition upsert_session (user_id : str) (new_history : list JSON)
    (now_str : str) (cs : gmap str ChatSessionRow) : gmap str ChatSessionRow :=
  match cs !! session_id_of user_id with
  | Some row =>
      <[ session_id_of user_id :=
           mkChatSessionRow (cs_user_id row) new_history (cs_created_at row) now_str ]> cs
  | None =>
      <[ session_id_of user_id :=
           mkChatSessionRow user_id new_history now_str now_str ]> cs
  end.

Definition api_chat (request : ChatRequest) (today : date) (now_str : str)
  : M ChatResponse :=
  let target_date := default today (context_date request) in
  hist ← lift (traverse dump_message (default [] (conversation_history request)));
  result ← run_coach (CoachPrompt (cr_message request) target_date hist);
  (* Persist conversation *)
  answer ← lift (py_get result (py"reply") (JStr []));
  let new_history :=
    hist ++ [ chat_entry (py"user") (JStr (cr_message request)) now_str;
              chat_entry (py"assistant") answer now_str ] in
  _ ← modify (fun w =>
    set_chat_sessions
      (upsert_session (cr_user_id request) new_history now_str (chat_sessions w)) w);
  actions ← lift (py_get result (py"suggested_actions") (JArr []));
  lift (ChatResponse_new answer actions).

Definition api_chat_history (user_id : str) (w : World) : list JSON :=
  match chat_sessions w !! session_id_of user_id with
  | Some row => history row
  | None => []
  end.

End Handlers.

(** ** Fenced model output *)

Definition whitespace (ws : str) : Prop := Forall (fun c => isspace c = true) ws.

(** The text of a JSON object: it opens with a brace and closes with one. *)
Definition json_object_text (body : str) : Prop :=
  exists inner, body = 123%N :: inner ++ [125%N].

(** [raw] is [body] between a [```json] fence and a closing fence, with any
    white space around the fences and around the body. *)
Definition fenced (body raw : str) : Prop :=
  exists ws0 ws1 ws2 ws3,
    whitespace ws0 /\ whitespace ws1 /\ whitespace ws2 /\ whitespace ws3 /\
    raw = ws0 ++ py"```json" ++ ws1 ++ body ++ ws2 ++ py"```" ++ ws3.

(** The places where a model response is extracted. *)
Inductive Capability : Type :=
| GenerateSchedule
| Reschedule (remaining : list TimeBlock)
| Roadmap
| HabitSuggestions
| Simulation (scenario_description : str)
| Coach.

Definition extract `{Externals} (c : Capability) (raw : str) : Result JSON :=
  match c with
  | GenerateSchedule => parse_schedule_response raw
  | Reschedule remaining => parse_reschedule_response remaining raw
  | Roadmap => parse_roadmap_response raw
  | HabitSuggestions => parse_suggestions_response raw
  | Simulation scenario_description =>
      parse_simulation_response scenario_description raw
  | Coach => parse_coach_output raw
  end.

Definition cleaned (c : Capability) (raw : str) : str :=
  match c with
  | Coach => coach_clean raw
  | _ => clean raw
  end.

Definition default_of (c : Capability) (raw : str) : JSON :=
  match c with
  | GenerateSchedule => schedule_default
  | Reschedule remaining => reschedule_default remaining
  | Roadmap => JArr []
  | HabitSuggestions => JArr []
  | Simulation scenario_description =>
      simulation_default scenario_description raw
  | Coach => coach_default raw
  end.

(** ** A small instance of the library, for examples *)

Module Example.

Definition field_str (d : list (str * JSON)) (k : str) : Result str :=
  match dict_get d k with
  | Some (JStr s) => Ok s
  | _ => Raise ValidationError
  end.

Definition field_opt_str (d : list (str * JSON)) (k : str) : Result (option str) :=
  match dict_get d k with
  | None | Some JNull => Ok None
  | Some (JStr s) => Ok (Some s)
  | _ => Raise ValidationError
  end.

Definition field_enum {A} (values : list (str * A)) (dflt : A)
    (d : list (str * JSON)) (k : str) : Result A :=
  match dict_get d k with
  | None => Ok dflt
  | Some (JStr s) =>
      match dict_get values s with
      | Some a => Ok a
      | None => Raise ValidationError
      end
  | _ => Raise ValidationError
  end.

Definition field_bool (dflt : bool) (d : list (str * JSON)) (k : str)
  : Result bool :=
  match dict_get d k with
  | None => Ok dflt
  | Some (JBool b) => Ok b
  | _ => Raise ValidationError
  end.

Definition by_value {A} (value : A -> str) (all : list A) : list (str * A) :=
  List.map (fun a => (value a, a)) all.

(** A strict reading of the [TimeBlock] schema: required text fields,
    optional ones, enumerations by value, defaults as declared. *)
Definition TimeBlock_of_json (b : JSON) : Result TimeBlock :=
  match b with
  | JObj d =>
      block_id ← field_str d (py"block_id");
      title ← field_str d (py"title");
      description ← field_opt_str d (py"description");
      start_time ← field_str d (py"start_time");
      end_time ← field_str d (py"end_time");
      category ← field_str d (py"category");
      goal_id ← field_opt_str d (py"goal_id");
      priority ← field_enum
        (by_value Priority_value [P_LOW; P_MEDIUM; P_HIGH; P_URGENT])
        P_MEDIUM d (py"priority");
      energy_required ← field_enum
        (by_value EnergyLevel_value [LOW; MEDIUM; HIGH])
        MEDIUM d (py"energy_required");
      status ← field_enum
        (by_value TaskStatus_value
           [PENDING; IN_PROGRESS; COMPLETED; SKIPPED; RESCHEDULED])
        PENDING d (py"status");
      is_flexible ← field_bool true d (py"is_flexible");
      Ok (mkTimeBlock block_id title description start_time end_time category
            goal_id priority energy_required status is_flexible)
  | _ => Raise TypeError
  end.

Definition float_of_json (v : JSON) : Result Q :=
  match v with
  | JNum q => Ok q
  | JBool b => Ok (if b then 1 else 0)%Q
  | _ => Raise ValidationError
  end.

Definition opt_str_of_json (v : JSON) : Result JSON :=
  match v with
  | JNull | JStr _ => Ok v
  | _ => Raise ValidationError
  end.

Definition str_of_json (v : JSON) : Result str :=
  match v with
  | JStr s => Ok s
  | _ => Raise ValidationError
  end.

Definition ChatResponse_of_json (answer actions : JSON) : Result ChatResponse :=
  text ← str_of_json answer;
  match actions with
  | JNull => Ok (mkChatResponse text None)
  | JArr items =>
      l ← traverse str_of_json items; Ok (mkChatResponse text (Some l))
  | _ => Raise ValidationError
  end.

(** Decimal digits only. *)
Fixpoint digits (acc : Z) (s : str) : Result Z :=
  match s with
  | [] => Ok acc
  | c :: s' =>
      if ((48 <=? c) && (c <=? 57))%N
      then digits (acc * 10 + Z.of_N (c - 48))%Z s'
      else Raise ValueError
  end.

Definition decimal (s : str) : Result Z :=
  match s with
  | [] => Raise ValueError
  | _ => digits 0%Z s
  end.

(** A parser that knows the texts of a finite table. *)
Definition loads_table (table : list (str * JSON)) (text : str) : Result JSON :=
  match dict_get table text with
  | Some v => Ok v
  | None => Raise JSONDecodeError
  end.

(** The library with a model that always answers [answer]. *)
Definition externals (table : list (str * JSON)) (answer : Result str)
  : Externals :=
  {| json_loads := loads_table table;
     int_of_str := decimal;
     TimeBlock_new := TimeBlock_of_json;
     validate_float := float_of_json;
     validate_opt_str := opt_str_of_json;
     ChatResponse_new := ChatResponse_of_json;
     planner_output := fun _ _ => answer;
     coach_output := fun _ _ => answer;
     uuid4 := fun n => py"uuid-" ++ [(48 + N.of_nat n)%N] |}.

Definition empty_world : World :=
  mkWorld ∅ [] [] [] [] [] ∅ [] 0.

End Example.

(** The fence markers, as code points. *)
Definition fence_json : str := [96; 96; 96; 106; 115; 111; 110]%N.
Definition fence : str := [96; 96; 96]%N.

(** The two classes of the adaptive reschedule, in words. *)
Definition missed_block (now_str : str) (b : TimeBlock) : Prop :=
  (status b = PENDING \/ status b = SKIPPED) /\
  str_ltb (end_time b) now_str = true.

Definition remaining_block (now_str : str) (b : TimeBlock) : Prop :=
  status b = PENDING /\ str_ltb (end_time b) now_str = false.

(** ** Example data *)

Definition fenced_empty_object : str :=
  py"```json" ++ [10%N] ++ py"{}" ++ [10%N] ++ py"```".

Definition block_a : TimeBlock :=
  mkTimeBlock (py"a") (py"Write report") None (py"09:00") (py"10:00")
    (py"work") None P_HIGH HIGH COMPLETED true.

Definition block_b : TimeBlock :=
  mkTimeBlock (py"b") (py"Gym") None (py"11:00") (py"12:00")
    (py"fitness") None P_MEDIUM MEDIUM PENDING true.

Definition block_c : TimeBlock :=
  mkTimeBlock (py"c") (py"Read") None (py"15:00") (py"16:00")
    (py"study") None P_LOW LOW PENDING true.

(** A block whose identifier is none of the stored ones. *)
Definition block_z : TimeBlock :=
  mkTimeBlock (py"z") (py"Walk") None (py"17:00") (py"18:00")
    (py"personal") None P_MEDIUM MEDIUM PENDING true.

Definition row_s1 : ScheduleRow :=
  mkScheduleRow (py"s1") (py"u1") 100%Z
    (JArr (List.map model_dump [block_a; block_b; block_c]))
    (JNum 2) JNull (py"2024-01-01T07:00:00").

Definition schedule_s1 : DailySchedule :=
  mkDailySchedule (py"s1") (py"u1") 100%Z [block_a; block_b; block_c]
    2 JNull (py"2024-01-01T07:00:00").

Definition world_s1 : World :=
  mkWorld (<[ py"u1" := JObj [] ]> ∅) [] [row_s1] [] [] [] ∅ [] 0.

Definition quoted (s : str) : str := [34%N] ++ s ++ [34%N].

(** A model answer that moves the day to one block with a new identifier:
    the JSON text, the value it denotes, and the fenced text the model
    sends. *)
Definition text_block_z : str :=
  py"{" ++ quoted (py"block_id") ++ py": " ++ quoted (py"z") ++ py", "
  ++ quoted (py"title") ++ py": " ++ quoted (py"Walk") ++ py", "
  ++ quoted (py"start_time") ++ py": " ++ quoted (py"17:00") ++ py", "
  ++ quoted (py"end_time") ++ py": " ++ quoted (py"18:00") ++ py", "
  ++ quoted (py"category") ++ py": " ++ quoted (py"personal") ++ py"}".

Definition text_z : str :=
  py"{" ++ quoted (py"time_blocks") ++ py": [" ++ text_block_z ++ py"], "
  ++ quoted (py"ai_notes") ++ py": " ++ quoted (py"moved") ++ py"}".

Definition dict_block_z : JSON :=
  JObj [ (py"block_id", JStr (py"z"));
         (py"title", JStr (py"Walk"));
         (py"start_time", JStr (py"17:00"));
         (py"end_time", JStr (py"18:00"));
         (py"category", JStr (py"personal")) ].

Definition answer_z : JSON :=
  JObj [ (py"time_blocks", JArr [dict_block_z]);
         (py"ai_notes", JStr (py"moved")) ].

Definition fenced_z : str :=
  py"```json" ++ [10%N] ++ text_z ++ [10%N] ++ py"```".

Definition externals_z : Externals :=
  Example.externals [(text_z, answer_z)] (Ok fenced_z).

(** A model that does not answer in JSON. *)
Definition externals_prose : Externals :=
  Example.externals [] (Ok (py"Sorry, I cannot help.")).

(** Two check-ins with mood 5 and focus 5, one of them on low energy, and
    35 hours of work over a week: the fixed inputs of the burnout score. *)
Definition checkins_5_5 : list CheckinRow :=
  [ mkCheckinRow (py"u1") 98%Z (py"low") 5 5;
    mkCheckinRow (py"u1") 99%Z (py"high") 5 5 ].

Definition hours_35 : list (JSON * Q) := [ (JStr (py"work"), 35%Q) ].

(** A goal due in seven days with 42.5 percent done. *)
Definition goal_due_in_7 : GoalRow :=
  mkGoalRow (py"g1") (py"u1") (py"Ship") (py"career") (py"high")
    (Some 107%Z) 60 (85 # 2) (py"active").

(** A stored coach session of four messages, and a request that sends no
    conversation history. *)
Definition stored_history : list JSON :=
  [ chat_entry (py"user") (JStr (py"Hi")) (py"2024-01-01T08:00:00");
    chat_entry (py"assistant") (JStr (py"Hello")) (py"2024-01-01T08:00:00");
    chat_entry (py"user") (JStr (py"Plan my day")) (py"2024-01-01T08:05:00");
    chat_entry (py"assistant") (JStr (py"Done")) (py"2024-01-01T08:05:00") ].

Definition world_chat : World :=
  mkWorld ∅ [] [] [] [] []
    (<[ session_id_of (py"u1") :=
          mkChatSessionRow (py"u1") stored_history
            (py"2024-01-01T08:00:00") (py"2024-01-01T08:05:00") ]> ∅)
    [] 0.

Definition request_no_history : ChatRequest :=
  mkChatRequest (py"u1") (py"Thanks") None None.

Definition text_ok : str :=
  py"{" ++ quoted (py"reply") ++ py": " ++ quoted (py"Welcome") ++ py", "
  ++ quoted (py"suggested_actions") ++ py": []}".

Definition answer_ok : JSON :=
  JObj [ (py"reply", JStr (py"Welcome")); (py"suggested_actions", JArr []) ].

Definition externals_coach : Externals :=
  Example.externals [(text_ok, answer_ok)] (Ok text_ok).

(** A habit with a streak of six, and a check-in for it. *)
Definition habit_h1 : HabitRow :=
  mkHabitRow (py"h1") (py"u1") (py"Stretch") 6 (Some 90%Z).

Definition world_habit : World :=
  mkWorld ∅ [] [] [habit_h1] [] [] ∅ [] 0.

(** A request to generate the schedule of user u1 for day 100, which
    [world_s1] already holds. *)
Definition request_again : ScheduleGenerateRequest :=
  mkScheduleGenerateRequest (py"u1") 100%Z [] false None.

(** ** The remaining handlers *)

(** *** services/schedule_service.py, [update_task_status] *)

Record TaskStatusUpdate : Type := mkTaskStatusUpdate {
  tu_block_id : str;
  tu_status : TaskStatus;
  completion_note : option str;
  actual_duration_minutes : option Z
}.

(** [v[k]] for a string key: a dict answers or raises KeyError, nothing else
    takes a string subscript. *)
Definition py_getitem (v : JSON) (k : str) : Result JSON :=
  match v with
  | JObj fields =>
      match dict_get fields k with
      | Some x => Ok x
      | None => Raise KeyError
      end
  | _ => Raise TypeError
  end.

(** [v == s] for a string [s]. *)
Definition is_str (v : JSON) (s : str) : bool :=
  match v with
  | JStr s' => str_eqb s' s
  | _ => false
  end.

(** The body of [if b["block_id"] == update.block_id]: the status is
    written always, the note and the duration when they are truthy. *)
Definition write_update (update : TaskStatusUpdate) (b : JSON) : JSON :=
  let b1 := set_item b (py"status") (JStr (TaskStatus_value (tu_status update))) in
  let b2 :=
    match completion_note update with
    | Some note =>
        if bool_decide (note = []) then b1
        else set_item b1 (py"completion_note") (JStr note)
    | None => b1
    end in
  match actual_duration_minutes update with
  | Some minutes =>
      if (minutes =? 0)%Z then b2
      else set_item b2 (py"actual_duration_minutes") (JNum (inject_Z minutes))
  | None => b2
  end.

(** The loop [for b in blocks: ... break]: the blocks after the first match
    has been written, or [None] when no block matches. *)
Fixpoint update_first (update : TaskStatusUpdate) (blocks : list JSON)
  : Result (option (list JSON)) :=
  match blocks with
  | [] => Ok None
  | b :: rest =>
      bid ← py_getitem b (py"block_id");
      if is_str bid (tu_block_id update)
      then Ok (Some (write_update update b :: rest))
      else found ← update_first update rest;
           Ok (option_map (cons b) found)
  end.

(** [UPDATE schedules SET time_blocks = ? WHERE schedule_id = ?] *)
Definition set_time_blocks (schedule_id : str) (blocks : JSON)
    (rows : list ScheduleRow) : list ScheduleRow :=
  List.map
    (fun r => if bool_decide (s_schedule_id r = schedule_id)
              then mkScheduleRow (s_schedule_id r) (s_user_id r) (s_date r)
                     blocks (s_total_work_hrs r) (s_ai_notes r) (s_created_at r)
              else r)
    rows.

Definition update_task_status (user_id : str) (today : date)
    (update : TaskStatusUpdate) : M (str * TaskStatus) :=
  row ← gets (fun w => List.find (schedule_of user_id today) (schedules w));
  match row with
  | None => raise ValueError
  | Some row =>
    blocks ← lift (py_iter (s_time_blocks row));
    updated ← lift (update_first update blocks);
    match updated with
    | None => raise ValueError
    | Some blocks' =>
      _ ← modify (fun w =>
        set_schedules
          (set_time_blocks (s_schedule_id row)
             (with_items (s_time_blocks row) blocks') (schedules w)) w);
      mret (tu_block_id update, tu_status update)
    end
  end.

(** *** routers/habits.py, [api_delete_habit] *)

(** [DELETE FROM habits WHERE habit_id = ? AND user_id = ?] *)
Definition api_delete_habit (user_id habit_id : str) : M unit :=
  modify (fun w =>
    set_habits
      (List.filter
         (fun h => negb (bool_decide (h_habit_id h = habit_id)
                         && bool_decide (h_user_id h = user_id)))
         (habits w))
      (habit_logs w) w).

(** *** routers/chat.py, [api_clear_history] *)

(** [DELETE FROM chat_sessions WHERE user_id = ?] *)
Definition api_clear_history (user_id : str) : M unit :=
  modify (fun w =>
    set_chat_sessions
      (filter (fun kv => cs_user_id (snd kv) <> user_id) (chat_sessions w)) w).

(** *** routers/users.py *)

Record UserProfileCreate : Type := mkUserProfileCreate {
  up_name : str;
  wake_time : str;
  sleep_time : str;
  peak_energy_period : str;
  available_hours_per_day : Q;
  work_start : str;
  work_end : str;
  timezone : str;
  deep_work_preference : bool;
  break_frequency_minutes : Z
}.

(** [profile.model_dump()] *)
Definition profile_dump (p : UserProfileCreate) : list (str * JSON) :=
  [ (py"name", JStr (up_name p));
    (py"wake_time", JStr (wake_time p));
    (py"sleep_time", JStr (sleep_time p));
    (py"peak_energy_period", JStr (peak_energy_period p));
    (py"available_hours_per_day", JNum (available_hours_per_day p));
    (py"work_start", JStr (work_start p));
    (py"work_end", JStr (work_end p));
    (py"timezone", JStr (timezone p));
    (py"deep_work_preference", JBool (deep_work_preference p));
    (py"break_frequency_minutes", JNum (inject_Z (break_frequency_minutes p))) ].

(** What a router hands back: a value, or an [HTTPException] it raised
    itself. *)
Inductive Reply (A : Type) : Type :=
| Returned (a : A)
| HTTPException (status_code : Z).
Arguments Returned {A} a.
Arguments HTTPException {A} status_code.

Definition set_users (us : gmap str JSON) (w : World) : World :=
  mkWorld us (goals w) (schedules w) (habits w) (habit_logs w)
    (daily_checkins w) (chat_sessions w) (remote_calls w) (uuids_drawn w).

(** [api_register_user]: a plain INSERT under the primary key [user_id]. *)
Definition api_register_user `{Externals} (profile : UserProfileCreate)
  : M str :=
  user_id ← new_uuid;
  let profile_data := dict_set (profile_dump profile) (py"user_id") (JStr user_id) in
  taken ← gets (fun w => bool_decide (is_Some (users w !! user_id)));
  if taken : bool then raise IntegrityError
  else
    _ ← modify (fun w => set_users (<[ user_id := JObj profile_data ]> (users w)) w);
    mret user_id.

Definition api_get_user (user_id : str) (w : World) : Reply JSON :=
  match users w !! user_id with
  | None => HTTPException 404
  | Some profile => Returned profile
  end.

(** [{**existing, **new}] *)
Definition dict_merge (existing new : list (str * JSON)) : list (str * JSON) :=
  fold_left (fun d kv => dict_set d (fst kv) (snd kv)) new existing.

Definition api_update_user (user_id : str) (profile : UserProfileCreate)
  : M (Reply JSON) :=
  row ← gets (fun w => users w !! user_id);
  match row with
  | None => mret (HTTPException 404)
  | Some (JObj existing) =>
      let updated := dict_merge existing (profile_dump profile) in
      _ ← modify (fun w => set_users (<[ user_id := JObj updated ]> (users w)) w);
      mret (Returned (JObj updated))
  | Some _ => raise TypeError
  end.

(** ** Words for the properties *)

(** A block that the progress summary counts as completed. *)
Definition counts_completed (b : JSON) : bool :=
  match py_get b (py"status") JNull with
  | Ok st => key_eqb st (JStr (py"completed"))
  | Raise _ => false
  end.

(** What one block adds to the time allocation: its category and its
    duration in hours, a negative duration counting as zero. *)
Definition block_entry `{Externals} (b : JSON) : Result (JSON * Q) :=
  start_v ← py_get b (py"start_time") (JStr (py"00:00"));
  start_min ← minutes_of start_v;
  end_v ← py_get b (py"end_time") (JStr (py"00:00"));
  end_min ← minutes_of end_v;
  cat_v ← py_get b (py"category") (JStr (py"other"));
  cat ← hashable cat_v;
  Ok (cat, Qmax 0 (inject_Z (end_min - start_min) / 60)).

(** The hours of the entries filed under a key. *)
Fixpoint hours_under (k : JSON) (entries : list (JSON * Q)) : Q :=
  match entries with
  | [] => 0
  | (cat, hrs) :: rest =>
      if key_eqb cat k then (hrs + hours_under k rest)%Q
      else hours_under k rest
  end.

(** Every session row is stored under the key of its own user. *)
Definition sessions_keyed (cs : gmap str ChatSessionRow) : Prop :=
  forall k row, cs !! k = Some row -> k = session_id_of (cs_user_id row).

(** The length of the trailing run of completed check-ins, and whether the
    run is the whole list. *)
Fixpoint trailing_streak (start : Z) (completed : list bool) : Z :=
  match completed with
  | [] => start
  | c :: rest => if c then (trailing_streak start rest + 1)%Z else 0%Z
  end.

(** A text that the fence strips leave alone: it starts and ends with a
    character that is neither white space nor one of [`], [j], [s], [o],
    [n]. *)
Definition fence_safe (c : N) : bool :=
  negb (isspace c) && negb (mem fence_json c).

Definition fence_proof_text (body : str) : Prop :=
  exists a inner z, body = a :: inner ++ [z] /\
    fence_safe a = true /\ fence_safe z = true.

(** [raw] is [body] between an opening fence, tagged [json] or not, and a
    closing fence. *)
Definition fenced_any (body raw : str) : Prop :=
  exists ws0 tag ws1 ws2 ws3,
    whitespace ws0 /\ whitespace ws1 /\ whitespace ws2 /\ whitespace ws3 /\
    (tag = py"json" \/ tag = []) /\
    raw = ws0 ++ fence ++ tag ++ ws1 ++ body ++ ws2 ++ fence ++ ws3.

(** ** More example data *)

(** A day with a block that ends, on the clock, before it starts. *)
Definition block_night : TimeBlock :=
  mkTimeBlock (py"n") (py"Night shift") None (py"23:00") (py"01:00")
    (py"work") None P_MEDIUM MEDIUM PENDING true.

Definition block_morning : TimeBlock :=
  mkTimeBlock (py"m") (py"Deep work") None (py"09:00") (py"10:30")
    (py"work") None P_HIGH HIGH COMPLETED true.

Definition row_night : ScheduleRow :=
  mkScheduleRow (py"s2") (py"u1") 99%Z
    (JArr (List.map model_dump [block_morning; block_night]))
    (JNum 2) JNull (py"2024-01-01T07:00:00").

Definition world_week : World :=
  mkWorld ∅ [goal_due_in_7] [row_night] [habit_h1] [] checkins_5_5 ∅ [] 0.

(** A goal that was due ten days ago, 85 percent done. *)
Definition goal_overdue : GoalRow :=
  mkGoalRow (py"g2") (py"u1") (py"Thesis") (py"learning") (py"urgent")
    (Some 90%Z) 60 85 (py"active").

(** Two stores hold the same tables; the record of remote calls and the
    count of drawn identifiers may differ. *)
Definition same_tables (w w' : World) : Prop :=
  users w' = users w /\ goals w' = goals w /\ schedules w' = schedules w /\
  habits w' = habits w /\ habit_logs w' = habit_logs w /\
  daily_checkins w' = daily_checkins w /\ chat_sessions w' = chat_sessions w.

(** An update without the optional fields that the handler would skip. *)
Definition without_falsy (update : TaskStatusUpdate) : TaskStatusUpdate :=
  mkTaskStatusUpdate (tu_block_id update) (tu_status update)
    (match completion_note update with
     | Some [] => None
     | other => other
     end)
    (match actual_duration_minutes update with
     | Some 0%Z => None
     | other => other
     end).

(** Marking block b of [world_s1] as completed after 50 minutes. *)
Definition update_b : TaskStatusUpdate :=
  mkTaskStatusUpdate (py"b") COMPLETED (Some (py"done")) (Some 50%Z).

(** A block dict that carries a usable identifier. *)
Definition has_block_id (b : JSON) : Prop :=
  exists bid, py_get b (py"block_id") JNull = Ok bid /\ py_truthy bid = true.

(** The prompt of a schedule generation, as the handler assembles it. *)
Definition schedule_prompt (request : ScheduleGenerateRequest) (profile : JSON)
    (w : World) : Prompt :=
  SchedulePrompt (sg_date request) profile
    (List.filter
       (fun g => match sg_goals request with
                 | [] => true
                 | _ => bool_decide (g_goal_id g ∈ sg_goals request)
                 end)
       (active_goals (sg_user_id request) w))
    (sg_context request).



(** User u1 is registered and has no schedule yet. *)
Definition world_u1 : World :=
  mkWorld (<[ py"u1" := JObj [] ]> ∅) [] [] [] [] [] ∅ [] 0.






(** The columns of a schedule row that only generation writes. *)
Definition row_frame (r : ScheduleRow) : str * str * date * JSON * str :=
  (s_schedule_id r, s_user_id r, s_date r, s_total_work_hrs r, s_created_at r).




(** ** Words and data for the later properties *)

(** A client sending the check-ins one after the other. *)
Fixpoint checkin_all `{Externals} (user_id : str)
    (checkins : list HabitCheckIn) (now_str : str) (w : World) : World :=
  match checkins with
  | [] => w
  | c :: rest =>
      checkin_all user_id rest now_str
        (snd (api_habit_checkin user_id c now_str w))
  end.

(** No stored log row carries an identifier that uuid4 is still to draw. *)
Definition log_ids_fresh `{Externals} (w : World) : Prop :=
  forall l n, In l (habit_logs w) -> (uuids_drawn w <= n)%nat ->
              l_log_id l <> uuid4 n.

(** A text that is not fenced at all. *)
Definition bare (body raw : str) : Prop :=
  exists ws0 ws3, whitespace ws0 /\ whitespace ws3 /\ raw = ws0 ++ body ++ ws3.

Definition profile_ann : UserProfileCreate :=
  mkUserProfileCreate (py"Ann") (py"06:30") (py"22:30") (py"morning") 8
    (py"09:00") (py"17:00") (py"UTC") true 90.

Definition profile_ann_late : UserProfileCreate :=
  mkUserProfileCreate (py"Ann") (py"08:00") (py"23:30") (py"evening") 6
    (py"10:00") (py"18:00") (py"UTC") false 60.

Definition checkin_h1 (completed : bool) (d : date) : HabitCheckIn :=
  mkHabitCheckIn (py"h1") completed d None.

(** A request that sends back a message carrying a timestamp. *)
Definition request_stamped : ChatRequest :=
  mkChatRequest (py"u1") (py"And now?")
    (Some [ mkChatMessage (py"user") (py"Hi") None;
            mkChatMessage (py"assistant") (py"Hello")
              (Some (py"2024-01-01T08:00:00")) ])
    None.

(** A stored profile with a key that no request carries. *)
Definition world_ann : World :=
  mkWorld
    (<[ py"u1" := JObj (dict_set (dict_set (profile_dump profile_ann)
                                    (py"user_id") (JStr (py"u1")))
                          (py"plan") (JStr (py"pro"))) ]> ∅)
    [] [] [] [] [] ∅ [] 0.

(** A JSON array in an untagged fence. *)
Definition fenced_array : str :=
  py"```" ++ [10%N] ++ py"[1, 2]" ++ [10%N] ++ py"```".

(** A coach that answers with a JSON array. *)
Definition externals_array : Externals :=
  Example.externals [(py"[1, 2]", JArr [JNum 1; JNum 2])] (Ok (py"[1, 2]")).

(** * Properties *)

(** ** String stripping *)

Lemma lstrip_by_all (p : N -> bool) (pre rest : str) :
  Forall (fun c => p c = true) pre ->
  lstrip_by p (pre ++ rest) = lstrip_by p rest.
Proof.
  induction 1 as [|c pre Hc _ IH]; simpl; [reflexivity|].
  now rewrite Hc.
Qed.

Lemma lstrip_by_stop (p : N -> bool) (ws : str) (x : N) (rest : str) :
  Forall (fun c => p c = false) ws -> p x = false ->
  lstrip_by p (ws ++ x :: rest) = ws ++ x :: rest.
Proof.
  intros Hws Hx. destruct Hws as [|c ws Hc _]; simpl.
  - now rewrite Hx.
  - now rewrite Hc.
Qed.

Lemma rstrip_by_all (p : N -> bool) (s suf : str) :
  Forall (fun c => p c = true) suf ->
  rstrip_by p (s ++ suf) = rstrip_by p s.
Proof.
  intros Hsuf. unfold rstrip_by. rewrite rev_app_distr.
  rewrite lstrip_by_all; [reflexivity|].
  now apply List.Forall_rev.
Qed.

Lemma rstrip_by_stop (p : N -> bool) (s : str) (x : N) (ws : str) :
  Forall (fun c => p c = false) ws -> p x = false ->
  rstrip_by p (s ++ x :: ws) = s ++ x :: ws.
Proof.
  intros Hws Hx. unfold rstrip_by.
  replace (rev (s ++ x :: ws)) with (rev ws ++ x :: rev s).
  - rewrite lstrip_by_stop; trivial.
    + rewrite rev_app_distr. simpl. rewrite !rev_involutive.
      rewrite <- app_assoc. reflexivity.
    + now apply List.Forall_rev.
  - rewrite rev_app_distr. simpl. now rewrite <- app_assoc.
Qed.

Lemma lstrip_by_head (p : N -> bool) (x : N) (rest : str) :
  p x = false -> lstrip_by p (x :: rest) = x :: rest.
Proof. intros Hx. simpl. now rewrite Hx. Qed.

Lemma rstrip_by_last (p : N -> bool) (s : str) (x : N) :
  p x = false -> rstrip_by p (s ++ [x]) = s ++ [x].
Proof. intros Hx. now apply rstrip_by_stop. Qed.

Lemma space_not_in_fence_json (c : N) :
  isspace c = true -> mem fence_json c = false.
Proof.
  intros Hs. unfold mem, fence_json. simpl.
  repeat match goal with
         | |- context [N.eqb c ?k] =>
             destruct (N.eqb_spec c k) as [->|_];
             [vm_compute in Hs; discriminate|simpl]
         end.
  reflexivity.
Qed.

Lemma space_not_in_fence (c : N) : isspace c = true -> mem fence c = false.
Proof.
  intros Hs. unfold mem, fence. simpl.
  repeat match goal with
         | |- context [N.eqb c ?k] =>
             destruct (N.eqb_spec c k) as [->|_];
             [vm_compute in Hs; discriminate|simpl]
         end.
  reflexivity.
Qed.

(** The text between the fences starts and ends outside the fence
    characters. *)
Lemma between_head (ws1 body ws2 : str) :
  whitespace ws1 -> json_object_text body ->
  exists a rest, ws1 ++ body ++ ws2 = a :: rest /\
                 (isspace a = true \/ a = 123%N).
Proof.
  intros Hws [inner ->]. destruct Hws as [|c ws1 Hc _].
  - exists 123%N, (inner ++ [125%N] ++ ws2). split; [|now right].
    simpl. now rewrite <- app_assoc.
  - exists c, (ws1 ++ (123%N :: inner ++ [125%N]) ++ ws2). split; [|now left].
    reflexivity.
Qed.

Lemma between_last (ws1 body ws2 : str) :
  whitespace ws2 -> json_object_text body ->
  exists rest z, ws1 ++ body ++ ws2 = rest ++ [z] /\
                 (isspace z = true \/ z = 125%N).
Proof.
  intros Hws [inner ->].
  destruct (List.rev ws2) as [|z rws] eqn:Hrev.
  - assert (ws2 = []) as -> by (apply (f_equal (@List.rev N)) in Hrev;
      now rewrite rev_involutive in Hrev).
    exists (ws1 ++ 123%N :: inner), 125%N. split; [|now right].
    rewrite app_nil_r. now rewrite <- app_assoc.
  - assert (ws2 = List.rev rws ++ [z]) as Hw.
    { apply (f_equal (@List.rev N)) in Hrev.
      now rewrite rev_involutive in Hrev. }
    exists (ws1 ++ (123%N :: inner ++ [125%N]) ++ List.rev rws), z. split.
    + rewrite Hw. now rewrite <- !app_assoc.
    + left. unfold whitespace in Hws. rewrite List.Forall_forall in Hws.
      apply Hws. rewrite Hw. apply in_or_app. right. now left.
Qed.

Lemma not_fence_char (a : N) :
  isspace a = true \/ a = 123%N \/ a = 125%N ->
  mem fence_json a = false /\ mem fence a = false.
Proof.
  intros [Hs|[->| ->]]; [|split; reflexivity ..].
  split; [now apply space_not_in_fence_json | now apply space_not_in_fence].
Qed.

Lemma strip_core (ws0 ws3 mid : str) (a z : N) :
  whitespace ws0 -> whitespace ws3 -> isspace a = false -> isspace z = false ->
  strip (ws0 ++ (a :: mid ++ [z]) ++ ws3) = a :: mid ++ [z].
Proof.
  intros H0 H3 Ha Hz. unfold strip.
  rewrite lstrip_by_all by exact H0.
  rewrite <- app_comm_cons.
  rewrite lstrip_by_head by exact Ha.
  rewrite app_comm_cons.
  rewrite rstrip_by_all by exact H3.
  rewrite app_comm_cons.
  now rewrite rstrip_by_last.
Qed.

Lemma strip_between (ws1 body ws2 : str) :
  whitespace ws1 -> whitespace ws2 -> json_object_text body ->
  strip (ws1 ++ body ++ ws2) = body.
Proof.
  intros H1 H2 [inner ->]. now apply strip_core.
Qed.

Lemma strip_fenced (body raw : str) :
  fenced body raw ->
  exists ws1 ws2, whitespace ws1 /\ whitespace ws2 /\
    strip raw = fence_json ++ (ws1 ++ body ++ ws2) ++ fence.
Proof.
  intros (ws0 & ws1 & ws2 & ws3 & H0 & H1 & H2 & H3 & ->).
  exists ws1, ws2. split; [exact H1|]. split; [exact H2|].
  change (py"```json") with fence_json. change (py"```") with fence.
  pose (mid := [96; 96; 106; 115; 111; 110]%N ++ (ws1 ++ body ++ ws2) ++ [96; 96]%N).
  replace (ws0 ++ fence_json ++ ws1 ++ body ++ ws2 ++ fence ++ ws3)
    with (ws0 ++ (96%N :: mid ++ [96%N]) ++ ws3)
    by (unfold mid, fence_json, fence; simpl; now rewrite <- !app_assoc).
  rewrite strip_core by (assumption || reflexivity).
  unfold mid, fence_json, fence. simpl. now rewrite <- !app_assoc.
Qed.

Lemma fence_json_all : Forall (fun c => mem fence_json c = true) fence_json.
Proof. repeat constructor. Qed.

Lemma fence_all : Forall (fun c => mem fence c = true) fence.
Proof. repeat constructor. Qed.

Lemma fence_in_fence_json : Forall (fun c => mem fence_json c = true) fence.
Proof. repeat constructor. Qed.

(** On a fenced JSON object, the planner-side chain of strips leaves the
    object's text. *)
Lemma clean_fenced (body raw : str) :
  json_object_text body -> fenced body raw -> clean raw = body.
Proof.
  intros Hobj Hf.
  destruct (strip_fenced body raw Hf) as (ws1 & ws2 & H1 & H2 & Hs).
  destruct (between_head ws1 body ws2 H1 Hobj) as (a & tl & Ha & Hca).
  destruct (between_last ws1 body ws2 H2 Hobj) as (ini & z & Hz & Hcz).
  assert (mem fence_json a = false /\ mem fence a = false) as [Ha1 Ha2]
    by (apply not_fence_char; tauto).
  assert (mem fence_json z = false /\ mem fence z = false) as [_ Hz2]
    by (apply not_fence_char; tauto).
  unfold clean. change (py"```json") with fence_json. change (py"```") with fence.
  rewrite Hs. unfold lstrip, rstrip.
  rewrite lstrip_by_all by exact fence_json_all.
  rewrite Ha. simpl app at 1.
  rewrite !lstrip_by_head by assumption.
  change (a :: tl ++ fence) with ((a :: tl) ++ fence). rewrite <- Ha.
  rewrite rstrip_by_all by exact fence_all.
  rewrite Hz, rstrip_by_last by assumption.
  rewrite <- Hz. now apply strip_between.
Qed.

(** So does the coach-side chain. *)
Lemma coach_clean_fenced (body raw : str) :
  json_object_text body -> fenced body raw -> coach_clean raw = body.
Proof.
  intros Hobj Hf.
  destruct (strip_fenced body raw Hf) as (ws1 & ws2 & H1 & H2 & Hs).
  destruct (between_head ws1 body ws2 H1 Hobj) as (a & tl & Ha & Hca).
  destruct (between_last ws1 body ws2 H2 Hobj) as (ini & z & Hz & Hcz).
  assert (mem fence_json a = false /\ mem fence a = false) as [Ha1 Ha2]
    by (apply not_fence_char; tauto).
  assert (mem fence_json z = false /\ mem fence z = false) as [Hz1 Hz2]
    by (apply not_fence_char; tauto).
  unfold coach_clean.
  change (py"```json") with fence_json. change (py"```") with fence.
  rewrite Hs. unfold strip_chars, lstrip, rstrip.
  rewrite lstrip_by_all by exact fence_json_all.
  rewrite Ha. simpl app at 1.
  rewrite lstrip_by_head by assumption.
  change (a :: tl ++ fence) with ((a :: tl) ++ fence). rewrite <- Ha.
  rewrite rstrip_by_all by exact fence_in_fence_json.
  rewrite Hz, rstrip_by_last by assumption.
  rewrite <- Hz, Ha, lstrip_by_head by assumption.
  rewrite <- Ha, Hz, rstrip_by_last by assumption.
  rewrite <- Hz. now apply strip_between.
Qed.

(** ** Response extraction *)

Lemma extract_unfold `{Externals} (c : Capability) (raw : str) :
  extract c raw =
  try_except (json_loads (cleaned c raw)) (Ok (default_of c raw)).
Proof. destruct c; reflexivity. Qed.

Lemma cleaned_fenced (c : Capability) (body raw : str) :
  json_object_text body -> fenced body raw -> cleaned c raw = body.
Proof.
  intros Hobj Hf.
  destruct c; simpl; auto using clean_fenced, coach_clean_fenced.
Qed.

(** C8. Response extraction never raises: at every extraction site and for
    every raw model text the result is a value; when the text is a JSON
    object between [```json] and [```] fences, the text handed to the parser
    is the object's text, character for character, and the extracted value is
    what parsing that text gives; when the stripped text does not parse, the
    site's default structure is returned. *)
Theorem response_extraction_never_raises `{Externals}
    (c : Capability) (raw : str) :
  (exists v, extract c raw = Ok v) /\
  (forall body, json_object_text body -> fenced body raw ->
     cleaned c raw = body /\
     forall v, json_loads body = Ok v -> extract c raw = Ok v) /\
  (forall e, json_loads (cleaned c raw) = Raise e ->
     extract c raw = Ok (default_of c raw)).
Proof.
  rewrite extract_unfold. repeat split.
  - destruct (json_loads (cleaned c raw)) as [v|e]; simpl; eauto.
  - now apply cleaned_fenced.
  - intros v Hv. rewrite (cleaned_fenced c body raw) by assumption.
    now rewrite Hv.
  - intros e He. now rewrite He.
Qed.

Lemma response_extraction_witness :
  let E := Example.externals [(py"{}", JObj [])] (Ok fenced_empty_object) in
  json_object_text (py"{}") /\ fenced (py"{}") fenced_empty_object /\
  @extract E GenerateSchedule fenced_empty_object = Ok (JObj []).
Proof.
  intros E.
  assert (json_object_text (py"{}")) as Hobj by (exists []; reflexivity).
  assert (fenced (py"{}") fenced_empty_object) as Hf.
  { exists [], [10%N], [10%N], [].
    repeat split; repeat constructor. }
  split; [exact Hobj|]. split; [exact Hf|].
  destruct (@response_extraction_never_raises E GenerateSchedule
              fenced_empty_object) as (_ & Hfenced & _).
  destruct (Hfenced (py"{}") Hobj Hf) as [_ Hv].
  apply Hv. reflexivity.
Defined.

(** ** Handlers: unfolding *)

Lemma get_schedule_reads `{Externals} (user_id : str) (d : date) (w : World) :
  snd (get_schedule user_id d w) = w.
Proof.
  unfold get_schedule, mbind, M_bind, gets, lift, mret, M_ret.
  destruct (List.find _ _) as [row|]; [|reflexivity].
  destruct (py_iter _); [|reflexivity].
  destruct (traverse _ _); [|reflexivity].
  destruct (validate_float _); [|reflexivity].
  destruct (validate_opt_str _); reflexivity.
Qed.

Lemma get_schedule_found `{Externals} (user_id : str) (d : date) (w : World)
    (schedule : DailySchedule) :
  fst (get_schedule user_id d w) = Ok (Some schedule) ->
  get_schedule user_id d w = (Ok (Some schedule), w).
Proof.
  intros Hg. pose proof (get_schedule_reads user_id d w) as Hw.
  destruct (get_schedule user_id d w) as [r w']. simpl in *. now subst.
Qed.

(** ** Adaptive reschedule *)

Lemma is_missed_spec (now_str : str) (b : TimeBlock) :
  is_missed now_str b = true <-> missed_block now_str b.
Proof.
  unfold is_missed, missed_block, status_is.
  rewrite andb_true_iff, orb_true_iff, !bool_decide_eq_true. tauto.
Qed.

Lemma is_remaining_spec (now_str : str) (b : TimeBlock) :
  is_remaining now_str b = true <-> remaining_block now_str b.
Proof.
  unfold is_remaining, remaining_block, status_is, str_geb.
  rewrite andb_true_iff, negb_true_iff, bool_decide_eq_true. tauto.
Qed.

Lemma no_missed_filter (now_str : str) (blocks : list TimeBlock) :
  (forall b, In b blocks -> ~ missed_block now_str b) ->
  List.filter (is_missed now_str) blocks = [].
Proof.
  induction blocks as [|b blocks IH]; intros Hno; [reflexivity|].
  simpl. destruct (is_missed now_str b) eqn:Hb.
  - exfalso. apply (Hno b); [now left|]. now apply is_missed_spec.
  - apply IH. intros b' Hin. apply Hno. now right.
Qed.

(** C3. If today's stored schedule has no missed block (no block whose
    status is pending or skipped and whose end time is, as a string, before
    the current time of day), adaptive reschedule returns that schedule as it
    is and leaves the whole store as it was: no remote call is recorded and
    no schedule row is changed. *)
Theorem reschedule_without_missed_is_identity `{Externals}
    (user_id : str) (today : date) (now_str : str) (w : World)
    (schedule : DailySchedule) :
  fst (get_schedule user_id today w) = Ok (Some schedule) ->
  (forall b, In b (time_blocks schedule) -> ~ missed_block now_str b) ->
  adaptive_reschedule_today user_id today now_str w = (Ok schedule, w).
Proof.
  intros Hg Hno. apply get_schedule_found in Hg.
  unfold adaptive_reschedule_today, mbind, M_bind.
  rewrite Hg. now rewrite no_missed_filter.
Qed.

Lemma reschedule_without_missed_witness :
  fst (@get_schedule externals_z (py"u1") 100%Z world_s1) = Ok (Some schedule_s1) /\
  (forall b, In b (time_blocks schedule_s1) -> ~ missed_block (py"08:00") b) /\
  @adaptive_reschedule_today externals_z (py"u1") 100%Z (py"08:00") world_s1
  = (Ok schedule_s1, world_s1).
Proof.
  assert (fst (@get_schedule externals_z (py"u1") 100%Z world_s1)
          = Ok (Some schedule_s1)) as Hg by reflexivity.
  assert (forall b, In b (time_blocks schedule_s1) ->
                    ~ missed_block (py"08:00") b) as Hno.
  { intros b Hin [_ Hlt]. simpl in Hin.
    destruct Hin as [<-|[<-|[<-|[]]]]; vm_compute in Hlt; discriminate. }
  split; [exact Hg|]. split; [exact Hno|].
  exact (@reschedule_without_missed_is_identity externals_z (py"u1") 100%Z
           (py"08:00") world_s1 schedule_s1 Hg Hno).
Defined.

Lemma traverse_dump `{Externals} (blocks : list TimeBlock) :
  (forall b, TimeBlock_new (model_dump b) = Ok b) ->
  traverse TimeBlock_new (List.map model_dump blocks) = Ok blocks.
Proof.
  intros Hdump. induction blocks as [|b blocks IH]; [reflexivity|].
  simpl. rewrite Hdump. simpl. rewrite IH. reflexivity.
Qed.






Lemma TimeBlock_of_json_dump (b : TimeBlock) :
  Example.TimeBlock_of_json (model_dump b) = Ok b.
Proof.
  destruct b as [bid ttl desc st en cat gid prio energy sts flex].
  destruct desc, gid, prio, energy, sts; reflexivity.
Qed.


(** ** Progress summary *)

Lemma round_half_even_compat (x y : Q) :
  x == y -> round_half_even x = round_half_even y.
Proof.
  intros Hxy. unfold round_half_even.
  rewrite (Qfloor_comp x y Hxy).
  now rewrite Hxy.
Qed.

Lemma round3_compat (x y : Q) : x == y -> round3 x == round3 y.
Proof.
  intros Hxy. unfold round3.
  rewrite (round_half_even_compat (x * 1000) (y * 1000)); [reflexivity|].
  now rewrite Hxy.
Qed.

Lemma burnout_score_compat (m m' f f' p p' h h' : Q) :
  m == m' -> f == f' -> p == p' -> h == h' ->
  burnout_score m f p h == burnout_score m' f' p' h'.
Proof.
  intros Hm Hf Hp Hh. unfold burnout_score. apply round3_compat.
  apply Q.min_compat; [reflexivity|].
  assert (Qmin (h / 10) 1 == Qmin (h' / 10) 1) as Hw
    by (apply Q.min_compat; [now rewrite Hh | reflexivity]).
  now rewrite Hm, Hf, Hp, Hw.
Qed.

(** On binary64 the weighted sum at the fixed inputs is exactly 0.5, as it
    is on the rationals: rounding to three decimals leaves it there. *)
Lemma burnout_sum_binary64_fixed_inputs :
  burnout_sum_binary64 5 5 (1 / 2) 5 = (1 / 2)%float.
Proof. vm_compute. reflexivity. Qed.

(** C1, as the specification states it, fails: on mood 5, focus 5, half of
    the check-ins on low energy and 5 work hours a day, the score is not
    0.4. *)
Lemma burnout_fixed_inputs_not_0_4 :
  avg_mood checkins_5_5 == 5 /\ avg_focus checkins_5_5 == 5 /\
  energy_penalty checkins_5_5 == 1 # 2 /\ work_hrs_avg hours_35 7 == 5 /\
  ~ burnout_risk checkins_5_5 hours_35 7 == 4 # 10.
Proof.
  repeat split; try reflexivity.
  vm_compute. discriminate.
Qed.

(** C1, amended. With at least one check-in in the window and
    avg_mood = 5, avg_focus = 5, energy_penalty = 0.5, work_hrs_avg = 5, the
    burnout risk score is the weighted sum
    0.5*0.35 + 0.5*0.25 + 0.5*0.20 + 0.5*0.20, clamped at 1 and rounded to
    three decimals, which is 0.5. *)
Theorem burnout_fixed_inputs (checkins_data : list CheckinRow)
    (hours : list (JSON * Q)) (days : Z) :
  checkins_data <> [] ->
  avg_mood checkins_data == 5 ->
  avg_focus checkins_data == 5 ->
  energy_penalty checkins_data == 1 # 2 ->
  work_hrs_avg hours days == 5 ->
  burnout_risk checkins_data hours days ==
    round3 (Qmin 1 ((1 # 2) * (35 # 100) + (1 # 2) * (25 # 100)
                    + (1 # 2) * (20 # 100) + (1 # 2) * (20 # 100))) /\
  burnout_risk checkins_data hours days == 5 # 10.
Proof.
  intros Hne Hm Hf Hp Hh.
  assert (burnout_risk checkins_data hours days == burnout_score 5 5 (1 # 2) 5)
    as Hrisk.
  { unfold burnout_risk. destruct checkins_data; [congruence|].
    now apply burnout_score_compat. }
  split; rewrite Hrisk; reflexivity.
Qed.

Lemma burnout_fixed_inputs_witness :
  burnout_risk checkins_5_5 hours_35 7 == 5 # 10.
Proof.
  apply (burnout_fixed_inputs checkins_5_5 hours_35 7);
    [discriminate | reflexivity ..].
Defined.

Lemma count_schedules_empty `{Externals} (acc : BlockTotals)
    (rows : list ScheduleRow) :
  (forall r, In r rows -> py_iter (s_time_blocks r) = Ok []) ->
  count_schedules acc rows = Ok acc.
Proof.
  induction rows as [|r rows IH]; intros Hrows; [reflexivity|].
  simpl. rewrite (Hrows r) by now left. simpl.
  apply IH. intros r' Hin. apply Hrows. now right.
Qed.

Lemma completion_rate_never_divides_by_zero `{Externals} (t : BlockTotals) :
  completion_rate_of t <> Raise ZeroDivisionError.
Proof.
  unfold completion_rate_of, truediv.
  destruct (Z.eqb_spec (total_blocks t) 0) as [|Hnz]; [discriminate|].
  destruct (Qeq_bool (inject_Z (total_blocks t)) 0) eqn:Hq; [|discriminate].
  apply Qeq_bool_eq in Hq. unfold Qeq in Hq. simpl in Hq. lia.
Qed.

(** C5. When the schedules of the trailing window hold no time block at
    all, the block count is zero, the guarded division is not evaluated and
    the completion rate is 0.0: the summary, when it is returned, reports a
    completion rate of 0, and the only exception the handler can end with is
    one raised by the remote model. *)
Theorem completion_rate_zero_without_blocks `{Externals}
    (user_id period : str) (today : date) (w : World) :
  let rows := window_schedules user_id (today - period_days period)%Z w in
  (forall r, In r rows -> py_iter (s_time_blocks r) = Ok []) ->
  count_schedules (mkBlockTotals 0 0 []) rows = Ok (mkBlockTotals 0 0 []) /\
  completion_rate_of (mkBlockTotals 0 0 []) = Ok 0%Q /\
  match fst (get_progress_summary user_id period today w) with
  | Ok summary => completion_rate summary == 0
  | Raise e => exists prompt, planner_output w prompt = Raise e
  end.
Proof.
  intros rows Hrows. split; [now apply count_schedules_empty|].
  split; [reflexivity|].
  unfold get_progress_summary, mbind, M_bind, gets, lift.
  fold rows. rewrite (count_schedules_empty _ rows Hrows).
  cbv beta iota.
  destruct (classify_goals _ _ _) as [on_track_titles at_risk_titles].
  change (completion_rate_of (mkBlockTotals 0 0 [])) with (@Ok Q 0%Q).
  unfold run_planner. cbv beta iota.
  match goal with
  | |- context [planner_output ?w' ?p] =>
      destruct (planner_output w' p) as [insights|e] eqn:Hout
  end; simpl.
  - reflexivity.
  - eauto.
Qed.

Lemma completion_rate_zero_witness :
  match fst (@get_progress_summary externals_prose (py"u1") (py"weekly") 100%Z
               Example.empty_world) with
  | Ok summary => completion_rate summary == 0
  | Raise e => exists prompt,
      @planner_output externals_prose Example.empty_world prompt = Raise e
  end.
Proof.
  refine (proj2 (proj2
    (@completion_rate_zero_without_blocks externals_prose (py"u1")
       (py"weekly") 100%Z Example.empty_world _))).
  simpl. intros r [].
Defined.



(** ** Habit check-in *)

(** C7. A habit check-in whose log identifier is new adds one row to the
    habit log and rewrites the habit it names: with completed = false the
    streak count becomes 0 whatever it was, with completed = true it grows
    by exactly 1 and the last completion date becomes the check-in date. *)
Theorem habit_checkin_streak `{Externals}
    (user_id : str) (checkin : HabitCheckIn) (now_str : str) (w : World)
    (h : HabitRow) :
  let log_id := uuid4 (uuids_drawn w) in
  let w' := snd (api_habit_checkin user_id checkin now_str w) in
  let h' := checkin_habit checkin h in
  In h (habits w) ->
  h_habit_id h = hc_habit_id checkin ->
  existsb (fun l => str_eqb (l_log_id l) log_id) (habit_logs w) = false ->
  fst (api_habit_checkin user_id checkin now_str w) = Ok log_id /\
  habit_logs w' =
    habit_logs w ++
      [mkHabitLogRow log_id (hc_habit_id checkin) user_id (hc_date checkin)
         (if hc_completed checkin then 1 else 0)%Z (hc_note checkin) now_str] /\
  habits w' = List.map (checkin_habit checkin) (habits w) /\
  In h' (habits w') /\
  h_habit_id h' = h_habit_id h /\
  (hc_completed checkin = false -> streak_count h' = 0%Z) /\
  (hc_completed checkin = true ->
     streak_count h' = (streak_count h + 1)%Z /\
     last_completed h' = Some (hc_date checkin)).
Proof.
  intros log_id w' h' Hin Hid Hfresh.
  assert (api_habit_checkin user_id checkin now_str w =
          (Ok log_id,
           set_habits (List.map (checkin_habit checkin) (habits w))
             (habit_logs w ++
                [mkHabitLogRow log_id (hc_habit_id checkin) user_id
                   (hc_date checkin)
                   (if hc_completed checkin then 1 else 0)%Z
                   (hc_note checkin) now_str])
             (count_uuid w))) as Hrun.
  { unfold api_habit_checkin, mbind, M_bind, new_uuid, gets, modify.
    simpl. fold log_id. rewrite Hfresh. reflexivity. }
  subst w'. rewrite Hrun. simpl.
  assert (h' = if hc_completed checkin
               then mkHabitRow (h_habit_id h) (h_user_id h) (h_title h)
                      (streak_count h + 1)%Z (Some (hc_date checkin))
               else mkHabitRow (h_habit_id h) (h_user_id h) (h_title h)
                      0%Z (last_completed h)) as Hh'.
  { subst h'. unfold checkin_habit.
    now rewrite bool_decide_eq_true_2 by exact Hid. }
  split; [reflexivity|]. split; [reflexivity|]. split; [reflexivity|].
  split; [now apply in_map|].
  rewrite Hh'. split; [now destruct (hc_completed checkin)|].
  split; intros Hc; rewrite Hc; simpl; auto.
Qed.

Lemma habit_checkin_streak_witness :
  let missed := mkHabitCheckIn (py"h1") false 101%Z None in
  let done := mkHabitCheckIn (py"h1") true 101%Z None in
  streak_count (checkin_habit missed habit_h1) = 0%Z /\
  streak_count (checkin_habit done habit_h1) = 7%Z /\
  last_completed (checkin_habit done habit_h1) = Some 101%Z.
Proof.
  intros missed done.
  pose proof (@habit_checkin_streak externals_prose (py"u1") missed
                (py"2024-01-01T21:00:00") world_habit habit_h1
                ltac:(now left) eq_refl eq_refl) as Hmissed.
  pose proof (@habit_checkin_streak externals_prose (py"u1") done
                (py"2024-01-01T21:00:00") world_habit habit_h1
                ltac:(now left) eq_refl eq_refl) as Hdone.
  split; [exact (proj1 (proj2 (proj2 (proj2 (proj2 (proj2 Hmissed))))) eq_refl)|].
  exact (proj2 (proj2 (proj2 (proj2 (proj2 (proj2 Hdone))))) eq_refl).
Defined.

(** ** Coach chat *)

Lemma history_after_upsert (user_id : str) (new_history : list JSON)
    (now_str : str) (cs : gmap str ChatSessionRow) (w : World) :
  api_chat_history user_id
    (set_chat_sessions (upsert_session user_id new_history now_str cs) w)
  = new_history.
Proof.
  unfold api_chat_history, upsert_session. simpl.
  destruct (cs !! session_id_of user_id); now rewrite lookup_insert_eq.
Qed.

(** C9, as the specification states it, fails: a message sent without the
    conversation history replaces a stored history of four messages by the
    two new ones, of which the old history is not a prefix. *)
Lemma chat_history_not_append_only :
  let now_str := py"2024-01-01T09:00:00" in
  let run := @api_chat externals_coach request_no_history 100%Z now_str
               world_chat in
  fst run = Ok (mkChatResponse (py"Welcome") (Some [])) /\
  api_chat_history (py"u1") world_chat = stored_history /\
  api_chat_history (py"u1") (snd run) =
    [ chat_entry (py"user") (JStr (py"Thanks")) now_str;
      chat_entry (py"assistant") (JStr (py"Welcome")) now_str ] /\
  ~ (api_chat_history (py"u1") world_chat
       `prefix_of` api_chat_history (py"u1") (snd run)).
Proof.
  intros now_str run.
  assert (api_chat_history (py"u1") (snd run) =
            [ chat_entry (py"user") (JStr (py"Thanks")) now_str;
              chat_entry (py"assistant") (JStr (py"Welcome")) now_str ]) as Hnew
    by (vm_compute; reflexivity).
  split; [vm_compute; reflexivity|].
  split; [vm_compute; reflexivity|].
  split; [exact Hnew|].
  rewrite Hnew. intros [k Hk].
  apply (f_equal (@length JSON)) in Hk.
  rewrite length_app in Hk.
  change (length (api_chat_history (py"u1") world_chat)) with 4%nat in Hk.
  simpl in Hk. lia.
Qed.

(** C9, amended. A chat message whose handling reaches the store leaves, as
    the stored history of the user's session, the conversation history sent
    with the request followed by the new user message and the assistant
    reply; this replaces what was stored, so that the history stored before
    is a prefix of the new one whenever it is a prefix of the history the
    request sent. *)
Theorem chat_history_follows_request `{Externals}
    (request : ChatRequest) (today : date) (now_str : str) (w : World)
    (hist : list JSON) (raw : str) (result answer : JSON) :
  let prompt :=
    CoachPrompt (cr_message request) (default today (context_date request))
      hist in
  let w' := snd (api_chat request today now_str w) in
  let new_history :=
    hist ++ [ chat_entry (py"user") (JStr (cr_message request)) now_str;
              chat_entry (py"assistant") answer now_str ] in
  traverse dump_message (default [] (conversation_history request)) = Ok hist ->
  coach_output w prompt = Ok raw ->
  parse_coach_output raw = Ok result ->
  py_get result (py"reply") (JStr []) = Ok answer ->
  api_chat_history (cr_user_id request) w' = new_history /\
  (api_chat_history (cr_user_id request) w `prefix_of` hist ->
   api_chat_history (cr_user_id request) w
     `prefix_of` api_chat_history (cr_user_id request) w').
Proof.
  intros prompt w' new_history Hhist Hout Hparse Hreply.
  assert (api_chat_history (cr_user_id request) w' = new_history) as Hnew.
  { subst w'. unfold api_chat, mbind, M_bind, lift, run_coach, modify.
    rewrite Hhist. fold prompt. rewrite Hout, Hparse, Hreply.
    cbv beta iota. fold new_history.
    destruct (py_get result (py"suggested_actions") (JArr [])) as [actions|e];
      simpl; [|apply history_after_upsert].
    destruct (ChatResponse_new answer actions); simpl;
      apply history_after_upsert. }
  split; [exact Hnew|].
  intros Hpre. rewrite Hnew. unfold new_history.
  now apply prefix_app_r.
Qed.

Lemma chat_history_follows_request_witness :
  let now_str := py"2024-01-01T09:00:00" in
  api_chat_history (py"u1")
    (snd (@api_chat externals_coach request_no_history 100%Z now_str world_chat))
  = [ chat_entry (py"user") (JStr (py"Thanks")) now_str;
      chat_entry (py"assistant") (JStr (py"Welcome")) now_str ].
Proof.
  intros now_str.
  exact (proj1
    (@chat_history_follows_request externals_coach request_no_history 100%Z
       now_str world_chat [] text_ok answer_ok (JStr (py"Welcome"))
       eq_refl eq_refl eq_refl eq_refl)).
Defined.

(** ** Schedule generation *)

Lemma insert_or_replace_keeps (r r0 : ScheduleRow) (rows : list ScheduleRow) :
  In r0 rows -> s_schedule_id r0 <> s_schedule_id r ->
  In r0 (insert_or_replace r rows).
Proof.
  intros Hin Hne. unfold insert_or_replace. apply in_or_app. left.
  apply List.filter_In. split; [exact Hin|].
  now rewrite bool_decide_eq_false_2.
Qed.


(** C2 on the code. Generating a schedule for a user and a day that already
    have one, under a new schedule identifier, adds a second row for that
    user and day: the old row stays, with its blocks, and a retrieval still
    answers with the old schedule. *)
Lemma generate_schedule_keeps_old_row :
  let run := @generate_schedule externals_z request_again
               (py"2024-01-01T12:00:00") (py"2024-01-01T12:00:01") world_s1 in
  let new_row :=
    mkScheduleRow (py"uuid-0") (py"u1") 100%Z (JArr [dict_block_z])
      (JNum 0) (JStr (py"moved")) (py"2024-01-01T12:00:00") in
  fst (@get_schedule externals_z (py"u1") 100%Z world_s1) = Ok (Some schedule_s1) /\
  fst run = Ok (mkDailySchedule (py"uuid-0") (py"u1") 100%Z [block_z] 0
                  (JStr (py"moved")) (py"2024-01-01T12:00:01")) /\
  schedules (snd run) = [row_s1; new_row] /\
  List.filter (schedule_of (py"u1") 100%Z) (schedules (snd run))
    = [row_s1; new_row] /\
  fst (@get_schedule externals_z (py"u1") 100%Z (snd run)) = Ok (Some schedule_s1).
Proof.
  intros run new_row.
  repeat split; vm_compute; reflexivity.
Qed.

(** * Further properties *)

(** One step of an error-monad computation in a hypothesis. *)
Ltac step_result H :=
  match type of H with
  | context [match ?r with Ok _ => _ | Raise _ => _ end] =>
      let E := fresh "E" in
      destruct r eqn:E; simpl in H; try discriminate H
  end.

(** ** Progress summary: what the loop over the blocks computes *)

Lemma count_block_counts `{Externals} (acc acc' : BlockTotals) (b : JSON) :
  count_block acc b = Ok acc' ->
  total_blocks acc' = (total_blocks acc + 1)%Z /\
  completed_blocks acc' =
    (completed_blocks acc + if counts_completed b then 1 else 0)%Z.
Proof.
  unfold count_block, counts_completed, mbind, Result_bind. intros Hc.
  destruct (py_get b (py"status") JNull) as [st|] eqn:Hst; [|discriminate].
  repeat step_result Hc.
  injection Hc as <-. simpl. split; [reflexivity|].
  destruct (key_eqb st _); lia.
Qed.

Lemma count_blocks_counts `{Externals} (blocks : list JSON) :
  forall acc acc',
  count_blocks acc blocks = Ok acc' ->
  total_blocks acc' = (total_blocks acc + Z.of_nat (length blocks))%Z /\
  completed_blocks acc' =
    (completed_blocks acc
     + Z.of_nat (length (List.filter counts_completed blocks)))%Z.
Proof.
  induction blocks as [|b blocks IH]; intros acc acc' Hc; simpl in Hc.
  - injection Hc as <-. simpl. lia.
  - destruct (count_block acc b) as [acc1|] eqn:Hb; [|discriminate].
    simpl in Hc. apply count_block_counts in Hb as [Ht Hd].
    apply IH in Hc as [Ht' Hd']. simpl.
    destruct (counts_completed b); simpl; lia.
Qed.

Lemma count_schedules_counts `{Externals} (rows : list ScheduleRow) :
  forall acc acc',
  count_schedules acc rows = Ok acc' ->
  exists lists,
    traverse (fun r => py_iter (s_time_blocks r)) rows = Ok lists /\
    total_blocks acc' =
      (total_blocks acc + Z.of_nat (length (concat lists)))%Z /\
    completed_blocks acc' =
      (completed_blocks acc
       + Z.of_nat (length (List.filter counts_completed (concat lists))))%Z.
Proof.
  induction rows as [|r rows IH]; intros acc acc' Hc; simpl in Hc.
  - injection Hc as <-. exists []. simpl. repeat split; lia.
  - destruct (py_iter (s_time_blocks r)) as [blocks|] eqn:Hi; [|discriminate].
    simpl in Hc.
    destruct (count_blocks acc blocks) as [acc1|] eqn:Hb; [|discriminate].
    simpl in Hc. apply count_blocks_counts in Hb as [Ht Hd].
    apply IH in Hc as (lists & Htr & Ht' & Hd').
    exists (blocks :: lists). simpl. rewrite Hi. simpl. rewrite Htr. simpl.
    split; [reflexivity|].
    rewrite List.filter_app, !length_app. lia.
Qed.

Lemma completion_rate_of_spec (t : BlockTotals) :
  (0 <= completed_blocks t <= total_blocks t)%Z ->
  exists q, completion_rate_of t = Ok q /\ (0 <= q <= 1)%Q /\
    (total_blocks t <> 0%Z ->
     q == inject_Z (completed_blocks t) / inject_Z (total_blocks t)).
Proof.
  intros [Hlo Hhi]. unfold completion_rate_of.
  destruct (Z.eqb_spec (total_blocks t) 0) as [Hz|Hnz].
  - exists 0%Q. split; [reflexivity|]. split; [lra|]. intros; congruence.
  - unfold truediv.
    destruct (Qeq_bool (inject_Z (total_blocks t)) 0) eqn:Hq.
    { apply Qeq_bool_eq in Hq. unfold Qeq in Hq. simpl in Hq. lia. }
    eexists. split; [reflexivity|].
    assert (0 < inject_Z (total_blocks t))%Q as Hpos.
    { change 0%Q with (inject_Z 0). rewrite <- Zlt_Qlt. lia. }
    split; [|intros _; reflexivity]. split.
    + apply Qle_shift_div_l; [exact Hpos|].
      rewrite Qmult_0_l. change 0%Q with (inject_Z 0).
      rewrite <- Zle_Qle. exact Hlo.
    + apply Qle_shift_div_r; [exact Hpos|].
      rewrite Qmult_1_l. rewrite <- Zle_Qle. exact Hhi.
Qed.



(** ** Progress summary: the time allocation *)

Lemma key_eqb_sym (a b : JSON) : key_eqb a b = key_eqb b a.
Proof.
  destruct a, b; simpl; try reflexivity;
    try apply Qeq_bool_comm.
  unfold str_eqb. apply bool_decide_ext. split; congruence.
Qed.

Lemma key_eqb_trans (a b c : JSON) :
  key_eqb a b = true -> key_eqb b c = true -> key_eqb a c = true.
Proof.
  destruct a, b, c; simpl; try discriminate; try (intros; reflexivity);
    try apply Qeq_bool_trans.
  unfold str_eqb. rewrite !bool_decide_eq_true. congruence.
Qed.

Lemma key_eqb_false_r (k q e : JSON) :
  key_eqb k q = false -> key_eqb e k = true -> key_eqb e q = false.
Proof.
  intros Hkq Hek. destruct (key_eqb e q) eqn:Heq; [|reflexivity].
  rewrite key_eqb_sym in Hek.
  now rewrite (key_eqb_trans k e q Hek Heq) in Hkq.
Qed.

Lemma hashable_key (v k : JSON) :
  hashable v = Ok k -> k = v /\ key_eqb k k = true.
Proof.
  destruct v; simpl; intros Hh; try discriminate; injection Hh as <-;
    (split; [reflexivity|]); simpl; try reflexivity;
    try apply Qeq_bool_refl.
  unfold str_eqb. now apply bool_decide_eq_true.
Qed.

Lemma hours_get_equiv (d : list (JSON * Q)) (k q : JSON) (dflt : Q) :
  key_eqb k q = true -> hours_get d k dflt = hours_get d q dflt.
Proof.
  intros Hkq. induction d as [|[e v] d IH]; [reflexivity|]. simpl.
  destruct (key_eqb e k) eqn:Hek.
  - now rewrite (key_eqb_trans e k q Hek Hkq).
  - destruct (key_eqb e q) eqn:Heq; [|exact IH].
    rewrite key_eqb_sym in Hkq.
    now rewrite (key_eqb_trans e q k Heq Hkq) in Hek.
Qed.

(** Reading a key after writing one: the written value under an equal key,
    the old value under any other. *)
Lemma hours_get_set (d : list (JSON * Q)) (k q : JSON) (v dflt : Q) :
  key_eqb k k = true ->
  hours_get (hours_set d k v) q dflt =
  if key_eqb k q then v else hours_get d q dflt.
Proof.
  intros Hkk. induction d as [|[e x] d IH]; simpl.
  - reflexivity.
  - destruct (key_eqb e k) eqn:Hek; simpl.
    + destruct (key_eqb k q) eqn:Hkq.
      * now rewrite (key_eqb_trans e k q Hek Hkq).
      * now rewrite (key_eqb_false_r k q e Hkq Hek).
    + destruct (key_eqb e q) eqn:Heq; [|exact IH].
      destruct (key_eqb k q) eqn:Hkq; [|reflexivity].
      rewrite key_eqb_sym in Hkq.
      now rewrite (key_eqb_trans e q k Heq Hkq) in Hek.
Qed.

Lemma hours_set_nonneg (d : list (JSON * Q)) (k : JSON) (v : Q) :
  Forall (fun kv => 0 <= snd kv)%Q d -> (0 <= v)%Q ->
  Forall (fun kv => 0 <= snd kv)%Q (hours_set d k v).
Proof.
  intros Hd Hv. induction Hd as [|[e x] d Hx Hd IH]; simpl.
  - repeat constructor. exact Hv.
  - destruct (key_eqb e k); constructor; auto.
Qed.

Lemma hours_get_nonneg (d : list (JSON * Q)) (k : JSON) (dflt : Q) :
  Forall (fun kv => 0 <= snd kv)%Q d -> (0 <= dflt)%Q ->
  (0 <= hours_get d k dflt)%Q.
Proof.
  intros Hd Hv. induction Hd as [|[e x] d Hx Hd IH]; simpl; [exact Hv|].
  destruct (key_eqb e k); auto.
Qed.

Lemma count_block_hours `{Externals} (acc acc' : BlockTotals) (b : JSON) :
  count_block acc b = Ok acc' ->
  exists cat hrs,
    block_entry b = Ok (cat, hrs) /\ (0 <= hrs)%Q /\ key_eqb cat cat = true /\
    category_hours acc' =
      hours_set (category_hours acc) cat
        (hours_get (category_hours acc) cat 0 + hrs)%Q.
Proof.
  unfold count_block, block_entry, mbind, Result_bind. intros Hc.
  destruct (py_get b (py"status") JNull) as [st|]; [|discriminate].
  repeat step_result Hc.
  injection Hc as <-. simpl.
  match goal with Hh : hashable _ = Ok _ |- _ =>
    apply hashable_key in Hh as [-> Hkk] end.
  eexists _, _. split; [reflexivity|].
  split; [apply Q.le_max_l|]. split; [exact Hkk|reflexivity].
Qed.

Lemma count_blocks_hours `{Externals} (blocks : list JSON) :
  forall acc acc',
  count_blocks acc blocks = Ok acc' ->
  exists entries,
    traverse block_entry blocks = Ok entries /\
    Forall (fun kv => 0 <= snd kv)%Q entries /\
    (forall k, hours_get (category_hours acc') k 0 ==
               hours_get (category_hours acc) k 0 + hours_under k entries) /\
    (Forall (fun kv => 0 <= snd kv)%Q (category_hours acc) ->
     Forall (fun kv => 0 <= snd kv)%Q (category_hours acc')).
Proof.
  induction blocks as [|b blocks IH]; intros acc acc' Hc; simpl in Hc.
  - injection Hc as <-. exists []. simpl.
    repeat split; auto. intros k. lra.
  - destruct (count_block acc b) as [acc1|] eqn:Hb; [|discriminate].
    simpl in Hc.
    apply count_block_hours in Hb as (cat & hrs & He & Hh & Hkk & Hset).
    apply IH in Hc as (entries & Htr & Hnn & Hsum & Hkeep).
    exists ((cat, hrs) :: entries). simpl. rewrite He. simpl. rewrite Htr.
    split; [reflexivity|]. split; [constructor; assumption|]. split.
    + intros k. rewrite Hsum, Hset, hours_get_set by exact Hkk.
      destruct (key_eqb cat k) eqn:Hck.
      * rewrite (hours_get_equiv _ cat k 0 Hck). lra.
      * lra.
    + intros Hacc. apply Hkeep. rewrite Hset.
      apply hours_set_nonneg; [exact Hacc|].
      pose proof (hours_get_nonneg (category_hours acc) cat 0 Hacc
                    ltac:(lra)). lra.
Qed.

Lemma count_schedules_hours `{Externals} (rows : list ScheduleRow) :
  forall acc acc',
  count_schedules acc rows = Ok acc' ->
  exists lists entries,
    traverse (fun r => py_iter (s_time_blocks r)) rows = Ok lists /\
    traverse block_entry (concat lists) = Ok entries /\
    (forall k, hours_get (category_hours acc') k 0 ==
               hours_get (category_hours acc) k 0 + hours_under k entries) /\
    (Forall (fun kv => 0 <= snd kv)%Q (category_hours acc) ->
     Forall (fun kv => 0 <= snd kv)%Q (category_hours acc')).
Proof.
  induction rows as [|r rows IH]; intros acc acc' Hc; simpl in Hc.
  - injection Hc as <-. exists [], []. simpl.
    repeat split; auto. intros k. lra.
  - destruct (py_iter (s_time_blocks r)) as [blocks|] eqn:Hi; [|discriminate].
    simpl in Hc.
    destruct (count_blocks acc blocks) as [acc1|] eqn:Hb; [|discriminate].
    simpl in Hc.
    apply count_blocks_hours in Hb as (e1 & Htr1 & _ & Hsum1 & Hkeep1).
    apply IH in Hc as (lists & e2 & Htr & Htr2 & Hsum2 & Hkeep2).
    exists (blocks :: lists), (e1 ++ e2). simpl. rewrite Hi. simpl.
    rewrite Htr. simpl. split; [reflexivity|]. split.
    + clear - Htr1 Htr2. revert e1 Htr1.
      induction blocks as [|b blocks IHb]; intros e1 Htr1; simpl in *.
      * injection Htr1 as <-. exact Htr2.
      * destruct (block_entry b) as [e|]; [|discriminate]. simpl in *.
        destruct (traverse block_entry blocks) as [es|]; [|discriminate].
        simpl in *. injection Htr1 as <-.
        rewrite (IHb es eq_refl). reflexivity.
    + split; [|auto]. intros k. rewrite Hsum2, Hsum1.
      assert (hours_under k (e1 ++ e2)
              == hours_under k e1 + hours_under k e2) as ->.
      { clear. induction e1 as [|[c h] e1 IHe]; simpl; [lra|].
        destruct (key_eqb c k); rewrite ?IHe; lra. }
      lra.
Qed.

(** X2. The time allocation of the progress summary gives, for every
    category, the sum of the durations in hours of the window's blocks filed
    under it, a block that ends before it starts counting as zero hours; no
    category gets a negative number of hours. *)
Theorem time_allocation_sums_durations `{Externals}
    (rows : list ScheduleRow) (t : BlockTotals) :
  count_schedules (mkBlockTotals 0 0 []) rows = Ok t ->
  exists lists entries,
    traverse (fun r => py_iter (s_time_blocks r)) rows = Ok lists /\
    traverse block_entry (concat lists) = Ok entries /\
    (forall k, hours_get (category_hours t) k 0 == hours_under k entries) /\
    Forall (fun kv => 0 <= snd kv)%Q (category_hours t).
Proof.
  intros Hc.
  apply count_schedules_hours in Hc as (lists & entries & Htr & He & Hsum & Hnn).
  exists lists, entries. repeat split; try assumption.
  - intros k. rewrite Hsum. simpl. lra.
  - apply Hnn. constructor.
Qed.

Lemma time_allocation_witness :
  exists t,
    @count_schedules externals_z (mkBlockTotals 0 0 []) [row_night] = Ok t /\
    hours_get (category_hours t) (JStr (py"work")) 0 == 3 # 2.
Proof.
  destruct (@count_schedules externals_z (mkBlockTotals 0 0 []) [row_night])
    as [t|e] eqn:Hc; [|vm_compute in Hc; discriminate].
  destruct (@time_allocation_sums_durations externals_z [row_night] t Hc)
    as (lists & entries & Htr & He & Hsum & _).
  vm_compute in Htr. injection Htr as <-.
  vm_compute in He. injection He as <-.
  exists t. split; [reflexivity|]. rewrite Hsum. reflexivity.
Defined.

(** ** Progress summary: the scores stay between 0 and 1 *)

Lemma round_half_even_range (y : Q) (n : Z) :
  (0 <= n)%Z -> (0 <= y <= inject_Z n)%Q ->
  (0 <= round_half_even y <= n)%Z.
Proof.
  intros Hn [Hlo Hhi]. unfold round_half_even.
  pose proof (Qfloor_le y) as Hfl. pose proof (Qlt_floor y) as Hfu.
  assert (0 <= Qfloor y)%Z as Hf0.
  { change 0%Z with (Qfloor 0). now apply Qfloor_resp_le. }
  assert (Qfloor y <= n)%Z as Hfn.
  { rewrite <- (Qfloor_Z n). now apply Qfloor_resp_le. }
  assert (Qfloor y = n -> y - inject_Z (Qfloor y) <= 0)%Q as Htop.
  { intros ->. lra. }
  destruct (Qcompare_spec (y - inject_Z (Qfloor y)) (1 # 2)) as [He|Hl|Hg].
  - destruct (Z.even (Qfloor y)); [lia|].
    destruct (Z.eq_dec (Qfloor y) n) as [Heq|]; [|lia].
    specialize (Htop Heq). lra.
  - lia.
  - destruct (Z.eq_dec (Qfloor y) n) as [Heq|]; [|lia].
    specialize (Htop Heq). lra.
Qed.

Lemma round3_unit (x : Q) : (0 <= x <= 1)%Q -> (0 <= round3 x <= 1)%Q.
Proof.
  intros [Hlo Hhi]. unfold round3.
  destruct (round_half_even_range (x * 1000) 1000 ltac:(lia)) as [Hr0 Hr1].
  { change (inject_Z 1000) with 1000%Q. split; lra. }
  rewrite Zle_Qle in Hr0, Hr1.
  change (inject_Z 0) with 0%Q in Hr0.
  change (inject_Z 1000) with 1000%Q in Hr1.
  split.
  - apply Qle_shift_div_l; lra.
  - apply Qle_shift_div_r; lra.
Qed.

Lemma sum_Z_le (hi : Z) (l : list Z) :
  Forall (fun x => x <= hi)%Z l ->
  (sum_Z l <= hi * Z.of_nat (length l))%Z.
Proof.
  induction 1 as [|x l Hx _ IH]; unfold sum_Z in *; simpl; lia.
Qed.

Lemma mean_le (hi : Z) (l : list Z) :
  l <> [] -> Forall (fun x => x <= hi)%Z l ->
  (inject_Z (sum_Z l) / inject_Z (Z.of_nat (length l)) <= inject_Z hi)%Q.
Proof.
  intros Hne Hl. apply sum_Z_le in Hl.
  apply Qle_shift_div_r.
  - change 0%Q with (inject_Z 0). rewrite <- Zlt_Qlt.
    destruct l; [congruence|simpl; lia].
  - rewrite <- inject_Z_mult, <- Zle_Qle. exact Hl.
Qed.

Lemma energy_penalty_unit (checkins_data : list CheckinRow) :
  checkins_data <> [] -> (0 <= energy_penalty checkins_data <= 1)%Q.
Proof.
  intros Hne. unfold energy_penalty, len.
  set (low := List.filter _ checkins_data).
  assert (length low <= length checkins_data)%nat as Hle
    by apply List.filter_length_le.
  assert (0 < inject_Z (Z.of_nat (length checkins_data)))%Q as Hpos.
  { change 0%Q with (inject_Z 0). rewrite <- Zlt_Qlt.
    destruct checkins_data; [congruence|simpl; lia]. }
  split.
  - apply Qle_shift_div_l; [exact Hpos|]. rewrite Qmult_0_l.
    change 0%Q with (inject_Z 0). rewrite <- Zle_Qle. lia.
  - apply Qle_shift_div_r; [exact Hpos|]. rewrite Qmult_1_l.
    rewrite <- Zle_Qle. lia.
Qed.

Lemma work_hrs_avg_nonneg (hours : list (JSON * Q)) (days : Z) :
  Forall (fun kv => 0 <= snd kv)%Q hours -> (0 <= work_hrs_avg hours days)%Q.
Proof.
  intros Hh. unfold work_hrs_avg.
  pose proof (hours_get_nonneg hours (JStr (py"work")) 0 Hh ltac:(lra)).
  pose proof (hours_get_nonneg hours (JStr (py"study")) 0 Hh ltac:(lra)).
  apply Qle_shift_div_l.
  - change 0%Q with (inject_Z 0). rewrite <- Zlt_Qlt. lia.
  - lra.
Qed.

Lemma burnout_score_unit (m f p h : Q) :
  (m <= 10)%Q -> (f <= 10)%Q -> (0 <= p)%Q -> (0 <= h)%Q ->
  (0 <= burnout_score m f p h <= 1)%Q.
Proof.
  intros Hm Hf Hp Hh. unfold burnout_score. apply round3_unit.
  split; [|apply Q.le_min_l].
  apply Q.min_glb; [lra|].
  assert (0 <= Qmin (h / 10) 1)%Q as Hw.
  { apply Q.min_glb; [|lra]. apply Qle_shift_div_l; lra. }
  assert (m / 10 <= 1)%Q by (apply Qle_shift_div_r; lra).
  assert (f / 10 <= 1)%Q by (apply Qle_shift_div_r; lra).
  nra.
Qed.

(** The clamp alone bounds the score from above. *)
Lemma burnout_score_le_1 (m f p h : Q) : (burnout_score m f p h <= 1)%Q.
Proof.
  unfold burnout_score.
  set (x := Qmin 1 _).
  assert (x <= 1)%Q as Hx by apply Q.le_min_l.
  destruct (Qlt_le_dec x 0) as [Hneg|Hpos].
  - unfold round3.
    assert (round_half_even (x * 1000) <= 0)%Z as Hr.
    { unfold round_half_even.
      pose proof (Qfloor_le (x * 1000)) as Hfl.
      assert (Qfloor (x * 1000) <= -1)%Z as Hf.
      { assert (Qfloor (x * 1000) < 0)%Z; [|lia].
        rewrite Zlt_Qlt. change (inject_Z 0) with 0%Q. lra. }
      destruct (_ ?= _)%Q; try lia.
      destruct (Z.even _); lia. }
    rewrite Zle_Qle in Hr. change (inject_Z 0) with 0%Q in Hr.
    apply Qle_shift_div_r; lra.
  - now apply round3_unit.
Qed.

Lemma get_progress_summary_inv `{Externals}
    (user_id period : str) (today : date) (w w' : World)
    (summary : ProgressSummary) :
  get_progress_summary user_id period today w = (Ok summary, w') ->
  let days := period_days period in
  let checkins_data :=
    List.filter
      (fun c => bool_decide (c_user_id c = user_id)
                && (today - days <=? c_date c)%Z)
      (daily_checkins w) in
  exists t rate prompt,
    count_schedules (mkBlockTotals 0 0 [])
      (window_schedules user_id (today - days)%Z w) = Ok t /\
    completion_rate_of t = Ok rate /\
    completion_rate summary = round3 rate /\
    time_allocation summary = category_hours t /\
    burnout_risk_score summary =
      burnout_risk checkins_data (category_hours t) days /\
    goals_on_track summary =
      fst (classify_goals today days (active_goals user_id w)) /\
    goals_at_risk summary =
      snd (classify_goals today days (active_goals user_id w)) /\
    planner_output w prompt = Ok (ai_insights summary) /\
    w' = log_remote_call prompt w.
Proof.
  intros Hrun days checkins_data.
  unfold get_progress_summary, mbind, M_bind, gets, lift, run_planner in Hrun.
  fold days in Hrun.
  destruct (count_schedules _ _) as [t|] eqn:Ht; [|discriminate].
  destruct (completion_rate_of t) as [rate|] eqn:Hrate; [|discriminate].
  destruct (classify_goals today days (active_goals user_id w))
    as [ons ats] eqn:Hcl.
  match type of Hrun with
  | context [planner_output w ?p] =>
      destruct (planner_output w p) as [insights|] eqn:Hout;
      [|discriminate]; exists t, rate, p
  end.
  injection Hrun as <- <-. simpl. repeat split; auto.
Qed.

(** X3. Whenever the progress summary is returned, its completion rate
    lies between 0 and 1 and its burnout risk score is at most 1; the score
    is also at least 0 when the mood and focus scores of the stored
    check-ins are at most 10, as the check-in schema has them. *)
Theorem summary_scores_in_unit_interval `{Externals}
    (user_id period : str) (today : date) (w w' : World)
    (summary : ProgressSummary) :
  get_progress_summary user_id period today w = (Ok summary, w') ->
  (0 <= completion_rate summary <= 1)%Q /\
  (burnout_risk_score summary <= 1)%Q /\
  ((forall c, In c (daily_checkins w) ->
      (mood_score c <= 10)%Z /\ (focus_score c <= 10)%Z) ->
   (0 <= burnout_risk_score summary)%Q).
Proof.
  intros Hrun.
  apply get_progress_summary_inv in Hrun
    as (t & rate & prompt & Ht & Hrate & -> & _ & -> & _).
  destruct (count_schedules_counts _ _ _ Ht) as (lists & _ & Htot & Hdone).
  simpl in Htot, Hdone.
  assert (0 <= completed_blocks t <= total_blocks t)%Z as Hrange.
  { rewrite Htot, Hdone. split; [lia|].
    apply inj_le. apply List.filter_length_le. }
  destruct (completion_rate_of_spec t Hrange) as (q & Hq & Hq01 & _).
  rewrite Hrate in Hq. injection Hq as <-.
  destruct (count_schedules_hours _ _ _ Ht) as (_ & _ & _ & _ & _ & Hkeep).
  assert (Forall (fun kv => 0 <= snd kv)%Q (category_hours t)) as Hnn
    by (apply Hkeep; constructor).
  split; [now apply round3_unit|].
  set (cs := List.filter _ (daily_checkins w)).
  split.
  - unfold burnout_risk. destruct cs; [lra|apply burnout_score_le_1].
  - intros Hscores. unfold burnout_risk.
    destruct cs as [|c cs'] eqn:Hcs; [lra|]. rewrite <- Hcs.
    assert (cs <> []) as Hne by (rewrite Hcs; discriminate).
    assert (forall c, In c cs ->
              (mood_score c <= 10)%Z /\ (focus_score c <= 10)%Z) as Hcs'.
    { intros c0 Hin. apply Hscores.
      unfold cs in Hin. now apply List.filter_In in Hin as [Hin _]. }
    assert (forall g : CheckinRow -> Z,
              (forall c, In c cs -> (g c <= 10)%Z) ->
              inject_Z (sum_Z (List.map g cs)) / len cs <= 10)%Q as Hmean.
    { intros g Hg. change 10%Q with (inject_Z 10). unfold len.
      rewrite <- (length_map g cs). apply mean_le.
      - destruct cs; [congruence|discriminate].
      - apply List.Forall_forall. intros x Hx.
        apply in_map_iff in Hx as (c0 & <- & Hin). now apply Hg. }
    apply burnout_score_unit.
    + unfold avg_mood. apply Hmean. intros c0 Hin. now apply Hcs'.
    + unfold avg_focus. apply Hmean. intros c0 Hin. now apply Hcs'.
    + now apply energy_penalty_unit.
    + now apply work_hrs_avg_nonneg.
Qed.

Lemma summary_scores_witness :
  exists summary w',
    @get_progress_summary externals_prose (py"u1") (py"weekly") 100%Z world_week
      = (Ok summary, w') /\
    (0 <= completion_rate summary <= 1)%Q /\
    (0 <= burnout_risk_score summary <= 1)%Q.
Proof.
  destruct (@get_progress_summary externals_prose (py"u1") (py"weekly") 100%Z
              world_week) as [[summary|e] w'] eqn:Hrun;
    [|vm_compute in Hrun; discriminate].
  destruct (@summary_scores_in_unit_interval externals_prose _ _ _ _ _ _ Hrun)
    as (Hrate & Hle & Hge).
  exists summary, w'. split; [reflexivity|]. split; [exact Hrate|].
  split; [|exact Hle]. apply Hge.
  intros c Hin. simpl in Hin.
  destruct Hin as [<-|[<-|[]]]; simpl; lia.
Defined.

(** ** Progress summary: the goal lists *)

(** X4. The two goal lists of the progress summary are the titles of the
    goals on track and of the goals not on track, each in the order of the
    rows: every active goal is listed exactly once. *)
Theorem classify_goals_partitions (today : date) (days : Z)
    (goal_rows : list GoalRow) :
  fst (classify_goals today days goal_rows) =
    List.map g_title (List.filter (on_track today days) goal_rows) /\
  snd (classify_goals today days goal_rows) =
    List.map g_title
      (List.filter (fun g => negb (on_track today days g)) goal_rows) /\
  (length (fst (classify_goals today days goal_rows))
   + length (snd (classify_goals today days goal_rows)) = length goal_rows)%nat.
Proof.
  induction goal_rows as [|g rest IH]; [now simpl|].
  simpl. destruct (classify_goals today days rest) as [ons ats].
  simpl in IH. destruct IH as (IHon & IHat & IHlen).
  destruct (on_track today days g); simpl.
  - split; [now f_equal|]. split; [assumption|lia].
  - split; [assumption|]. split; [now f_equal|lia].
Qed.

Lemma required_progress_le_100 (days days_left : Z) :
  (0 <= days)%Z -> (required_progress days days_left <= 100)%Q.
Proof.
  intros Hd. unfold required_progress.
  destruct (Z.ltb_spec 0 days_left) as [Hpos|_]; [|lra].
  assert (inject_Z days / inject_Z (days + days_left) <= 1)%Q.
  { apply Qle_shift_div_r.
    - change 0%Q with (inject_Z 0). rewrite <- Zlt_Qlt. lia.
    - rewrite Qmult_1_l, <- Zle_Qle. lia. }
  lra.
Qed.

(** X5. Whatever its target date and whatever the period, a goal with at
    least 85 percent progress is on track; a goal whose target date is today
    or past is on track exactly when its progress is at least 85 percent;
    and raising the progress of a goal on track keeps it on track. *)
Theorem on_track_thresholds (today : date) (period : str) (g : GoalRow) :
  let days := period_days period in
  ((85 <= g_progress_percent g)%Q -> on_track today days g = true) /\
  ((days_left_of today g <= 0)%Z ->
   (on_track today days g = true <-> (85 <= g_progress_percent g)%Q)) /\
  (forall g', g_target_date g' = g_target_date g ->
     (g_progress_percent g <= g_progress_percent g')%Q ->
     on_track today days g = true -> on_track today days g' = true).
Proof.
  intros days.
  assert (0 <= days)%Z as Hdays.
  { unfold days, period_days. destruct (str_eqb _ _); lia. }
  assert (forall x, on_track today days x = true <->
            required_progress days (days_left_of today x) * (85 # 100)
            <= g_progress_percent x)%Q as Hspec.
  { intros x. unfold on_track. apply Qle_bool_iff. }
  split; [|split].
  - intros Hp. apply Hspec.
    pose proof (required_progress_le_100 days (days_left_of today g) Hdays).
    lra.
  - intros Hleft. rewrite Hspec. unfold required_progress.
    destruct (Z.ltb_spec 0 (days_left_of today g)); [lia|].
    split; intros Hle; lra.
  - intros g' Hdate Hle Hon. apply Hspec. apply Hspec in Hon.
    unfold days_left_of in *. rewrite Hdate. lra.
Qed.

Lemma on_track_thresholds_witness :
  on_track 100%Z (period_days (py"monthly")) goal_overdue = true.
Proof.
  apply (proj2 (proj1 (proj2
    (on_track_thresholds 100%Z (py"monthly") goal_overdue))
    ltac:(unfold days_left_of; simpl; lia))).
  apply Qle_refl.
Defined.

(** X6. The progress summary only reads the tables: whatever its outcome,
    every table is as before, and it records at most one call of the remote
    model. *)
Theorem progress_summary_reads_only `{Externals}
    (user_id period : str) (today : date) (w : World) :
  let w' := snd (get_progress_summary user_id period today w) in
  w' = w \/ exists prompt, w' = log_remote_call prompt w.
Proof.
  unfold get_progress_summary, mbind, M_bind, gets, lift, run_planner.
  cbv zeta.
  destruct (count_schedules _ _) as [t|]; [|now left].
  destruct (completion_rate_of t) as [rate|]; [|now left].
  destruct (classify_goals _ _ _) as [ons ats].
  match goal with
  | |- context [planner_output w ?p] =>
      destruct (planner_output w p); right; exists p; reflexivity
  end.
Qed.

(** ** Task status update *)

Lemma dict_get_set_same {V} (d : list (str * V)) (k : str) (v : V) :
  dict_get (dict_set d k v) k = Some v.
Proof.
  induction d as [|[k' v'] d IH]; simpl.
  - unfold str_eqb. now rewrite bool_decide_eq_true_2.
  - destruct (str_eqb k' k) eqn:Hk; simpl; now rewrite Hk.
Qed.

Lemma dict_get_set_other {V} (d : list (str * V)) (k q : str) (v : V) :
  k <> q -> dict_get (dict_set d k v) q = dict_get d q.
Proof.
  intros Hne. induction d as [|[k' v'] d IH]; simpl.
  - unfold str_eqb. now rewrite bool_decide_eq_false_2.
  - destruct (str_eqb k' k) eqn:Hk; simpl.
    + unfold str_eqb in Hk. apply bool_decide_eq_true in Hk. subst k'.
      unfold str_eqb. now rewrite bool_decide_eq_false_2.
    + destruct (str_eqb k' q); [reflexivity|exact IH].
Qed.

(** What the written block reads afterwards. *)
Lemma write_update_fields (update : TaskStatusUpdate) (d : list (str * JSON)) :
  exists d',
    write_update update (JObj d) = JObj d' /\
    dict_get d' (py"status") = Some (JStr (TaskStatus_value (tu_status update))) /\
    (forall k, k <> py"status" -> k <> py"completion_note" ->
               k <> py"actual_duration_minutes" ->
               dict_get d' k = dict_get d k).
Proof.
  unfold write_update.
  pose (d1 := dict_set d (py"status")
                (JStr (TaskStatus_value (tu_status update)))).
  assert (dict_get d1 (py"status") = Some (JStr (TaskStatus_value (tu_status update))))
    as H1 by apply dict_get_set_same.
  assert (forall k, k <> py"status" -> dict_get d1 k = dict_get d k) as F1
    by (intros k Hk; apply dict_get_set_other; congruence).
  assert (py"completion_note" <> py"status") as N1 by (vm_compute; congruence).
  assert (py"actual_duration_minutes" <> py"status") as N2
    by (vm_compute; congruence).
  simpl set_item at 1. fold d1.
  destruct (completion_note update) as [note|];
    [destruct (bool_decide (note = []))|];
    (destruct (actual_duration_minutes update) as [minutes|];
     [destruct (minutes =? 0)%Z|]); simpl; eexists; (split; [reflexivity|]);
    (split;
     [ rewrite ?dict_get_set_other by assumption; exact H1
     | intros k Hs Hn Ha;
       rewrite ?dict_get_set_other by congruence;
       first [reflexivity | now apply F1] ]).
Qed.

Lemma update_first_found (update : TaskStatusUpdate) (blocks : list JSON) :
  forall blocks',
  update_first update blocks = Ok (Some blocks') ->
  exists pre d post,
    blocks = pre ++ JObj d :: post /\
    blocks' = pre ++ write_update update (JObj d) :: post /\
    dict_get d (py"block_id") = Some (JStr (tu_block_id update)) /\
    Forall (fun b => exists bid, py_getitem b (py"block_id") = Ok bid /\
                                 is_str bid (tu_block_id update) = false) pre.
Proof.
  induction blocks as [|b blocks IH]; intros blocks' Hu; simpl in Hu;
    [discriminate|].
  unfold mbind, Result_bind in Hu.
  destruct (py_getitem b (py"block_id")) as [bid|] eqn:Hbid; [|discriminate].
  destruct (is_str bid (tu_block_id update)) eqn:Hmatch.
  - injection Hu as <-.
    destruct b as [| | | |?|d]; simpl in Hbid; try discriminate.
    destruct (dict_get d (py"block_id")) as [x|] eqn:Hd; [|discriminate].
    injection Hbid as ->.
    destruct bid as [| | |s| |]; simpl in Hmatch; try discriminate.
    unfold str_eqb in Hmatch. apply bool_decide_eq_true in Hmatch. subst s.
    exists [], d, blocks. repeat split; auto.
  - destruct (update_first update blocks) as [[found|]|] eqn:Hrest;
      simpl in Hu; try discriminate.
    injection Hu as <-.
    destruct (IH found eq_refl) as (pre & d & post & -> & -> & Hd & Hpre).
    exists (b :: pre), d, post. repeat split; auto.
    constructor; [|exact Hpre]. eauto.
Qed.

Lemma update_first_missing (update : TaskStatusUpdate) (blocks : list JSON) :
  update_first update blocks = Ok None <->
  Forall (fun b => exists bid, py_getitem b (py"block_id") = Ok bid /\
                               is_str bid (tu_block_id update) = false) blocks.
Proof.
  induction blocks as [|b blocks IH]; simpl.
  - split; [constructor|reflexivity].
  - unfold mbind, Result_bind.
    destruct (py_getitem b (py"block_id")) as [bid|] eqn:Hbid.
    + destruct (is_str bid (tu_block_id update)) eqn:Hmatch.
      * split; [discriminate|]. intros Hall.
        apply List.Forall_inv in Hall as (bid' & Hb' & Hm'). congruence.
      * destruct (update_first update blocks) as [[found|]|] eqn:Hrest; simpl.
        -- split; [discriminate|]. intros Hall.
           apply List.Forall_inv_tail in Hall. apply IH in Hall. discriminate.
        -- split; [|reflexivity]. intros _. constructor; [eauto|].
           now apply IH.
        -- split; [discriminate|]. intros Hall.
           apply List.Forall_inv_tail in Hall. apply IH in Hall. discriminate.
    + split; [discriminate|]. intros Hall.
      apply List.Forall_inv in Hall as (bid' & Hb' & _). congruence.
Qed.

Lemma set_time_blocks_other (schedule_id : str) (blocks : JSON)
    (rows : list ScheduleRow) (r : ScheduleRow) :
  In r rows -> s_schedule_id r <> schedule_id ->
  In r (set_time_blocks schedule_id blocks rows).
Proof.
  intros Hin Hne. unfold set_time_blocks. apply in_map_iff.
  exists r. split; [|exact Hin]. now rewrite bool_decide_eq_false_2.
Qed.

Lemma set_time_blocks_ids (schedule_id : str) (blocks : JSON)
    (rows : list ScheduleRow) :
  List.map s_schedule_id (set_time_blocks schedule_id blocks rows)
  = List.map s_schedule_id rows.
Proof.
  unfold set_time_blocks. rewrite List.map_map. apply List.map_ext.
  intros r. now destruct (bool_decide _).
Qed.

(** X7. When the task status update succeeds, today's first schedule row
    of the user holds a list of blocks of which the first one with the given
    identifier has been rewritten: it now reads the new status, every entry
    of it other than status, completion note and actual duration is as
    before, the blocks before and after it are untouched, and only the rows
    with that schedule identifier have been written. *)
Theorem update_task_status_writes_first_match
    (user_id : str) (today : date) (update : TaskStatusUpdate)
    (w w' : World) (result : str * TaskStatus) :
  update_task_status user_id today update w = (Ok result, w') ->
  result = (tu_block_id update, tu_status update) /\
  exists row pre d d' post,
    List.find (schedule_of user_id today) (schedules w) = Some row /\
    s_time_blocks row = JArr (pre ++ JObj d :: post) /\
    dict_get d (py"block_id") = Some (JStr (tu_block_id update)) /\
    Forall (fun b => exists bid, py_getitem b (py"block_id") = Ok bid /\
                                 is_str bid (tu_block_id update) = false) pre /\
    dict_get d' (py"status") = Some (JStr (TaskStatus_value (tu_status update))) /\
    (forall k, k <> py"status" -> k <> py"completion_note" ->
               k <> py"actual_duration_minutes" ->
               dict_get d' k = dict_get d k) /\
    w' = set_schedules
           (set_time_blocks (s_schedule_id row)
              (JArr (pre ++ JObj d' :: post)) (schedules w)) w /\
    (forall r, In r (schedules w) -> s_schedule_id r <> s_schedule_id row ->
               In r (schedules w')).
Proof.
  unfold update_task_status, mbind, M_bind, gets, lift, modify, raise.
  intros Hrun.
  destruct (List.find _ _) as [row|] eqn:Hfind; [|discriminate].
  destruct (py_iter (s_time_blocks row)) as [blocks|] eqn:Hiter; [|discriminate].
  destruct (update_first update blocks) as [[blocks'|]|] eqn:Hup;
    try discriminate.
  injection Hrun as <- <-. split; [reflexivity|].
  destruct (update_first_found _ _ _ Hup)
    as (pre & d & post & -> & -> & Hd & Hpre).
  destruct (write_update_fields update d) as (d' & Hw & Hst & Hkeep).
  assert (s_time_blocks row = JArr (pre ++ JObj d :: post)) as Hblocks.
  { destruct (s_time_blocks row) as [| | |s|items|fields];
      simpl in Hiter; try discriminate.
    - exfalso. injection Hiter as Hiter. clear - Hiter Hup.
      destruct s as [|c s]; simpl in Hiter; [now destruct pre|].
      destruct pre as [|p pre]; simpl in Hiter; [discriminate|].
      injection Hiter as <- _. simpl in Hup. discriminate.
    - now injection Hiter as ->.
    - exfalso. injection Hiter as Hiter. clear - Hiter Hup.
      destruct fields as [|[k v] fields]; simpl in Hiter; [now destruct pre|].
      destruct pre as [|p pre]; simpl in Hiter; [discriminate|].
      injection Hiter as <- _. simpl in Hup. discriminate. }
  exists row, pre, d, d', post. rewrite Hblocks, Hw. simpl.
  repeat split; auto.
  intros r Hin Hne. now apply set_time_blocks_other.
Qed.

Lemma update_task_status_witness :
  exists w' pre d' post,
    update_task_status (py"u1") 100%Z update_b world_s1
      = (Ok (py"b", COMPLETED), w') /\
    dict_get d' (py"status") = Some (JStr (py"completed")) /\
    schedules w' =
      set_time_blocks (py"s1") (JArr (pre ++ JObj d' :: post)) [row_s1].
Proof.
  destruct (update_task_status (py"u1") 100%Z update_b world_s1)
    as [[result|e] w'] eqn:Hrun; [|vm_compute in Hrun; discriminate].
  destruct (update_task_status_writes_first_match _ _ _ _ _ _ Hrun)
    as (-> & row & pre & d & d' & post & Hfind & _ & _ & _ & Hst & _ & -> & _).
  vm_compute in Hfind. injection Hfind as <-.
  eexists _, pre, d', post.
  split; [reflexivity|]. split; [exact Hst|reflexivity].
Defined.

(** X8. A task status update that fails writes nothing: whenever the handler
    raises, the store is exactly as before.  It raises ValueError when the
    user has no schedule today, and when today's blocks all carry a
    "block_id" and none of them equals the requested identifier. *)
Theorem update_task_status_failure_writes_nothing
    (user_id : str) (today : date) (update : TaskStatusUpdate) (w : World) :
  (forall e w', update_task_status user_id today update w = (Raise e, w') ->
                w' = w) /\
  (List.find (schedule_of user_id today) (schedules w) = None ->
   update_task_status user_id today update w = (Raise ValueError, w)) /\
  (forall row blocks,
     List.find (schedule_of user_id today) (schedules w) = Some row ->
     py_iter (s_time_blocks row) = Ok blocks ->
     Forall (fun b => exists bid, py_getitem b (py"block_id") = Ok bid /\
                                  is_str bid (tu_block_id update) = false)
       blocks ->
     update_task_status user_id today update w = (Raise ValueError, w)).
Proof.
  unfold update_task_status, mbind, M_bind, gets, lift, modify, raise.
  split; [|split].
  - intros e w' Hrun.
    destruct (List.find _ _) as [row|]; [|now injection Hrun].
    destruct (py_iter (s_time_blocks row)) as [blocks|]; [|now injection Hrun].
    destruct (update_first update blocks) as [[blocks'|]|];
      try discriminate; now injection Hrun.
  - intros ->. reflexivity.
  - intros row blocks -> -> Hall.
    apply update_first_missing in Hall. now rewrite Hall.
Qed.

Lemma update_task_status_failure_witness :
  update_task_status (py"u1") 100%Z
    (mkTaskStatusUpdate (py"zz") COMPLETED None None) world_s1
  = (Raise ValueError, world_s1) /\
  update_task_status (py"u1") 101%Z update_b world_s1
  = (Raise ValueError, world_s1).
Proof.
  split.
  - refine (proj2 (proj2 (update_task_status_failure_writes_nothing
              (py"u1") 100%Z _ world_s1)) row_s1 _ eq_refl eq_refl _).
    repeat constructor; eexists; (split; [reflexivity|reflexivity]).
  - exact (proj1 (proj2 (update_task_status_failure_writes_nothing
              (py"u1") 101%Z update_b world_s1)) eq_refl).
Defined.

Lemma write_update_without_falsy (update : TaskStatusUpdate) (b : JSON) :
  write_update (without_falsy update) b = write_update update b.
Proof.
  unfold write_update, without_falsy. simpl.
  destruct (completion_note update) as [[|c note]|];
    destruct (actual_duration_minutes update) as [[|p|p]|]; reflexivity.
Qed.

Lemma update_first_without_falsy (update : TaskStatusUpdate)
    (blocks : list JSON) :
  update_first (without_falsy update) blocks = update_first update blocks.
Proof.
  induction blocks as [|b blocks IH]; [reflexivity|]. simpl.
  rewrite IH, write_update_without_falsy. reflexivity.
Qed.

(** X9. An empty completion note and an actual duration of 0 minutes are
    not recorded: the handler stores and returns exactly what it would have
    if they had been absent from the update. *)
Theorem update_task_status_skips_falsy
    (user_id : str) (today : date) (update : TaskStatusUpdate) (w : World) :
  update_task_status user_id today (without_falsy update) w
  = update_task_status user_id today update w.
Proof.
  unfold update_task_status, mbind, M_bind, gets, lift, modify, raise.
  destruct (List.find _ _) as [row|]; [|reflexivity].
  destruct (py_iter (s_time_blocks row)) as [blocks|]; [|reflexivity].
  rewrite update_first_without_falsy.
  destruct (update_first update blocks) as [[blocks'|]|]; reflexivity.
Qed.

(** ** Schedule generation *)

Lemma same_tables_refl (w : World) : same_tables w w.
Proof. repeat split. Qed.

Lemma same_tables_trans (w1 w2 w3 : World) :
  same_tables w1 w2 -> same_tables w2 w3 -> same_tables w1 w3.
Proof.
  unfold same_tables. intros (?&?&?&?&?&?&?) (?&?&?&?&?&?&?).
  repeat split; congruence.
Qed.

Lemma assign_block_id_spec `{Externals} (block : JSON) (w : World) :
  match assign_block_id block w with
  | (Ok block', w') =>
      same_tables w w' /\ remote_calls w' = remote_calls w /\
      (uuids_drawn w <= uuids_drawn w')%nat /\
      (has_block_id block -> block' = block /\ w' = w) /\
      ((forall n, uuid4 n <> []) -> has_block_id block')
  | (Raise e, w') => w' = w
  end.
Proof.
  unfold assign_block_id, mbind, M_bind, lift, new_uuid, mret, M_ret.
  destruct (py_get block (py"block_id") JNull) as [bid|] eqn:Hbid;
    [|reflexivity].
  destruct (py_truthy bid) eqn:Htruthy.
  - split; [apply same_tables_refl|]. split; [reflexivity|].
    split; [lia|]. split; [auto|]. intros _. exists bid. auto.
  - split; [repeat split|]. split; [reflexivity|]. split; [simpl; lia|].
    split.
    + intros (bid' & Hbid' & Ht'). congruence.
    + intros Hne. destruct block as [| | | | |d]; simpl in Hbid; try discriminate.
      exists (JStr (uuid4 (uuids_drawn w))). simpl.
      rewrite dict_get_set_same. simpl. split; [reflexivity|].
      rewrite bool_decide_eq_false_2 by apply Hne. reflexivity.
Qed.

Lemma mapM_assign_spec `{Externals} (items : list JSON) :
  forall w,
  match mapM assign_block_id items w with
  | (Ok items', w') =>
      same_tables w w' /\ remote_calls w' = remote_calls w /\
      (uuids_drawn w <= uuids_drawn w')%nat /\
      length items' = length items /\
      (Forall has_block_id items -> items' = items /\ w' = w) /\
      ((forall n, uuid4 n <> []) -> Forall has_block_id items')
  | (Raise e, w') => same_tables w w' /\ remote_calls w' = remote_calls w
  end.
Proof.
  induction items as [|b items IH]; intros w; simpl.
  - unfold mret, M_ret. repeat split; auto using same_tables_refl.
  - unfold mbind, M_bind.
    pose proof (assign_block_id_spec b w) as Hb.
    destruct (assign_block_id b w) as [[b'|e] w1].
    + destruct Hb as (Hsame & Hcalls & Hcount & Hkeep & Hid).
      specialize (IH w1).
      destruct (mapM assign_block_id items w1) as [[items'|e] w2].
      * destruct IH as (Hsame' & Hcalls' & Hcount' & Hlen & Hkeep' & Hid').
        unfold mret, M_ret.
        split; [eapply same_tables_trans; eassumption|].
        split; [congruence|]. split; [lia|].
        split; [simpl; congruence|]. split.
        -- intros Hall. apply List.Forall_cons_iff in Hall as [Hb0 Hall].
           destruct (Hkeep Hb0) as [-> ->].
           destruct (Hkeep' Hall) as [-> ->]. auto.
        -- intros Hne. constructor; auto.
      * destruct IH as [Hsame' Hcalls'].
        split; [eapply same_tables_trans; eassumption|congruence].
    + subst w1. split; [apply same_tables_refl|reflexivity].
Qed.

(** Where a run of [generate_schedule] can leave the table of schedules. *)
Lemma generate_schedule_schedules `{Externals}
    (request : ScheduleGenerateRequest) (now_str created_at : str)
    (w : World) :
  let w' := snd (generate_schedule request now_str created_at w) in
  users w' = users w /\ goals w' = goals w /\ habits w' = habits w /\
  habit_logs w' = habit_logs w /\ daily_checkins w' = daily_checkins w /\
  chat_sessions w' = chat_sessions w /\
  (schedules w' = schedules w \/
   exists stored total notes,
     schedules w' =
       insert_or_replace
         (mkScheduleRow (uuid4 (uuids_drawn w)) (sg_user_id request)
            (sg_date request) stored total notes now_str)
         (schedules w)).
Proof.
  unfold generate_schedule, mbind, M_bind, gets, lift, modify, raise,
    run_planner, new_uuid.
  cbv zeta.
  destruct (users w !! sg_user_id request) as [profile|];
    [|repeat split; now left].
  match goal with
  | |- context [planner_output w ?p] =>
      set (prompt := p); destruct (planner_output w prompt) as [ai|]
  end; [|repeat split; now left].
  destruct (parse_schedule_response ai) as [parsed|]; [|repeat split; now left].
  destruct (py_get parsed (py"time_blocks") (JArr [])) as [tb|];
    [|repeat split; now left].
  destruct (py_iter tb) as [items|]; [|repeat split; now left].
  pose proof (mapM_assign_spec items (count_uuid (log_remote_call prompt w)))
    as Hmap.
  destruct (mapM assign_block_id items _) as [[items'|e] w3].
  - destruct Hmap as ((Hu & Hg & Hs & Hh & Hl & Hc & Hcs) & _).
    simpl in Hu, Hg, Hs, Hh, Hl, Hc, Hcs.
    destruct (py_get parsed (py"total_work_hours") (JNum 0)) as [total|];
      [|repeat split; auto].
    destruct (py_get parsed (py"ai_notes") JNull) as [notes|];
      [|repeat split; auto].
    destruct (sqlite_bind total) as [total_v|]; [|repeat split; auto].
    destruct (sqlite_bind notes) as [notes_v|]; [|repeat split; auto].
    destruct (py_iter (with_items tb items')) as [dicts|];
      [|simpl; repeat split; auto; right; rewrite Hs; eauto].
    destruct (traverse TimeBlock_new dicts) as [blocks|];
      [|simpl; repeat split; auto; right; rewrite Hs; eauto].
    destruct (validate_float total) as [hours|];
      [|simpl; repeat split; auto; right; rewrite Hs; eauto].
    destruct (validate_opt_str notes) as [notes'|];
      simpl; repeat split; auto; right; rewrite Hs; eauto.
  - destruct Hmap as ((Hu & Hg & Hs & Hh & Hl & Hc & Hcs) & _).
    simpl in Hu, Hg, Hs, Hh, Hl, Hc, Hcs. repeat split; auto.
Qed.

Lemma generate_schedule_returns `{Externals}
    (request : ScheduleGenerateRequest) (now_str created_at : str)
    (w w' : World) (schedule : DailySchedule) :
  generate_schedule request now_str created_at w = (Ok schedule, w') ->
  exists profile ai parsed tb items items' total notes w3 dicts,
    users w !! sg_user_id request = Some profile /\
    planner_output w (schedule_prompt request profile w) = Ok ai /\
    parse_schedule_response ai = Ok parsed /\
    py_get parsed (py"time_blocks") (JArr []) = Ok tb /\
    py_iter tb = Ok items /\
    mapM assign_block_id items
      (count_uuid (log_remote_call (schedule_prompt request profile w) w))
      = (Ok items', w3) /\
    py_get parsed (py"total_work_hours") (JNum 0) = Ok total /\
    py_get parsed (py"ai_notes") JNull = Ok notes /\
    sqlite_bind total = Ok total /\ sqlite_bind notes = Ok notes /\
    w' = set_schedules
           (insert_or_replace
              (mkScheduleRow (uuid4 (uuids_drawn w)) (sg_user_id request)
                 (sg_date request) (with_items tb items') total notes now_str)
              (schedules w)) w3 /\
    py_iter (with_items tb items') = Ok dicts /\
    traverse TimeBlock_new dicts = Ok (time_blocks schedule) /\
    validate_float total = Ok (total_work_hours schedule) /\
    validate_opt_str notes = Ok (ai_notes schedule) /\
    schedule =
      mkDailySchedule (uuid4 (uuids_drawn w)) (sg_user_id request)
        (sg_date request) (time_blocks schedule) (total_work_hours schedule)
        (ai_notes schedule) created_at.
Proof.
  unfold generate_schedule, mbind, M_bind, gets, lift, modify, raise,
    run_planner, new_uuid.
  intros Hrun.
  destruct (users w !! sg_user_id request) as [profile|] eqn:Hu;
    [|discriminate].
  fold (schedule_prompt request profile w) in Hrun.
  set (prompt := schedule_prompt request profile w) in *.
  destruct (planner_output w prompt) as [ai|] eqn:Hout; [|discriminate].
  destruct (parse_schedule_response ai) as [parsed|] eqn:Hparse;
    [|discriminate].
  destruct (py_get parsed (py"time_blocks") (JArr [])) as [tb|] eqn:Htb;
    [|discriminate].
  destruct (py_iter tb) as [items|] eqn:Hitems; [|discriminate].
  pose proof (mapM_assign_spec items (count_uuid (log_remote_call prompt w)))
    as Hmap.
  destruct (mapM assign_block_id items _) as [[items'|e] w3] eqn:Hassign;
    [|discriminate].
  destruct Hmap as ((_ & _ & Hs & _) & _). simpl in Hs.
  destruct (py_get parsed (py"total_work_hours") (JNum 0)) as [total|]
    eqn:Htotal; [|discriminate].
  destruct (py_get parsed (py"ai_notes") JNull) as [notes|] eqn:Hnotes;
    [|discriminate].
  destruct (sqlite_bind total) as [total_v|] eqn:Hbt; [|discriminate].
  destruct (sqlite_bind notes) as [notes_v|] eqn:Hbn; [|discriminate].
  assert (total_v = total) as ->
    by (destruct total; simpl in Hbt; congruence).
  assert (notes_v = notes) as ->
    by (destruct notes; simpl in Hbn; congruence).
  destruct (py_iter (with_items tb items')) as [dicts|] eqn:Hdicts;
    [|discriminate].
  destruct (traverse TimeBlock_new dicts) as [blocks|] eqn:Hblocks;
    [|discriminate].
  destruct (validate_float total) as [hours|] eqn:Hhours; [|discriminate].
  destruct (validate_opt_str notes) as [notes'|] eqn:Hnotes'; [|discriminate].
  injection Hrun as <- <-. simpl. rewrite Hs.
  exists profile, ai, parsed, tb, items, items', total, notes, w3, dicts.
  repeat split; auto.
Qed.

Lemma find_insert_or_replace (user_id : str) (d : date) (row : ScheduleRow)
    (rows : list ScheduleRow) :
  schedule_of user_id d row = true ->
  (forall r, In r rows -> schedule_of user_id d r = false) ->
  List.find (schedule_of user_id d) (insert_or_replace row rows) = Some row.
Proof.
  intros Hrow Hnone. unfold insert_or_replace.
  induction rows as [|r rows IH]; simpl.
  - now rewrite Hrow.
  - destruct (negb (bool_decide _)); simpl.
    + rewrite (Hnone r) by now left. apply IH. intros; apply Hnone; now right.
    + apply IH. intros; apply Hnone; now right.
Qed.

(** X10. A generated schedule can be read back: when the user had no
    schedule for that day, retrieving the day right after a successful
    generation returns the generated schedule, with the stored creation
    time in place of the time of the response. *)
Theorem generate_then_get_schedule `{Externals}
    (request : ScheduleGenerateRequest) (now_str created_at : str)
    (w w' : World) (schedule : DailySchedule) :
  (forall r, In r (schedules w) ->
             schedule_of (sg_user_id request) (sg_date request) r = false) ->
  generate_schedule request now_str created_at w = (Ok schedule, w') ->
  get_schedule (sg_user_id request) (sg_date request) w' =
    (Ok (Some (mkDailySchedule (ds_schedule_id schedule) (ds_user_id schedule)
                 (ds_date schedule) (time_blocks schedule)
                 (total_work_hours schedule) (ai_notes schedule) now_str)),
     w').
Proof.
  intros Hnone Hrun.
  apply generate_schedule_returns in Hrun
    as (profile & ai & parsed & tb & items & items' & total & notes & w3
        & dicts & _ & _ & _ & _ & _ & _ & _ & _ & _ & _ & -> & Hdicts
        & Hblocks & Hhours & Hnotes & ->).
  unfold get_schedule, mbind, M_bind, gets, lift. simpl.
  rewrite find_insert_or_replace; [|
    unfold schedule_of; simpl; now rewrite !bool_decide_eq_true_2 | exact Hnone].
  simpl. rewrite Hdicts, Hblocks, Hhours, Hnotes. reflexivity.
Qed.

Lemma generate_then_get_witness :
  exists schedule w',
    @generate_schedule externals_z request_again (py"2024-01-01T12:00:00")
      (py"2024-01-01T12:00:01") world_u1 = (Ok schedule, w') /\
    @get_schedule externals_z (py"u1") 100%Z w' =
      (Ok (Some (mkDailySchedule (py"uuid-0") (py"u1") 100%Z [block_z] 0
                   (JStr (py"moved")) (py"2024-01-01T12:00:00"))), w').
Proof.
  destruct (@generate_schedule externals_z request_again
              (py"2024-01-01T12:00:00") (py"2024-01-01T12:00:01") world_u1)
    as [[schedule|e] w'] eqn:Hrun; [|vm_compute in Hrun; discriminate].
  exists schedule, w'. split; [reflexivity|].
  pose proof (@generate_then_get_schedule externals_z request_again _ _
                world_u1 w' schedule ltac:(intros r []) Hrun) as Hget.
  assert (schedule = mkDailySchedule (py"uuid-0") (py"u1") 100%Z [block_z] 0
                       (JStr (py"moved")) (py"2024-01-01T12:00:01")) as Hs.
  { vm_compute in Hrun. now injection Hrun as <- _. }
  rewrite Hs in Hget. exact Hget.
Defined.






(** X12. Schedule generation stores nothing when it cannot obtain an
    answer: for an unknown user it raises ValueError before any remote call,
    and when the remote model fails it raises the model's exception with
    only that call recorded. *)
Theorem generate_schedule_stops_early `{Externals}
    (request : ScheduleGenerateRequest) (now_str created_at : str)
    (w : World) :
  (users w !! sg_user_id request = None ->
   generate_schedule request now_str created_at w = (Raise ValueError, w)) /\
  (forall profile e,
     users w !! sg_user_id request = Some profile ->
     planner_output w (schedule_prompt request profile w) = Raise e ->
     generate_schedule request now_str created_at w =
       (Raise e, log_remote_call (schedule_prompt request profile w) w)).
Proof.
  unfold generate_schedule, mbind, M_bind, gets, lift, modify, raise,
    run_planner, new_uuid.
  split.
  - intros ->. reflexivity.
  - intros profile e -> Hout.
    fold (schedule_prompt request profile w). now rewrite Hout.
Qed.

Lemma generate_schedule_stops_early_witness :
  @generate_schedule externals_z
    (mkScheduleGenerateRequest (py"nobody") 100%Z [] false None)
    (py"2024-01-01T12:00:00") (py"2024-01-01T12:00:01") world_u1
  = (Raise ValueError, world_u1) /\
  @generate_schedule (Example.externals [] (Raise RemoteError)) request_again
    (py"2024-01-01T12:00:00") (py"2024-01-01T12:00:01") world_u1
  = (Raise RemoteError,
     log_remote_call (schedule_prompt request_again (JObj []) world_u1)
       world_u1).
Proof.
  split.
  - exact (proj1 (@generate_schedule_stops_early externals_z
                    (mkScheduleGenerateRequest (py"nobody") 100%Z [] false None)
                    _ _ world_u1) eq_refl).
  - exact (proj2 (@generate_schedule_stops_early
                    (Example.externals [] (Raise RemoteError)) request_again
                    _ _ world_u1) (JObj []) RemoteError eq_refl eq_refl).
Defined.

(** X13. When the model's answer does not parse, schedule generation still
    stores a schedule for the day: a row with a fresh identifier, no blocks,
    0 work hours and the note "Parsing failed."; and it returns that empty
    schedule when the schema accepts the two defaults. *)
Theorem generate_schedule_parse_failure `{Externals}
    (request : ScheduleGenerateRequest) (now_str created_at : str)
    (w : World) (profile : JSON) (ai_response : str) (e : exn) :
  let prompt := schedule_prompt request profile w in
  let row :=
    mkScheduleRow (uuid4 (uuids_drawn w)) (sg_user_id request)
      (sg_date request) (JArr []) (JNum 0) (JStr (py"Parsing failed."))
      now_str in
  let w' := snd (generate_schedule request now_str created_at w) in
  users w !! sg_user_id request = Some profile ->
  planner_output w prompt = Ok ai_response ->
  json_loads (clean ai_response) = Raise e ->
  schedules w' = insert_or_replace row (schedules w) /\
  remote_calls w' = remote_calls w ++ [prompt] /\
  (forall hours notes,
     validate_float (JNum 0) = Ok hours ->
     validate_opt_str (JStr (py"Parsing failed.")) = Ok notes ->
     fst (generate_schedule request now_str created_at w) =
       Ok (mkDailySchedule (uuid4 (uuids_drawn w)) (sg_user_id request)
             (sg_date request) [] hours notes created_at)).
Proof.
  intros prompt row w' Hu Hout Hparse. subst w'.
  unfold generate_schedule, mbind, M_bind, gets, lift, modify, raise,
    run_planner, new_uuid.
  rewrite Hu. fold (schedule_prompt request profile w). fold prompt.
  rewrite Hout. unfold parse_schedule_response, parse_or. rewrite Hparse.
  simpl try_except. cbv beta iota.
  change (py_get schedule_default (py"time_blocks") (JArr []))
    with (@Ok JSON (JArr [])).
  cbv beta iota. simpl py_iter. cbv beta iota. simpl mapM.
  unfold mret, M_ret. cbv beta iota.
  change (py_get schedule_default (py"total_work_hours") (JNum 0))
    with (@Ok JSON (JNum 0)).
  change (py_get schedule_default (py"ai_notes") JNull)
    with (@Ok JSON (JStr (py"Parsing failed."))).
  cbv beta iota. simpl sqlite_bind. cbv beta iota.
  simpl with_items. simpl py_iter. simpl traverse. cbv beta iota.
  destruct (validate_float (JNum 0)) as [hours|];
    [destruct (validate_opt_str (JStr (py"Parsing failed."))) as [notes|]|];
    simpl; (split; [reflexivity|]); (split; [reflexivity|]);
    intros hours' notes' Hh Hn; congruence.
Qed.

Lemma generate_schedule_parse_failure_witness :
  @generate_schedule externals_prose request_again (py"2024-01-01T12:00:00")
    (py"2024-01-01T12:00:01") world_u1
  = (Ok (mkDailySchedule (py"uuid-0") (py"u1") 100%Z [] 0
           (JStr (py"Parsing failed.")) (py"2024-01-01T12:00:01")),
     set_schedules
       [mkScheduleRow (py"uuid-0") (py"u1") 100%Z (JArr []) (JNum 0)
          (JStr (py"Parsing failed.")) (py"2024-01-01T12:00:00")]
       (count_uuid
          (log_remote_call (schedule_prompt request_again (JObj []) world_u1)
             world_u1))).
Proof.
  destruct (@generate_schedule_parse_failure externals_prose request_again
              (py"2024-01-01T12:00:00") (py"2024-01-01T12:00:01") world_u1
              (JObj []) (py"Sorry, I cannot help.") JSONDecodeError
              eq_refl eq_refl eq_refl) as (_ & _ & Hret).
  specialize (Hret 0%Q (JStr (py"Parsing failed.")) eq_refl eq_refl).
  destruct (@generate_schedule externals_prose request_again
              (py"2024-01-01T12:00:00") (py"2024-01-01T12:00:01") world_u1)
    as [r w'] eqn:Hrun.
  simpl in Hret. subst r. f_equal.
  vm_compute in Hrun. now injection Hrun as <-.
Defined.





(** ** Adaptive reschedule, further *)

Lemma get_schedule_found_inv `{Externals} (user_id : str) (d : date)
    (w : World) (schedule : DailySchedule) :
  fst (get_schedule user_id d w) = Ok (Some schedule) ->
  exists row dicts,
    List.find (schedule_of user_id d) (schedules w) = Some row /\
    py_iter (s_time_blocks row) = Ok dicts /\
    traverse TimeBlock_new dicts = Ok (time_blocks schedule) /\
    validate_float (s_total_work_hrs row) = Ok (total_work_hours schedule) /\
    validate_opt_str (s_ai_notes row) = Ok (ai_notes schedule) /\
    schedule =
      mkDailySchedule (s_schedule_id row) (s_user_id row) (s_date row)
        (time_blocks schedule) (total_work_hours schedule) (ai_notes schedule)
        (s_created_at row).
Proof.
  unfold get_schedule, mbind, M_bind, gets, lift, mret, M_ret.
  destruct (List.find _ _) as [row|] eqn:Hfind; [|discriminate].
  destruct (py_iter (s_time_blocks row)) as [dicts|] eqn:Hd;
    [|discriminate].
  destruct (traverse TimeBlock_new dicts) as [blocks|] eqn:Hb;
    [|discriminate].
  destruct (validate_float _) as [hours|] eqn:Hh; [|discriminate].
  destruct (validate_opt_str _) as [notes|] eqn:Hn; [|discriminate].
  simpl. intros Hs. injection Hs as <-.
  exists row, dicts. simpl. repeat split; auto.
Qed.

Lemma update_blocks_frame (user_id : str) (d : date) (blocks notes : JSON)
    (rows : list ScheduleRow) :
  List.map row_frame (update_blocks user_id d blocks notes rows)
    = List.map row_frame rows /\
  (forall r, In r rows -> schedule_of user_id d r = false ->
             In r (update_blocks user_id d blocks notes rows)).
Proof.
  unfold update_blocks. split.
  - rewrite List.map_map. apply List.map_ext. intros r.
    now destruct (schedule_of user_id d r).
  - intros r Hin Hno. apply in_map_iff. exists r. now rewrite Hno.
Qed.

(** Where a run of [adaptive_reschedule_today] can leave the store. *)
Lemma adaptive_reschedule_outcomes `{Externals}
    (user_id : str) (today : date) (now_str : str) (w : World) :
  let run := adaptive_reschedule_today user_id today now_str w in
  snd run = w \/
  (exists prompt e, run = (Raise e, log_remote_call prompt w)) \/
  (exists prompt schedule blocks notes,
     run = (Ok schedule,
            set_schedules
              (update_blocks user_id today blocks notes (schedules w))
              (log_remote_call prompt w))).
Proof.
  unfold adaptive_reschedule_today, mbind, M_bind.
  pose proof (get_schedule_reads user_id today w) as Hreads.
  destruct (get_schedule user_id today w) as [[[schedule|]|e] w0];
    simpl in Hreads; subst w0; try (now left).
  destruct (List.filter (is_missed now_str) (time_blocks schedule));
    [now left|].
  unfold run_planner, lift, modify.
  match goal with
  | |- context [planner_output w ?p] =>
      set (prompt := p); destruct (planner_output w prompt) as [ai|e]
  end; [|right; left; eauto].
  destruct (parse_reschedule_response _ ai) as [parsed|e];
    [|right; left; eauto].
  destruct (py_get parsed (py"time_blocks") (JArr [])) as [tb|e];
    [|right; left; eauto].
  destruct (py_iter tb) as [dicts|e]; [|right; left; eauto].
  destruct (traverse TimeBlock_new dicts) as [returned|e];
    [|right; left; eauto].
  destruct (py_get parsed (py"ai_notes") JNull) as [notes|e];
    [|right; left; eauto].
  destruct (sqlite_bind notes) as [notes_v|e]; [|right; left; eauto].
  right; right. eexists prompt, _, _, _. reflexivity.
Qed.

(** X15. Adaptive reschedule rewrites only the blocks and the note of the
    user's rows for today: whatever its outcome, every other table is
    unchanged, each schedule row keeps its identifier, user, date, total
    work hours and creation time, rows of other users or days are untouched,
    and a run that raises leaves the schedules exactly as they were. *)
Theorem reschedule_frame `{Externals}
    (user_id : str) (today : date) (now_str : str) (w : World) :
  let run := adaptive_reschedule_today user_id today now_str w in
  let w' := snd run in
  users w' = users w /\ goals w' = goals w /\ habits w' = habits w /\
  habit_logs w' = habit_logs w /\ daily_checkins w' = daily_checkins w /\
  chat_sessions w' = chat_sessions w /\
  List.map row_frame (schedules w') = List.map row_frame (schedules w) /\
  (forall r, In r (schedules w) -> schedule_of user_id today r = false ->
             In r (schedules w')) /\
  (forall e, fst run = Raise e -> schedules w' = schedules w).
Proof.
  intros run w'. subst w'.
  destruct (adaptive_reschedule_outcomes user_id today now_str w)
    as [Hw|[(prompt & e & Hrun)|(prompt & schedule & blocks & notes & Hrun)]];
    fold run in Hw || fold run in Hrun.
  - rewrite Hw. repeat split; auto.
  - rewrite Hrun. simpl. repeat split; auto.
  - rewrite Hrun. simpl.
    destruct (update_blocks_frame user_id today blocks notes (schedules w))
      as [Hframe Hother].
    repeat split; auto. intros e He. discriminate.
Qed.





(** ** The schedules table under its writers *)

Lemma NoDup_map_filter {A B} (g : A -> B) (f : A -> bool) (l : list A) :
  NoDup (List.map g l) -> NoDup (List.map g (List.filter f l)).
Proof.
  induction l as [|x l IH]; simpl; intros Hnd; [constructor|].
  apply NoDup_cons in Hnd as [Hx Hnd].
  destruct (f x); simpl; [|auto].
  apply NoDup_cons. split; [|auto].
  intros Hin. apply Hx. apply list_elem_of_In in Hin.
  apply list_elem_of_In.
  apply in_map_iff in Hin as (y & Hy & Hin). apply in_map_iff.
  exists y. split; [exact Hy|]. now apply List.filter_In in Hin as [Hin _].
Qed.

Lemma NoDup_insert_or_replace (row : ScheduleRow) (rows : list ScheduleRow) :
  NoDup (List.map s_schedule_id rows) ->
  NoDup (List.map s_schedule_id (insert_or_replace row rows)).
Proof.
  intros Hnd. unfold insert_or_replace. rewrite List.map_app. simpl.
  apply NoDup_app. split; [now apply NoDup_map_filter|].
  split; [|apply NoDup_singleton].
  intros x Hin Hx. apply list_elem_of_singleton in Hx. subst x.
  apply list_elem_of_In in Hin.
  apply in_map_iff in Hin as (r & Hr & Hin).
  apply List.filter_In in Hin as [_ Hin].
  apply negb_true_iff, bool_decide_eq_false in Hin. contradiction.
Qed.

Lemma update_blocks_ids (user_id : str) (d : date) (blocks notes : JSON)
    (rows : list ScheduleRow) :
  List.map s_schedule_id (update_blocks user_id d blocks notes rows)
  = List.map s_schedule_id rows.
Proof.
  unfold update_blocks. rewrite List.map_map. apply List.map_ext.
  intros r. now destruct (schedule_of user_id d r).
Qed.

Lemma update_task_status_ids (user_id : str) (today : date)
    (update : TaskStatusUpdate) (w : World) :
  List.map s_schedule_id
    (schedules (snd (update_task_status user_id today update w)))
  = List.map s_schedule_id (schedules w).
Proof.
  unfold update_task_status, mbind, M_bind, gets, lift, modify, raise.
  destruct (List.find _ _) as [row|]; [|reflexivity].
  destruct (py_iter (s_time_blocks row)) as [blocks|]; [|reflexivity].
  destruct (update_first update blocks) as [[blocks'|]|]; try reflexivity.
  simpl. apply set_time_blocks_ids.
Qed.

(** X17. The three handlers that write the schedules table keep its
    primary key: if no two rows share a schedule identifier before schedule
    generation, adaptive reschedule or a task status update, none do
    afterwards, whatever the outcome of the handler. *)
Theorem schedule_ids_stay_unique `{Externals} (w : World)
    (request : ScheduleGenerateRequest) (now_str created_at : str)
    (user_id : str) (today : date) (update : TaskStatusUpdate) :
  NoDup (List.map s_schedule_id (schedules w)) ->
  NoDup (List.map s_schedule_id
           (schedules (snd (generate_schedule request now_str created_at w))))
  /\
  NoDup (List.map s_schedule_id
           (schedules (snd (adaptive_reschedule_today user_id today now_str w))))
  /\
  NoDup (List.map s_schedule_id
           (schedules (snd (update_task_status user_id today update w)))).
Proof.
  intros Hnd. split; [|split].
  - destruct (generate_schedule_schedules request now_str created_at w)
      as (_ & _ & _ & _ & _ & _ & [Hs|(stored & total & notes & Hs)]);
      rewrite Hs; [exact Hnd|now apply NoDup_insert_or_replace].
  - destruct (adaptive_reschedule_outcomes user_id today now_str w)
      as [Hw|[(prompt & e & Hrun)|(prompt & s & blocks & notes & Hrun)]].
    + now rewrite Hw.
    + now rewrite Hrun.
    + rewrite Hrun. simpl. now rewrite update_blocks_ids.
  - now rewrite update_task_status_ids.
Qed.

Lemma schedule_ids_stay_unique_witness :
  NoDup (List.map s_schedule_id
           (schedules
              (snd (@generate_schedule externals_z request_again
                      (py"2024-01-01T12:00:00") (py"2024-01-01T12:00:01")
                      world_s1)))).
Proof.
  refine (proj1 (@schedule_ids_stay_unique externals_z world_s1 request_again
                   (py"2024-01-01T12:00:00") (py"2024-01-01T12:00:01")
                   (py"u1") 100%Z update_b _)).
  simpl. apply NoDup_singleton.
Defined.

(** ** Adaptive reschedule twice *)

Lemma find_update_blocks (user_id : str) (d : date) (blocks notes : JSON)
    (rows : list ScheduleRow) (row : ScheduleRow) :
  List.find (schedule_of user_id d) rows = Some row ->
  List.find (schedule_of user_id d) (update_blocks user_id d blocks notes rows)
  = Some (mkScheduleRow (s_schedule_id row) (s_user_id row) (s_date row)
            blocks (s_total_work_hrs row) notes (s_created_at row)).
Proof.
  unfold update_blocks. induction rows as [|r rows IH]; simpl; [discriminate|].
  destruct (schedule_of user_id d r) eqn:Hr.
  - intros Hf. injection Hf as <-.
    unfold schedule_of in *. simpl. now rewrite Hr.
  - rewrite Hr. exact IH.
Qed.

Lemma filter_missed_kept (now_str : str) (blocks : list TimeBlock) :
  List.filter (is_missed now_str)
    (List.filter (status_is COMPLETED) blocks
     ++ List.filter (is_remaining now_str) blocks) = [].
Proof.
  apply no_missed_filter. intros b Hin [Hstatus Hlt].
  apply in_app_or in Hin as [Hin|Hin]; apply List.filter_In in Hin as [_ Hin].
  - unfold status_is in Hin. apply bool_decide_eq_true in Hin.
    destruct Hstatus; congruence.
  - apply is_remaining_spec in Hin as [_ Hge]. congruence.
Qed.

(** The run of adaptive reschedule when the model's answer does not parse. *)
Lemma reschedule_fallback_run `{Externals}
    (user_id : str) (today : date) (now_str : str) (w : World)
    (schedule : DailySchedule) (ai_response : str) (e : exn) :
  let missed := List.filter (is_missed now_str) (time_blocks schedule) in
  let remaining := List.filter (is_remaining now_str) (time_blocks schedule) in
  let completed := List.filter (status_is COMPLETED) (time_blocks schedule) in
  let prompt := ReschedulePrompt now_str missed remaining in
  (forall b, TimeBlock_new (model_dump b) = Ok b) ->
  fst (get_schedule user_id today w) = Ok (Some schedule) ->
  missed <> [] ->
  planner_output w prompt = Ok ai_response ->
  json_loads (clean ai_response) = Raise e ->
  adaptive_reschedule_today user_id today now_str w =
    (Ok (mkDailySchedule (ds_schedule_id schedule) (ds_user_id schedule)
           (ds_date schedule) (completed ++ remaining)
           (total_work_hours schedule) (JStr (py"No change."))
           (ds_created_at schedule)),
     set_schedules
       (update_blocks user_id today
          (JArr (List.map model_dump (completed ++ remaining)))
          (JStr (py"No change.")) (schedules w))
       (log_remote_call prompt w)).
Proof.
  intros missed remaining completed prompt Hdump Hg Hmissed Hout Hparse.
  apply get_schedule_found in Hg.
  unfold adaptive_reschedule_today, mbind, M_bind. rewrite Hg.
  fold missed remaining completed.
  destruct missed as [|m missed'] eqn:Hm; [congruence|].
  unfold run_planner. fold prompt. rewrite Hout.
  unfold lift, parse_reschedule_response, parse_or. rewrite Hparse.
  simpl try_except. cbv beta iota.
  change (py_get (reschedule_default remaining) (py"time_blocks") (JArr []))
    with (Ok (JArr (List.map model_dump remaining))).
  cbv beta iota. simpl py_iter. cbv beta iota.
  rewrite (traverse_dump remaining Hdump).
  reflexivity.
Qed.

(** X18. Rescheduling again changes nothing after a fallback: when the
    model's answer did not parse, a second adaptive reschedule at the same
    time of day finds no missed block, makes no remote call and returns the
    schedule that the first one returned, leaving the store as the first one
    left it. *)
Theorem reschedule_twice_after_fallback `{Externals}
    (user_id : str) (today : date) (now_str : str) (w : World)
    (schedule : DailySchedule) (ai_response : str) (e : exn) :
  let missed := List.filter (is_missed now_str) (time_blocks schedule) in
  let remaining := List.filter (is_remaining now_str) (time_blocks schedule) in
  let prompt := ReschedulePrompt now_str missed remaining in
  let first := adaptive_reschedule_today user_id today now_str w in
  (forall b, TimeBlock_new (model_dump b) = Ok b) ->
  validate_opt_str (JStr (py"No change.")) = Ok (JStr (py"No change.")) ->
  fst (get_schedule user_id today w) = Ok (Some schedule) ->
  missed <> [] ->
  planner_output w prompt = Ok ai_response ->
  json_loads (clean ai_response) = Raise e ->
  (exists result, fst first = Ok result) /\
  adaptive_reschedule_today user_id today now_str (snd first) = first.
Proof.
  intros missed remaining prompt first Hdump Hnote Hg Hmissed Hout Hparse.
  pose proof (reschedule_fallback_run user_id today now_str w schedule
                ai_response e Hdump Hg Hmissed Hout Hparse) as Hrun.
  cbv zeta in Hrun. fold remaining missed prompt in Hrun.
  set (completed := List.filter (status_is COMPLETED) (time_blocks schedule))
    in *.
  subst first. rewrite Hrun. simpl. split; [eauto|].
  destruct (get_schedule_found_inv _ _ _ _ Hg)
    as (row & dicts & Hfind & _ & _ & Hhours & _ & Hs).
  unfold adaptive_reschedule_today, mbind, M_bind.
  assert (get_schedule user_id today
            (set_schedules
               (update_blocks user_id today
                  (JArr (List.map model_dump (completed ++ remaining)))
                  (JStr (py"No change.")) (schedules w))
               (log_remote_call prompt w))
          = (Ok (Some (mkDailySchedule (ds_schedule_id schedule)
                         (ds_user_id schedule) (ds_date schedule)
                         (completed ++ remaining) (total_work_hours schedule)
                         (JStr (py"No change.")) (ds_created_at schedule))),
             set_schedules
               (update_blocks user_id today
                  (JArr (List.map model_dump (completed ++ remaining)))
                  (JStr (py"No change.")) (schedules w))
               (log_remote_call prompt w))) as Hget.
  { unfold get_schedule, mbind, M_bind, gets, lift. simpl.
    rewrite (find_update_blocks _ _ _ _ _ _ Hfind). simpl.
    rewrite (traverse_dump _ Hdump). simpl. rewrite Hhours, Hnote.
    rewrite Hs. reflexivity. }
  rewrite Hget. simpl.
  unfold completed, remaining. now rewrite filter_missed_kept.
Qed.

Lemma reschedule_twice_witness :
  let first := @adaptive_reschedule_today externals_prose (py"u1") 100%Z
                 (py"13:00") world_s1 in
  @adaptive_reschedule_today externals_prose (py"u1") 100%Z (py"13:00")
    (snd first) = first.
Proof.
  exact (proj2
    (@reschedule_twice_after_fallback externals_prose (py"u1") 100%Z
       (py"13:00") world_s1 schedule_s1 (py"Sorry, I cannot help.")
       JSONDecodeError TimeBlock_of_json_dump eq_refl eq_refl
       ltac:(vm_compute; discriminate) eq_refl eq_refl)).
Defined.

(** ** Habit check-ins, further *)

Lemma api_habit_checkin_run `{Externals}
    (user_id : str) (checkin : HabitCheckIn) (now_str : str) (w : World) :
  let log_id := uuid4 (uuids_drawn w) in
  api_habit_checkin user_id checkin now_str w =
    if existsb (fun l => str_eqb (l_log_id l) log_id) (habit_logs w)
    then (Raise IntegrityError, count_uuid w)
    else (Ok log_id,
          set_habits (List.map (checkin_habit checkin) (habits w))
            (habit_logs w ++
               [mkHabitLogRow log_id (hc_habit_id checkin) user_id
                  (hc_date checkin) (if hc_completed checkin then 1 else 0)%Z
                  (hc_note checkin) now_str])
            (count_uuid w)).
Proof.
  unfold api_habit_checkin, mbind, M_bind, new_uuid, gets, modify, raise.
  simpl. destruct (existsb _ _); reflexivity.
Qed.

Lemma fresh_not_taken `{Externals} (w : World) :
  log_ids_fresh w ->
  existsb (fun l => str_eqb (l_log_id l) (uuid4 (uuids_drawn w)))
    (habit_logs w) = false.
Proof.
  intros Hfresh. apply not_true_is_false. intros Hex.
  apply existsb_exists in Hex as (l & Hin & Heq).
  unfold str_eqb in Heq. apply bool_decide_eq_true in Heq.
  exact (Hfresh l (uuids_drawn w) Hin (le_n _) Heq).
Qed.

Lemma fresh_after_checkin `{Externals}
    (user_id : str) (checkin : HabitCheckIn) (now_str : str) (w : World) :
  (forall n m, uuid4 n = uuid4 m -> n = m) ->
  log_ids_fresh w ->
  log_ids_fresh (snd (api_habit_checkin user_id checkin now_str w)).
Proof.
  intros Hinj Hfresh. rewrite api_habit_checkin_run.
  rewrite fresh_not_taken by exact Hfresh. simpl.
  intros l n Hin Hn. simpl in Hin, Hn.
  apply in_app_or in Hin as [Hin|[<-|[]]].
  - apply Hfresh; [exact Hin|lia].
  - simpl. intros Heq. apply Hinj in Heq. lia.
Qed.

Lemma fold_checkin_streak (checkins : list HabitCheckIn) (h : HabitRow) :
  Forall (fun c => hc_habit_id c = h_habit_id h) checkins ->
  let h' := fold_left (fun h c => checkin_habit c h) checkins h in
  h_habit_id h' = h_habit_id h /\ h_user_id h' = h_user_id h /\
  h_title h' = h_title h /\
  streak_count h' =
    trailing_streak (streak_count h) (rev (List.map hc_completed checkins)).
Proof.
  revert h. induction checkins as [|c checkins IH]; intros h Hall; simpl.
  - auto.
  - apply List.Forall_cons_iff in Hall as [Hc Hall].
    assert (h_habit_id (checkin_habit c h) = h_habit_id h /\
            h_user_id (checkin_habit c h) = h_user_id h /\
            h_title (checkin_habit c h) = h_title h /\
            streak_count (checkin_habit c h) =
              if hc_completed c then (streak_count h + 1)%Z else 0%Z)
      as (Hid & Hu & Ht & Hs).
    { unfold checkin_habit. rewrite bool_decide_eq_true_2 by congruence.
      destruct (hc_completed c); simpl; auto. }
    destruct (IH (checkin_habit c h)) as (Hid' & Hu' & Ht' & Hs').
    { eapply List.Forall_impl; [|exact Hall]. simpl. congruence. }
    split; [congruence|]. split; [congruence|]. split; [congruence|].
    rewrite Hs', Hs. clear.
    induction (rev (List.map hc_completed checkins)) as [|x l IHl]; simpl.
    + reflexivity.
    + destruct x; [|reflexivity]. now rewrite IHl.
Qed.

Lemma checkin_all_tables `{Externals} (user_id : str)
    (checkins : list HabitCheckIn) (now_str : str) :
  (forall n m, uuid4 n = uuid4 m -> n = m) ->
  forall w, log_ids_fresh w ->
  let w' := checkin_all user_id checkins now_str w in
  habits w' =
    List.map (fun h => fold_left (fun h c => checkin_habit c h) checkins h)
      (habits w) /\
  List.map l_habit_id (habit_logs w') =
    List.map l_habit_id (habit_logs w) ++ List.map hc_habit_id checkins /\
  List.map l_completed (habit_logs w') =
    List.map l_completed (habit_logs w)
    ++ List.map (fun c => if hc_completed c then 1 else 0)%Z checkins.
Proof.
  intros Hinj. induction checkins as [|c checkins IH]; intros w Hfresh; simpl.
  - rewrite !app_nil_r. split; [|auto]. rewrite <- List.map_id at 1.
    reflexivity.
  - pose proof (fresh_after_checkin user_id c now_str w Hinj Hfresh) as Hnext.
    destruct (IH _ Hnext) as (Hh & Hl & Hc).
    rewrite Hh, Hl, Hc. rewrite api_habit_checkin_run.
    rewrite fresh_not_taken by exact Hfresh. simpl.
    rewrite List.map_map, !List.map_app, <- !app_assoc. simpl. auto.
Qed.

(** X19. After a sequence of check-ins for one habit, sent one after the
    other, the habit's streak count is the number of completed check-ins
    since the last missed one, added to the earlier streak when none was
    missed; every check-in has added one log row, in order.  This holds when
    uuid4 never repeats an identifier and no stored log row already carries
    one it is still to draw. *)
Theorem streak_counts_trailing_completions `{Externals}
    (user_id : str) (checkins : list HabitCheckIn) (now_str : str)
    (w : World) (h : HabitRow) :
  let w' := checkin_all user_id checkins now_str w in
  (forall n m, uuid4 n = uuid4 m -> n = m) ->
  log_ids_fresh w ->
  In h (habits w) ->
  Forall (fun c => hc_habit_id c = h_habit_id h) checkins ->
  (exists h',
     In h' (habits w') /\ h_habit_id h' = h_habit_id h /\
     h_title h' = h_title h /\
     streak_count h' =
       trailing_streak (streak_count h)
         (rev (List.map hc_completed checkins))) /\
  List.map l_completed (habit_logs w') =
    List.map l_completed (habit_logs w)
    ++ List.map (fun c => if hc_completed c then 1 else 0)%Z checkins.
Proof.
  intros w' Hinj Hfresh Hin Hall.
  destruct (checkin_all_tables user_id checkins now_str Hinj w Hfresh)
    as (Hh & _ & Hc).
  destruct (fold_checkin_streak checkins h Hall) as (Hid & _ & Ht & Hs).
  split; [|exact Hc].
  exists (fold_left (fun h c => checkin_habit c h) checkins h).
  subst w'. rewrite Hh. split; [|auto].
  apply in_map_iff. eauto.
Qed.

Lemma example_uuid4_injective (table : list (str * JSON)) (answer : Result str)
    (n m : nat) :
  @uuid4 (Example.externals table answer) n
    = @uuid4 (Example.externals table answer) m -> n = m.
Proof.
  simpl. intros Heq. inversion Heq. lia.
Qed.

Lemma streak_counts_witness :
  exists h',
    In h' (habits (@checkin_all externals_prose (py"u1")
                     [ checkin_h1 true 101%Z; checkin_h1 false 102%Z;
                       checkin_h1 true 103%Z; checkin_h1 true 104%Z ]
                     (py"2024-01-01T21:00:00") world_habit)) /\
    streak_count h' = 2%Z.
Proof.
  destruct (@streak_counts_trailing_completions externals_prose (py"u1")
              [ checkin_h1 true 101%Z; checkin_h1 false 102%Z;
                checkin_h1 true 103%Z; checkin_h1 true 104%Z ]
              (py"2024-01-01T21:00:00") world_habit habit_h1
              (example_uuid4_injective _ _)
              ltac:(intros l n [])
              ltac:(now left)
              ltac:(repeat constructor))
    as ((h' & Hin & _ & _ & Hs) & _).
  exists h'. split; [exact Hin|exact Hs].
Defined.

(** X20. A habit check-in never checks that the habit exists: when no habit
    has the given identifier, the check-in still succeeds and adds its log
    row, and the habits table is left as it was. *)
Theorem checkin_of_unknown_habit `{Externals}
    (user_id : str) (checkin : HabitCheckIn) (now_str : str) (w : World) :
  let log_id := uuid4 (uuids_drawn w) in
  let run := api_habit_checkin user_id checkin now_str w in
  (forall h, In h (habits w) -> h_habit_id h <> hc_habit_id checkin) ->
  existsb (fun l => str_eqb (l_log_id l) log_id) (habit_logs w) = false ->
  fst run = Ok log_id /\
  habits (snd run) = habits w /\
  habit_logs (snd run) =
    habit_logs w ++
      [mkHabitLogRow log_id (hc_habit_id checkin) user_id (hc_date checkin)
         (if hc_completed checkin then 1 else 0)%Z (hc_note checkin) now_str].
Proof.
  intros log_id run Hnone Hfresh. subst run.
  rewrite api_habit_checkin_run. fold log_id. rewrite Hfresh. simpl.
  split; [reflexivity|]. split; [|reflexivity].
  rewrite <- List.map_id. apply List.map_ext_in.
  intros h Hin. unfold checkin_habit.
  now rewrite bool_decide_eq_false_2 by (apply Hnone; exact Hin).
Qed.

Lemma checkin_of_unknown_habit_witness :
  let run := @api_habit_checkin externals_prose (py"u1")
               (mkHabitCheckIn (py"gone") true 101%Z None)
               (py"2024-01-01T21:00:00") world_habit in
  fst run = Ok (py"uuid-0") /\ habits (snd run) = [habit_h1] /\
  List.map l_habit_id (habit_logs (snd run)) = [py"gone"].
Proof.
  intros run.
  destruct (@checkin_of_unknown_habit externals_prose (py"u1")
              (mkHabitCheckIn (py"gone") true 101%Z None)
              (py"2024-01-01T21:00:00") world_habit)
    as (Hfst & Hh & Hl).
  - intros h [<-|[]]. vm_compute. discriminate.
  - reflexivity.
  - split; [exact Hfst|]. split; [exact Hh|]. fold run in Hl. now rewrite Hl.
Defined.

(** X21. Whatever its outcome, a habit check-in changes no table but the
    habits and the habit log; every habit keeps its identifier, owner and
    title, and a habit with another identifier than the check-in's is left
    as it was.  When the drawn log identifier is already taken, the
    check-in raises IntegrityError and changes no table at all. *)
Theorem checkin_frame `{Externals}
    (user_id : str) (checkin : HabitCheckIn) (now_str : str) (w : World) :
  let run := api_habit_checkin user_id checkin now_str w in
  let w' := snd run in
  users w' = users w /\ goals w' = goals w /\ schedules w' = schedules w /\
  daily_checkins w' = daily_checkins w /\ chat_sessions w' = chat_sessions w /\
  remote_calls w' = remote_calls w /\
  List.map (fun h => (h_habit_id h, h_user_id h, h_title h)) (habits w')
    = List.map (fun h => (h_habit_id h, h_user_id h, h_title h)) (habits w) /\
  (forall h, In h (habits w) -> h_habit_id h <> hc_habit_id checkin ->
             In h (habits w')) /\
  (existsb (fun l => str_eqb (l_log_id l) (uuid4 (uuids_drawn w)))
     (habit_logs w) = true ->
   fst run = Raise IntegrityError /\ same_tables w w').
Proof.
  intros run w'. subst w' run. rewrite api_habit_checkin_run.
  destruct (existsb _ _) eqn:Htaken; simpl.
  - repeat split; auto.
  - repeat split; auto; try discriminate.
    + rewrite List.map_map. apply List.map_ext. intros h.
      unfold checkin_habit.
      destruct (bool_decide _); [destruct (hc_completed checkin)|];
        reflexivity.
    + intros h Hin Hne. apply in_map_iff. exists h. split; [|exact Hin].
      unfold checkin_habit. now rewrite bool_decide_eq_false_2.
Qed.

(** ** Deleting a habit *)

(** X22. Deleting a habit removes exactly the habits with the given
    identifier that belong to the given user and keeps the others in order;
    the habit log is not touched, so the log rows of a deleted habit stay,
    and a deletion by another user removes nothing. *)
Theorem delete_habit_only_own (user_id habit_id : str) (w : World) :
  let w' := snd (api_delete_habit user_id habit_id w) in
  habits w' =
    List.filter
      (fun h => negb (bool_decide (h_habit_id h = habit_id /\ h_user_id h = user_id)))
      (habits w) /\
  (forall h, In h (habits w') ->
             ~ (h_habit_id h = habit_id /\ h_user_id h = user_id)) /\
  habit_logs w' = habit_logs w /\
  ((forall h, In h (habits w) ->
      h_habit_id h = habit_id -> h_user_id h <> user_id) ->
   habits w' = habits w).
Proof.
  intros w'. subst w'. unfold api_delete_habit, modify. simpl.
  assert (forall h,
            negb (bool_decide (h_habit_id h = habit_id)
                  && bool_decide (h_user_id h = user_id))
            = negb (bool_decide (h_habit_id h = habit_id
                                 /\ h_user_id h = user_id))) as Hsame.
  { intros h. f_equal.
    repeat case_bool_decide; simpl; first [reflexivity | exfalso; tauto]. }
  split; [apply List.filter_ext; exact Hsame|].
  split.
  - intros h Hin. apply List.filter_In in Hin as [_ Hin].
    rewrite Hsame in Hin. apply negb_true_iff, bool_decide_eq_false in Hin.
    exact Hin.
  - split; [reflexivity|]. intros Hother.
    induction (habits w) as [|h hs IH]; simpl; [reflexivity|].
    rewrite Hsame.
    rewrite bool_decide_eq_false_2; simpl.
    + f_equal. apply IH. intros h0 Hin. apply Hother. now right.
    + intros [Hid Hu]. exact (Hother h ltac:(now left) Hid Hu).
Qed.

(** ** Coach chat, continued *)

Lemma traverse_dump_message_stamped (msgs : list ChatMessage) :
  (exists m, In m msgs /\ cm_timestamp m <> None) ->
  traverse dump_message msgs = Raise TypeError.
Proof.
  intros (m & Hin & Hstamp).
  induction msgs as [|m0 msgs IH]; [destruct Hin|].
  simpl. destruct Hin as [->|Hin].
  - unfold dump_message. destruct (cm_timestamp m); [reflexivity|congruence].
  - rewrite (IH Hin). unfold dump_message.
    destruct (cm_timestamp m0); reflexivity.
Qed.

(** X23. A chat request whose conversation history holds a message with a
    timestamp fails with TypeError while the prompt is assembled: the coach
    is not called and nothing is stored. *)
Theorem chat_rejects_timestamped_history `{Externals}
    (request : ChatRequest) (today : date) (now_str : str) (w : World)
    (msgs : list ChatMessage) :
  conversation_history request = Some msgs ->
  (exists m, In m msgs /\ cm_timestamp m <> None) ->
  api_chat request today now_str w = (Raise TypeError, w).
Proof.
  intros Hmsgs Hstamp. unfold api_chat, mbind, M_bind, lift.
  rewrite Hmsgs. simpl default.
  now rewrite (traverse_dump_message_stamped msgs Hstamp).
Qed.

Lemma chat_rejects_timestamped_history_witness :
  @api_chat externals_coach request_stamped 100%Z (py"2024-01-01T09:00:00")
    world_chat
  = (Raise TypeError, world_chat).
Proof.
  apply (@chat_rejects_timestamped_history externals_coach request_stamped
           100%Z (py"2024-01-01T09:00:00") world_chat _ eq_refl).
  eexists. split; [right; left; reflexivity|discriminate].
Defined.

(** X24. When the coach's answer is not JSON once its fences are stripped,
    the chat handler takes the raw answer, fences and surrounding white space
    included, as the reply: it is what the response is built from, with no
    suggested actions, and what is stored as the assistant's message. *)
Theorem chat_reply_falls_back_to_raw_text `{Externals}
    (request : ChatRequest) (today : date) (now_str : str) (w : World)
    (hist : list JSON) (raw : str) (e : exn) :
  let prompt :=
    CoachPrompt (cr_message request) (default today (context_date request))
      hist in
  let run := api_chat request today now_str w in
  traverse dump_message (default [] (conversation_history request)) = Ok hist ->
  coach_output w prompt = Ok raw ->
  json_loads (coach_clean raw) = Raise e ->
  fst run = ChatResponse_new (JStr raw) (JArr []) /\
  api_chat_history (cr_user_id request) (snd run) =
    hist ++ [ chat_entry (py"user") (JStr (cr_message request)) now_str;
              chat_entry (py"assistant") (JStr raw) now_str ] /\
  remote_calls (snd run) = remote_calls w ++ [prompt].
Proof.
  intros prompt run Hhist Hout Hloads. subst run.
  unfold api_chat, mbind, M_bind, lift, run_coach, modify.
  rewrite Hhist. fold prompt. rewrite Hout.
  unfold parse_coach_output. rewrite Hloads. simpl.
  destruct (ChatResponse_new (JStr raw) (JArr [])); simpl;
    (split; [reflexivity|]); (split; [apply history_after_upsert|reflexivity]).
Qed.

Lemma chat_reply_falls_back_witness :
  let now_str := py"2024-01-01T09:00:00" in
  let run := @api_chat externals_prose request_no_history 100%Z now_str
               world_chat in
  fst run = Ok (mkChatResponse (py"Sorry, I cannot help.") (Some [])) /\
  api_chat_history (py"u1") (snd run) =
    [ chat_entry (py"user") (JStr (py"Thanks")) now_str;
      chat_entry (py"assistant") (JStr (py"Sorry, I cannot help.")) now_str ].
Proof.
  intros now_str run.
  destruct (@chat_reply_falls_back_to_raw_text externals_prose
              request_no_history 100%Z now_str world_chat []
              (py"Sorry, I cannot help.") JSONDecodeError
              eq_refl eq_refl eq_refl) as (Hfst & Hhist & _).
  split; [exact Hfst|exact Hhist].
Defined.

Lemma session_id_of_inj (u u' : str) :
  session_id_of u = session_id_of u' -> u = u'.
Proof. unfold session_id_of. apply app_inv_tail. Qed.

Lemma upsert_session_other (user_id : str) (new_history : list JSON)
    (now_str : str) (cs : gmap str ChatSessionRow) (k : str) :
  k <> session_id_of user_id ->
  upsert_session user_id new_history now_str cs !! k = cs !! k.
Proof.
  intros Hne. unfold upsert_session.
  destruct (cs !! session_id_of user_id);
    now rewrite lookup_insert_ne by congruence.
Qed.

Lemma upsert_session_keyed (user_id : str) (new_history : list JSON)
    (now_str : str) (cs : gmap str ChatSessionRow) :
  sessions_keyed cs ->
  sessions_keyed (upsert_session user_id new_history now_str cs).
Proof.
  intros Hkeyed k row. unfold upsert_session.
  destruct (cs !! session_id_of user_id) as [old|] eqn:Hold;
    (destruct (decide (k = session_id_of user_id)) as [->|Hne];
     [rewrite lookup_insert_eq; intros [= <-]; simpl
     |rewrite lookup_insert_ne by congruence; apply Hkeyed]).
  - exact (Hkeyed _ _ Hold).
  - reflexivity.
Qed.

(** What a chat message can do to the store: nothing but record the call
    of the coach, or that and the upsert of the user's session. *)
Lemma api_chat_outcomes `{Externals}
    (request : ChatRequest) (today : date) (now_str : str) (w : World) :
  let w' := snd (api_chat request today now_str w) in
  users w' = users w /\ goals w' = goals w /\ schedules w' = schedules w /\
  habits w' = habits w /\ habit_logs w' = habit_logs w /\
  daily_checkins w' = daily_checkins w /\ uuids_drawn w' = uuids_drawn w /\
  (chat_sessions w' = chat_sessions w \/
   exists new_history,
     chat_sessions w' =
       upsert_session (cr_user_id request) new_history now_str
         (chat_sessions w)).
Proof.
  intros w'. subst w'.
  unfold api_chat, mbind, M_bind, lift, run_coach, modify.
  destruct (traverse dump_message _) as [hist|e]; simpl; [|tauto].
  destruct (coach_output w _) as [raw|e]; simpl; [|tauto].
  destruct (parse_coach_output raw) as [result|e]; simpl; [|tauto].
  destruct (py_get result (py"reply") (JStr [])) as [answer|e]; simpl; [|tauto].
  destruct (py_get result (py"suggested_actions") (JArr [])) as [actions|e];
    simpl; [destruct (ChatResponse_new answer actions); simpl|];
    repeat (split; [reflexivity|]); right; eexists; reflexivity.
Qed.

(** X25. A chat message touches no table but the chat sessions, and there
    only the session of the user who sent it: the stored history of every
    other user is as before, and if every session was stored under its own
    user's key, this is still so afterwards. *)
Theorem chat_touches_own_session_only `{Externals}
    (request : ChatRequest) (today : date) (now_str : str) (w : World) :
  let w' := snd (api_chat request today now_str w) in
  users w' = users w /\ goals w' = goals w /\ schedules w' = schedules w /\
  habits w' = habits w /\ habit_logs w' = habit_logs w /\
  daily_checkins w' = daily_checkins w /\
  (forall u, u <> cr_user_id request ->
             api_chat_history u w' = api_chat_history u w) /\
  (sessions_keyed (chat_sessions w) -> sessions_keyed (chat_sessions w')).
Proof.
  intros w'.
  destruct (api_chat_outcomes request today now_str w)
    as (Hu & Hg & Hs & Hh & Hl & Hc & _ & Hcs).
  fold w' in Hu, Hg, Hs, Hh, Hl, Hc, Hcs.
  repeat (split; [assumption|]).
  destruct Hcs as [Hcs|(new_history & Hcs)].
  - split; [|now rewrite Hcs].
    intros u _. unfold api_chat_history. now rewrite Hcs.
  - split.
    + intros u Hne. unfold api_chat_history. rewrite Hcs.
      rewrite upsert_session_other; [reflexivity|].
      intros Heq. apply Hne. now apply session_id_of_inj.
    + intros Hkeyed. rewrite Hcs. now apply upsert_session_keyed.
Qed.

(** X26. In a store where every session is kept under its own user's key,
    clearing a user's history leaves that user with an empty history and
    every other user's history as it was; the sessions that remain are still
    kept under their users' keys and no other table changes. *)
Theorem clear_history_clears_own_session (user_id : str) (w : World) :
  let w' := snd (api_clear_history user_id w) in
  sessions_keyed (chat_sessions w) ->
  api_chat_history user_id w' = [] /\
  (forall u, u <> user_id -> api_chat_history u w' = api_chat_history u w) /\
  sessions_keyed (chat_sessions w') /\
  users w' = users w /\ goals w' = goals w /\ schedules w' = schedules w /\
  habits w' = habits w /\ habit_logs w' = habit_logs w /\
  daily_checkins w' = daily_checkins w.
Proof.
  intros w' Hkeyed. subst w'. unfold api_clear_history, modify. simpl.
  unfold api_chat_history. simpl.
  split; [|split; [|split; [|tauto]]].
  - destruct (filter _ (chat_sessions w) !! session_id_of user_id)
      as [row|] eqn:Hrow; [|reflexivity].
    apply map_lookup_filter_Some in Hrow as [Hrow Hkeep]. simpl in Hkeep.
    apply Hkeyed, session_id_of_inj in Hrow. congruence.
  - intros u Hne.
    destruct (chat_sessions w !! session_id_of u) as [row|] eqn:Hrow.
    + assert (filter (fun kv => cs_user_id (snd kv) <> user_id)
                (chat_sessions w) !! session_id_of u = Some row) as ->;
        [|reflexivity].
      apply map_lookup_filter_Some. split; [exact Hrow|]. simpl.
      apply Hkeyed, session_id_of_inj in Hrow. congruence.
    + assert (filter (fun kv => cs_user_id (snd kv) <> user_id)
                (chat_sessions w) !! session_id_of u = None) as ->;
        [|reflexivity].
      apply map_lookup_filter_None. now left.
  - intros k row Hrow.
    apply map_lookup_filter_Some in Hrow as [Hrow _]. now apply Hkeyed.
Qed.

Lemma world_chat_keyed : sessions_keyed (chat_sessions world_chat).
Proof.
  intros k row Hrow. unfold world_chat in Hrow. simpl in Hrow.
  apply lookup_insert_Some in Hrow as [[<- <-]|[_ Hrow]]; [reflexivity|].
  now rewrite lookup_empty in Hrow.
Qed.

Lemma clear_history_witness :
  api_chat_history (py"u1") world_chat = stored_history /\
  api_chat_history (py"u1") (snd (api_clear_history (py"u1") world_chat)) = [].
Proof.
  split; [vm_compute; reflexivity|].
  exact (proj1 (clear_history_clears_own_session (py"u1") world_chat
                  world_chat_keyed)).
Defined.

(** ** User profiles *)

Lemma dict_merge_other {V} (existing new : list (str * V)) (k : str) :
  ~ In k (List.map fst new) ->
  dict_get (fold_left (fun d kv => dict_set d (fst kv) (snd kv)) new existing) k
  = dict_get existing k.
Proof.
  revert existing. induction new as [|[k0 v0] new IH]; intros existing Hk;
    simpl; [reflexivity|].
  rewrite IH by (intros Hin; apply Hk; now right).
  apply dict_get_set_other. intros ->. apply Hk. now left.
Qed.

Lemma dict_merge_in {V} (existing new : list (str * V)) (k : str) (v : V) :
  List.NoDup (List.map fst new) -> In (k, v) new ->
  dict_get (fold_left (fun d kv => dict_set d (fst kv) (snd kv)) new existing) k
  = Some v.
Proof.
  revert existing. induction new as [|[k0 v0] new IH]; intros existing Hnd Hin;
    [destruct Hin|].
  simpl in Hnd. apply List.NoDup_cons_iff in Hnd as [Hk0 Hnd].
  simpl. destruct Hin as [[= -> ->]|Hin].
  - rewrite dict_merge_other by exact Hk0. apply dict_get_set_same.
  - now apply IH.
Qed.

Lemma profile_dump_keys (p : UserProfileCreate) :
  List.map fst (profile_dump p) =
    [ py"name"; py"wake_time"; py"sleep_time"; py"peak_energy_period";
      py"available_hours_per_day"; py"work_start"; py"work_end"; py"timezone";
      py"deep_work_preference"; py"break_frequency_minutes" ].
Proof. reflexivity. Qed.

Lemma profile_dump_NoDup (p : UserProfileCreate) :
  List.NoDup (List.map fst (profile_dump p)).
Proof.
  rewrite profile_dump_keys.
  repeat (apply List.NoDup_cons; [vm_compute; intuition discriminate|]).
  apply List.NoDup_nil.
Qed.

(** X27. Registration followed by a lookup: when the drawn identifier is
    free, the new user is stored under it and a lookup returns the ten
    profile fields as sent, followed by the identifier; every other user's
    profile is as before.  When the identifier is taken, registration raises
    IntegrityError and the stored profiles do not change. *)
Theorem register_then_get_user `{Externals}
    (profile : UserProfileCreate) (w : World) :
  let user_id := uuid4 (uuids_drawn w) in
  let run := api_register_user profile w in
  (users w !! user_id = None ->
   fst run = Ok user_id /\
   api_get_user user_id (snd run) =
     Returned (JObj (profile_dump profile ++ [(py"user_id", JStr user_id)])) /\
   (forall u, u <> user_id -> api_get_user u (snd run) = api_get_user u w)) /\
  (is_Some (users w !! user_id) ->
   fst run = Raise IntegrityError /\ same_tables w (snd run)).
Proof.
  intros user_id run. subst run.
  unfold api_register_user, mbind, M_bind, new_uuid, gets, modify, raise.
  simpl. fold user_id. split.
  - intros Hfree. rewrite bool_decide_eq_false_2
      by (rewrite Hfree; apply is_Some_None).
    simpl. split; [reflexivity|]. unfold api_get_user. simpl. split.
    + now rewrite lookup_insert_eq.
    + intros u Hne. now rewrite lookup_insert_ne by congruence.
  - intros Htaken. rewrite bool_decide_eq_true_2 by exact Htaken.
    simpl. split; [reflexivity|]. repeat split.
Qed.

Lemma register_then_get_user_witness :
  let run := @api_register_user externals_prose profile_ann world_u1 in
  fst run = Ok (py"uuid-0") /\
  api_get_user (py"uuid-0") (snd run) =
    Returned (JObj (profile_dump profile_ann
                    ++ [(py"user_id", JStr (py"uuid-0"))])) /\
  api_get_user (py"u1") (snd run) = Returned (JObj []).
Proof.
  intros run.
  destruct (proj1 (@register_then_get_user externals_prose profile_ann world_u1)
              eq_refl) as (Hfst & Hget & Hother).
  split; [exact Hfst|]. split; [exact Hget|].
  fold run in Hother. rewrite Hother; [reflexivity|]. vm_compute. discriminate.
Defined.

(** X28. A profile update of a stored user overwrites the ten profile
    fields with the ones sent and keeps every other key of the stored
    profile, the user identifier among them; what it returns is what a later
    lookup returns, and the other users' profiles are as before.  For an
    unknown user it answers 404 and writes nothing. *)
Theorem update_user_merges_profile
    (user_id : str) (profile : UserProfileCreate) (w : World) :
  let run := api_update_user user_id profile w in
  (forall existing, users w !! user_id = Some (JObj existing) ->
   exists updated,
     fst run = Ok (Returned (JObj updated)) /\
     api_get_user user_id (snd run) = Returned (JObj updated) /\
     (forall k v, In (k, v) (profile_dump profile) ->
                  dict_get updated k = Some v) /\
     (forall k, ~ In k (List.map fst (profile_dump profile)) ->
                dict_get updated k = dict_get existing k) /\
     (forall u, u <> user_id -> api_get_user u (snd run) = api_get_user u w)) /\
  (users w !! user_id = None -> run = (Ok (HTTPException 404), w)).
Proof.
  intros run. subst run.
  unfold api_update_user, mbind, M_bind, mret, M_ret, gets, modify. split.
  - intros existing Hrow. rewrite Hrow. cbn beta iota.
    exists (dict_merge existing (profile_dump profile)).
    split; [reflexivity|]. unfold api_get_user.
    cbn [fst snd users set_users].
    split; [now rewrite lookup_insert_eq|].
    split; [|split].
    + intros k v Hin. apply dict_merge_in; [apply profile_dump_NoDup|exact Hin].
    + intros k Hk. now apply dict_merge_other.
    + intros u Hne. now rewrite lookup_insert_ne by congruence.
  - intros Hnone. now rewrite Hnone.
Qed.

Lemma update_user_merges_profile_witness :
  let run := api_update_user (py"u1") profile_ann_late world_ann in
  exists updated,
    api_get_user (py"u1") (snd run) = Returned (JObj updated) /\
    dict_get updated (py"wake_time") = Some (JStr (py"08:00")) /\
    dict_get updated (py"user_id") = Some (JStr (py"u1")) /\
    dict_get updated (py"plan") = Some (JStr (py"pro")).
Proof.
  intros run.
  destruct (proj1 (update_user_merges_profile (py"u1") profile_ann_late
                     world_ann) _ eq_refl)
    as (updated & _ & Hget & Hnew & Hold & _).
  exists updated. split; [exact Hget|]. split; [|split].
  - apply Hnew. right. left. reflexivity.
  - rewrite Hold; [reflexivity|]. vm_compute. intuition discriminate.
  - rewrite Hold; [reflexivity|]. vm_compute. intuition discriminate.
Defined.

(** ** Fence stripping in general *)

Lemma fence_safe_spec (a : N) :
  fence_safe a = true ->
  isspace a = false /\ mem fence_json a = false /\ mem fence a = false.
Proof.
  unfold fence_safe. intros Hsafe.
  apply andb_true_iff in Hsafe as [Hs Hm].
  apply negb_true_iff in Hs. apply negb_true_iff in Hm.
  split; [exact Hs|]. split; [exact Hm|].
  unfold mem, fence_json, fence in *. simpl in *.
  destruct (N.eqb a 96); [discriminate|reflexivity].
Qed.

Lemma strip_safe (a z : N) (mid : str) :
  isspace a = false -> isspace z = false ->
  strip (a :: mid ++ [z]) = a :: mid ++ [z].
Proof.
  intros Ha Hz.
  pose proof (strip_core [] [] mid a z (List.Forall_nil _) (List.Forall_nil _) Ha Hz)
    as Hs.
  cbn [app] in Hs. now rewrite app_nil_r in Hs.
Qed.

(** Between the fences the text starts and ends outside the fence
    characters. *)
Lemma safe_head (ws1 rest : str) (a : N) :
  whitespace ws1 -> fence_safe a = true ->
  exists x tl, ws1 ++ a :: rest = x :: tl /\
               mem fence_json x = false /\ mem fence x = false.
Proof.
  intros Hws Ha. destruct Hws as [|c ws1 Hc _].
  - exists a, rest. split; [reflexivity|]. now apply fence_safe_spec.
  - exists c, (ws1 ++ a :: rest). split; [reflexivity|].
    split; [now apply space_not_in_fence_json|now apply space_not_in_fence].
Qed.

Lemma safe_last (pre ws2 : str) (z : N) :
  whitespace ws2 -> fence_safe z = true ->
  exists ini y, pre ++ z :: ws2 = ini ++ [y] /\
                mem fence_json y = false /\ mem fence y = false.
Proof.
  intros Hws Hz.
  destruct (List.rev ws2) as [|y rws] eqn:Hrev.
  - assert (ws2 = []) as -> by (apply (f_equal (@List.rev N)) in Hrev;
      now rewrite rev_involutive in Hrev).
    exists pre, z. split; [reflexivity|]. now apply fence_safe_spec.
  - assert (ws2 = List.rev rws ++ [y]) as Hw.
    { apply (f_equal (@List.rev N)) in Hrev.
      now rewrite rev_involutive in Hrev. }
    exists (pre ++ z :: List.rev rws), y. split.
    + rewrite Hw. now rewrite <- app_assoc.
    + assert (isspace y = true) as Hy.
      { unfold whitespace in Hws. rewrite List.Forall_forall in Hws.
        apply Hws. rewrite Hw. apply in_or_app. right. now left. }
      split; [now apply space_not_in_fence_json|now apply space_not_in_fence].
Qed.

Lemma strip_fenced_any (body raw : str) :
  fenced_any body raw ->
  exists tag ws1 ws2,
    (tag = py"json" \/ tag = []) /\ whitespace ws1 /\ whitespace ws2 /\
    strip raw = (fence ++ tag) ++ (ws1 ++ body ++ ws2) ++ fence.
Proof.
  intros (ws0 & tag & ws1 & ws2 & ws3 & H0 & H1 & H2 & H3 & Htag & ->).
  exists tag, ws1, ws2. split; [exact Htag|]. split; [exact H1|].
  split; [exact H2|].
  pose (mid := [96; 96]%N ++ tag ++ (ws1 ++ body ++ ws2) ++ [96; 96]%N).
  replace (ws0 ++ fence ++ tag ++ ws1 ++ body ++ ws2 ++ fence ++ ws3)
    with (ws0 ++ (96%N :: mid ++ [96%N]) ++ ws3)
    by (unfold mid, fence; simpl; now rewrite <- !app_assoc).
  rewrite strip_core by (assumption || reflexivity).
  unfold mid, fence. simpl. now rewrite <- !app_assoc.
Qed.

Lemma tagged_fence_all (tag : str) :
  tag = py"json" \/ tag = [] ->
  Forall (fun c => mem fence_json c = true) (fence ++ tag).
Proof. intros [->| ->]; repeat constructor. Qed.

Lemma clean_fenced_any (body raw : str) :
  fence_proof_text body -> fenced_any body raw \/ bare body raw ->
  clean raw = body /\ coach_clean raw = body.
Proof.
  intros (a & inner & z & -> & Ha & Hz) Hraw.
  destruct (fence_safe_spec a Ha) as (Has & Ha1 & Ha2).
  destruct (fence_safe_spec z Hz) as (Hzs & Hz1 & Hz2).
  unfold clean, coach_clean, strip_chars.
  change (py"```json") with fence_json. change (py"```") with fence.
  destruct Hraw as [Hf|(ws0 & ws3 & H0 & H3 & ->)].
  - destruct (strip_fenced_any _ raw Hf) as (tag & ws1 & ws2 & Htag & H1 & H2 & Hs).
    rewrite Hs. clear Hs Hf.
    destruct (safe_head ws1 ((inner ++ [z]) ++ ws2) a H1 Ha)
      as (x & tl & Hx & Hx1 & Hx2).
    destruct (safe_last (ws1 ++ a :: inner) ws2 z H2 Hz)
      as (ini & y & Hy & Hy1 & Hy2).
    assert (ws1 ++ (a :: inner ++ [z]) ++ ws2 = x :: tl) as Hhead
      by (rewrite <- Hx; reflexivity).
    assert (ws1 ++ (a :: inner ++ [z]) ++ ws2 = ini ++ [y]) as Hlast.
    { rewrite <- Hy. rewrite <- !app_assoc. simpl. now rewrite <- !app_assoc. }
    assert (strip (ws1 ++ (a :: inner ++ [z]) ++ ws2) = a :: inner ++ [z])
      as Hcore by now apply strip_core.
    unfold lstrip, rstrip. split.
    + rewrite lstrip_by_all by (now apply tagged_fence_all).
      rewrite Hhead. simpl app at 1.
      rewrite !lstrip_by_head by assumption.
      change (x :: tl ++ fence) with ((x :: tl) ++ fence). rewrite <- Hhead.
      rewrite rstrip_by_all by exact fence_all.
      rewrite Hlast, rstrip_by_last by assumption.
      rewrite <- Hlast. exact Hcore.
    + rewrite lstrip_by_all by (now apply tagged_fence_all).
      rewrite Hhead. simpl app at 1.
      rewrite lstrip_by_head by assumption.
      change (x :: tl ++ fence) with ((x :: tl) ++ fence). rewrite <- Hhead.
      rewrite rstrip_by_all by exact fence_in_fence_json.
      rewrite Hlast, rstrip_by_last by assumption.
      rewrite <- Hlast, Hhead, lstrip_by_head by assumption.
      rewrite <- Hhead, Hlast, rstrip_by_last by assumption.
      rewrite <- Hlast. exact Hcore.
  - rewrite strip_core by assumption.
    unfold lstrip, rstrip.
    rewrite !lstrip_by_head by assumption.
    rewrite !app_comm_cons, !rstrip_by_last by assumption.
    rewrite <- !app_comm_cons, !lstrip_by_head by assumption.
    rewrite !app_comm_cons, !rstrip_by_last by assumption.
    rewrite <- !app_comm_cons, strip_safe by assumption. now split.
Qed.

(** X29. The strips before parsing leave a text alone when it starts and
    ends with a character that is neither white space nor one of the
    characters of the fence marker, as a JSON object, array or string does:
    whether the model wraps such a text in a fence tagged json, in an
    untagged fence or in no fence, every extraction site hands the parser
    the text itself and returns what the parser makes of it, or the site's
    default when the parser raises. *)
Theorem fences_stripped_around_text `{Externals}
    (c : Capability) (body raw : str) :
  fence_proof_text body ->
  fenced_any body raw \/ bare body raw ->
  cleaned c raw = body /\
  extract c raw = try_except (json_loads body) (Ok (default_of c raw)).
Proof.
  intros Hbody Hraw.
  destruct (clean_fenced_any body raw Hbody Hraw) as [Hclean Hcoach].
  assert (cleaned c raw = body) as Hc by (destruct c; assumption).
  split; [exact Hc|]. now rewrite extract_unfold, Hc.
Qed.

Lemma fences_stripped_witness :
  @extract (Example.externals
              [(py"[1, 2]", JArr [JNum 1; JNum 2])] (Ok fenced_array))
    HabitSuggestions fenced_array
  = Ok (JArr [JNum 1; JNum 2]).
Proof.
  refine (eq_trans
    (proj2 (@fences_stripped_around_text
              (Example.externals
                 [(py"[1, 2]", JArr [JNum 1; JNum 2])] (Ok fenced_array))
              HabitSuggestions (py"[1, 2]") fenced_array _ _)) _).
  - exists 91%N, (py"1, 2"), 93%N. repeat split.
  - left. exists [], [], [10%N], [10%N], [].
    do 4 (split; [repeat constructor|]).
    split; [now right|reflexivity].
  - reflexivity.
Defined.

(** X30. A chat message is stored only after the coach's answer has given a
    reply: when the call of the coach raises, the handler raises the same
    exception, and when the answer parses to JSON that is not an object, it
    raises AttributeError; in both cases the call is recorded and no table is
    written, so the stored history is as before. *)
Theorem chat_failure_stores_nothing `{Externals}
    (request : ChatRequest) (today : date) (now_str : str) (w : World)
    (hist : list JSON) :
  let prompt :=
    CoachPrompt (cr_message request) (default today (context_date request))
      hist in
  let run := api_chat request today now_str w in
  traverse dump_message (default [] (conversation_history request)) = Ok hist ->
  (forall e, coach_output w prompt = Raise e ->
             run = (Raise e, log_remote_call prompt w)) /\
  (forall raw result,
     coach_output w prompt = Ok raw ->
     json_loads (coach_clean raw) = Ok result ->
     (forall fields, result <> JObj fields) ->
     run = (Raise AttributeError, log_remote_call prompt w)).
Proof.
  intros prompt run Hhist. subst run.
  unfold api_chat, mbind, M_bind, lift, run_coach, modify.
  rewrite Hhist. fold prompt. split.
  - intros e Hout. now rewrite Hout.
  - intros raw result Hout Hloads Hshape. rewrite Hout.
    unfold parse_coach_output. rewrite Hloads. simpl.
    destruct result as [| | | | |fields]; try reflexivity.
    now destruct (Hshape fields).
Qed.

Lemma chat_failure_stores_nothing_witness :
  let run := @api_chat externals_array request_no_history 100%Z
               (py"2024-01-01T09:00:00") world_chat in
  fst run = Raise AttributeError /\
  api_chat_history (py"u1") (snd run) = stored_history.
Proof.
  intros run.
  pose proof (proj2 (@chat_failure_stores_nothing externals_array
                       request_no_history 100%Z (py"2024-01-01T09:00:00")
                       world_chat [] eq_refl)
                (py"[1, 2]") (JArr [JNum 1; JNum 2]) eq_refl eq_refl
                ltac:(discriminate)) as Hrun.
  fold run in Hrun. rewrite Hrun. split; reflexivity.
Defined.
